(** * Verification of the NDMO schema/data quality engine

    A shallow embedding of the scoring, inference, diagnosis, transformation
    and data-processing code of the repository, and the properties its
    specification states about them.

    Conventions of the embedding
    - a Python [float] is an IEEE binary64 number: Rocq's primitive [float],
      with the same rounding; an [int] counter that only meets floats is
      converted exactly;
    - a Python [dict] whose iteration order matters (the measured scores, the
      standards catalog) is an association list in insertion order; a [dict]
      used as a plain map (column constraints) is a [gmap];
    - a [str] is a [string] of 8-bit characters; [lower()] and the character
      classes of the regular expressions are the ASCII ones;
    - a pandas column is the list of its cells, a missing cell being [CNull];
    - code that can raise returns a [result]. *)

From Stdlib Require Import ZArith List String Ascii Bool Lia Floats.
From Stdlib Require Import Numbers.DecimalString.
From stdpp Require Import base option list strings gmap.

Set Warnings "-inexact-float".
Set Default Proof Using "Type".

Local Open Scope string_scope.
Local Open Scope list_scope.

(** ** Python strings *)

Module PyStr.

Definition lower_ascii (c : ascii) : ascii :=
  let n := nat_of_ascii c in
  if (65 <=? n)%nat && (n <=? 90)%nat then ascii_of_nat (n + 32) else c.

Definition upper_ascii (c : ascii) : ascii :=
  let n := nat_of_ascii c in
  if (97 <=? n)%nat && (n <=? 122)%nat then ascii_of_nat (n - 32) else c.

(** [s.lower()] and [s.upper()] *)
Fixpoint lower (s : string) : string :=
  match s with
  | EmptyString => EmptyString
  | String c s' => String (lower_ascii c) (lower s')
  end.

Fixpoint upper (s : string) : string :=
  match s with
  | EmptyString => EmptyString
  | String c s' => String (upper_ascii c) (upper s')
  end.

(** [sub in s] *)
Fixpoint contains (sub s : string) : bool :=
  String.prefix sub s ||
  match s with
  | EmptyString => false
  | String _ s' => contains sub s'
  end.

(** [s.endswith(suf)] *)
Definition endswith (suf s : string) : bool :=
  let n := String.length s in
  let k := String.length suf in
  (k <=? n)%nat && String.eqb (String.substring (n - k) k s) suf.

(** [s.replace(old, new)] for a non-empty [old]: occurrences are replaced
    from the left and do not overlap. *)
Fixpoint replace_aux (fuel : nat) (old new s : string) : string :=
  match fuel with
  | O => s
  | S fuel' =>
      match s with
      | EmptyString => EmptyString
      | String c s' =>
          if String.prefix old s
          then new ++ replace_aux fuel' old new
                        (String.substring (String.length old)
                           (String.length s - String.length old) s)
          else String c (replace_aux fuel' old new s')
      end
  end.

Definition replace (old new s : string) : string :=
  replace_aux (S (String.length s)) old new s.

(** [str(n)] for an [int] *)
Definition str_of_Z (z : Z) : string := NilZero.string_of_int (Z.to_int z).
Definition str_of_nat (n : nat) : string := NilZero.string_of_uint (Nat.to_uint n).

(** [k in l] for a list of strings *)
Definition mem (k : string) (l : list string) : bool :=
  existsb (String.eqb k) l.

End PyStr.

(** ** Python dictionaries in insertion order *)

Module PyDict.
Section Dict.
Context {V : Type}.

(** [d.get(k)] *)
Fixpoint get (k : string) (d : list (string * V)) : option V :=
  match d with
  | [] => None
  | (k', v) :: d' => if String.eqb k' k then Some v else get k d'
  end.

(** [k in d] *)
Definition has_key (k : string) (d : list (string * V)) : bool :=
  match get k d with Some _ => true | None => false end.

Definition keys (d : list (string * V)) : list string := map fst d.

(** A dictionary holds each key once. *)
Definition wf (d : list (string * V)) : Prop := NoDup (keys d).

End Dict.
End PyDict.

(** ** IEEE binary64 arithmetic as Python uses it *)

Module PyFloat.
Local Open Scope float_scope.

(** [sum(xs)]: a left-to-right sum starting from [0]. *)
Definition fsum (xs : list float) : float := fold_left PrimFloat.add xs 0.

(** An [int] that meets a float is converted first; exact below [2^53]. *)
Definition of_nat (n : nat) : float :=
  PrimFloat.of_uint63 (Uint63.of_Z (Z.of_nat n)).

End PyFloat.

(** ** ndmo_standards.py *)

Module NdmoStandards.
Import PyFloat.
Local Open Scope float_scope.

Inductive ComplianceStatus :=
| COMPLIANT | NON_COMPLIANT | PARTIALLY_COMPLIANT | NOT_APPLICABLE.

Definition value (s : ComplianceStatus) : string :=
  match s with
  | COMPLIANT => "compliant"
  | NON_COMPLIANT => "non_compliant"
  | PARTIALLY_COMPLIANT => "partially_compliant"
  | NOT_APPLICABLE => "not_applicable"
  end.

Record NDMOStandard := mkStandard {
  id : string;
  name : string;
  description : string;
  category : string;
  requirement : string;
  threshold : float;
  weight : float;
  critical : bool
}.

(** [_load_ndmo_standards]: the catalog, in declaration order. *)
Definition _load_ndmo_standards : list (string * NDMOStandard) :=
  [ ("DG001", mkStandard "DG001" "Unique Identifiers"
       "All data records must have unique identifiers" "Data Governance"
       "Primary key must exist and be unique" 1.0 0.2 true);
    ("DG002", mkStandard "DG002" "Data Lineage"
       "Data lineage must be documented and traceable" "Data Governance"
       "Source and transformation history must be documented" 0.8 0.15 false);
    ("DG003", mkStandard "DG003" "Data Ownership"
       "Data ownership must be clearly defined" "Data Governance"
       "Data steward and owner must be identified" 0.9 0.1 false);
    ("DQ001", mkStandard "DQ001" "Data Completeness"
       "Data completeness must meet minimum thresholds" "Data Quality"
       "No more than 5% missing values in critical fields" 0.95 0.25 true);
    ("DQ002", mkStandard "DQ002" "Data Accuracy"
       "Data accuracy must be validated and verified" "Data Quality"
       "Data must pass accuracy validation rules" 0.98 0.2 true);
    ("DQ003", mkStandard "DQ003" "Data Consistency"
       "Data must be consistent across systems" "Data Quality"
       "Data values must be consistent with business rules" 0.95 0.15 false);
    ("DQ004", mkStandard "DQ004" "Data Uniqueness"
       "Duplicate records must be minimized" "Data Quality"
       "No more than 2% duplicate records" 0.98 0.15 false);
    ("DQ005", mkStandard "DQ005" "Data Validity"
       "Data must conform to defined formats and ranges" "Data Quality"
       "Data must pass format and range validation" 0.95 0.15 false);
    ("DQ006", mkStandard "DQ006" "Data Timeliness"
       "Data must be current and up-to-date" "Data Quality"
       "Data must be updated within defined timeframes" 0.9 0.1 false);
    ("DS001", mkStandard "DS001" "Data Encryption"
       "Sensitive data must be encrypted" "Data Security"
       "PII and sensitive data must be encrypted at rest and in transit"
       1.0 0.3 true);
    ("DS002", mkStandard "DS002" "Access Control"
       "Data access must be controlled and monitored" "Data Security"
       "Role-based access control must be implemented" 0.95 0.25 false);
    ("DS003", mkStandard "DS003" "Data Masking"
       "Sensitive data must be masked in non-production environments"
       "Data Security"
       "PII must be masked in test and development environments"
       1.0 0.2 false);
    ("DS004", mkStandard "DS004" "Audit Trail"
       "Data access and modifications must be logged" "Data Security"
       "Complete audit trail must be maintained" 0.95 0.25 false);
    ("DA001", mkStandard "DA001" "Data Modeling"
       "Data models must follow standard conventions" "Data Architecture"
       "Data models must follow naming conventions and best practices"
       0.9 0.2 false);
    ("DA002", mkStandard "DA002" "Data Integration"
       "Data integration must be standardized" "Data Architecture"
       "ETL processes must follow standard patterns" 0.85 0.15 false);
    ("DA003", mkStandard "DA003" "Data Storage"
       "Data storage must follow retention policies" "Data Architecture"
       "Data must be stored according to retention policies" 0.9 0.15 false);
    ("BR001", mkStandard "BR001" "Business Rule Validation"
       "Business rules must be implemented and validated" "Business Rules"
       "All business rules must be documented and implemented"
       0.95 0.3 false);
    ("BR002", mkStandard "BR002" "Data Relationships"
       "Data relationships must be properly defined" "Business Rules"
       "Foreign key relationships must be enforced" 0.9 0.2 false);
    ("BR003", mkStandard "BR003" "Calculated Fields"
       "Calculated fields must be accurate and consistent" "Business Rules"
       "Calculated fields must follow business logic" 0.98 0.25 false) ].

Definition _get_categories : list string :=
  ["Data Governance"; "Data Quality"; "Data Security"; "Data Architecture";
   "Business Rules"].

(** The manager's two attributes, set once by [__init__]. *)
Definition standards : list (string * NDMOStandard) := _load_ndmo_standards.
Definition categories : list string := _get_categories.

Definition get_standard (standard_id : string) : option NDMOStandard :=
  PyDict.get standard_id standards.

Definition get_standards_by_category (c : string) : list NDMOStandard :=
  List.filter (fun std => String.eqb (category std) c) (map snd standards).

Definition get_critical_standards : list NDMOStandard :=
  List.filter critical (map snd standards).

(** The measured scores: a [dict] from standard id to score. *)
Definition results_t : Type := list (string * float).

(** One line of [recommendations]: the values its f-string interpolates. *)
Record recommendation := mkRecommendation {
  rec_name : string;
  rec_score : float;
  rec_threshold : float;
  rec_requirement : string
}.

Record ComplianceResult := mkResult {
  overall_score : float;
  status : string;
  critical_failures : list string;
  category_scores : list (string * float);
  recommendations : list recommendation
}.

(** [_calculate_category_scores] *)
Definition category_score_loop (results : results_t)
    (category_standards : list NDMOStandard) : float :=
  fold_left
    (fun category_score standard =>
       match PyDict.get (id standard) results with
       | Some score => category_score + score * weight standard
       | None => category_score
       end)
    category_standards 0.

Definition _calculate_category_scores (results : results_t)
    : list (string * float) :=
  map (fun c =>
         let category_standards := get_standards_by_category c in
         let category_weight := fsum (map weight category_standards) in
         let category_score := category_score_loop results category_standards in
         (c, if 0 <? category_weight
             then category_score / category_weight else 0))
      categories.

(** [_generate_recommendations]: the body of its loop, then the loop. *)
Definition recommend_step (recs : list recommendation)
    (item : string * float) : list recommendation :=
  let '(standard_id, score) := item in
  match get_standard standard_id with
  | Some standard =>
      if score <? threshold standard
      then recs ++ [mkRecommendation (name standard) score
                      (threshold standard) (requirement standard)]
      else recs
  | None => recs
  end.

Definition _generate_recommendations (results : results_t)
    : list recommendation :=
  fold_left recommend_step results [].

(** The body of the loop of [calculate_compliance_score], on the triple
    [(total_weight, weighted_score, critical_failures)]. *)
Definition score_step (acc : float * float * list string)
    (item : string * float) : float * float * list string :=
  let '(total_weight, weighted_score, failures) := acc in
  let '(standard_id, score) := item in
  match get_standard standard_id with
  | Some standard =>
      (total_weight + weight standard,
       weighted_score + score * weight standard,
       if critical standard && (score <? threshold standard)
       then failures ++ [standard_id] else failures)
  | None => acc
  end.

Definition calculate_compliance_score (results : results_t)
    : ComplianceResult :=
  let '(total_weight, weighted_score, failures) :=
    fold_left score_step results (0, 0, []) in
  let overall := if 0 <? total_weight
                 then weighted_score / total_weight else 0 in
  let st :=
    match failures with
    | _ :: _ => NON_COMPLIANT
    | [] =>
        if 0.95 <=? overall then COMPLIANT
        else if 0.8 <=? overall then PARTIALLY_COMPLIANT
        else NON_COMPLIANT
    end in
  mkResult overall (value st) failures
    (_calculate_category_scores results)
    (_generate_recommendations results).

End NdmoStandards.

(** ** Errors *)

Module Py.

(** The outcome of code that may raise: a value, or the exception's name. *)
Inductive result (A : Type) : Type :=
| Ok (a : A)
| Raise (exn : string).
Arguments Ok {A} a.
Arguments Raise {A} exn.

Definition bind {A B} (r : result A) (k : A -> result B) : result B :=
  match r with
  | Ok a => k a
  | Raise e => Raise e
  end.

(** A loop whose body may raise: the first exception ends it. *)
Fixpoint mapM {A B} (f : A -> result B) (l : list A) : result (list B) :=
  match l with
  | [] => Ok []
  | x :: l' =>
      bind (f x) (fun y => bind (mapM f l') (fun ys => Ok (y :: ys)))
  end.

End Py.

(** ** Regular expressions, as [re.match] uses them *)

Module Re.

Inductive regex :=
| Void
| Eps
| Chr (p : ascii -> bool)
| Cat (r1 r2 : regex)
| Alt (r1 r2 : regex)
| Star (r : regex).

Fixpoint nullable (r : regex) : bool :=
  match r with
  | Void => false
  | Eps => true
  | Chr _ => false
  | Cat r1 r2 => nullable r1 && nullable r2
  | Alt r1 r2 => nullable r1 || nullable r2
  | Star _ => true
  end.

Definition cat (r1 r2 : regex) : regex :=
  match r1, r2 with
  | Void, _ => Void
  | _, Void => Void
  | Eps, _ => r2
  | _, _ => Cat r1 r2
  end.

Definition alt (r1 r2 : regex) : regex :=
  match r1, r2 with
  | Void, _ => r2
  | _, Void => r1
  | _, _ => Alt r1 r2
  end.

(** The derivative of [r] by the character [c]. *)
Fixpoint deriv (c : ascii) (r : regex) : regex :=
  match r with
  | Void => Void
  | Eps => Void
  | Chr p => if p c then Eps else Void
  | Cat r1 r2 =>
      alt (cat (deriv c r1) r2) (if nullable r1 then deriv c r2 else Void)
  | Alt r1 r2 => alt (deriv c r1) (deriv c r2)
  | Star r' => cat (deriv c r') (Star r')
  end.

(** The whole of [s] is a word of [r]. *)
Fixpoint accepts (r : regex) (s : string) : bool :=
  match s with
  | EmptyString => nullable r
  | String c s' => accepts (deriv c r) s'
  end.

Definition plus (r : regex) : regex := Cat r (Star r).
Definition opt (r : regex) : regex := Alt Eps r.

(** [r{0,n}] *)
Fixpoint upto (n : nat) (r : regex) : regex :=
  match n with
  | O => Eps
  | S n' => opt (Cat r (upto n' r))
  end.

Definition between (lo hi : string) (c : ascii) : bool :=
  match lo, hi with
  | String l _, String h _ =>
      (nat_of_ascii l <=? nat_of_ascii c)%nat
      && (nat_of_ascii c <=? nat_of_ascii h)%nat
  | _, _ => false
  end.

Definition one_of (chars : string) (c : ascii) : bool :=
  existsb (Ascii.eqb c) (list_ascii_of_string chars).

Definition is_digit : ascii -> bool := between "0" "9".
Definition is_lower : ascii -> bool := between "a" "z".
Definition is_upper : ascii -> bool := between "A" "Z".
Definition newline : ascii := ascii_of_nat 10.

(** [re.match('^' r '$', s)]: the pattern is anchored at both ends, and [$]
    also matches just before a newline that ends the string. *)
Definition match_anchored (r : regex) (s : string) : bool :=
  accepts (Cat r (opt (Chr (Ascii.eqb newline)))) s.

(** [re.sub('[^' class ']', '', s)]: the characters of the class are kept. *)
Fixpoint keep (class : ascii -> bool) (s : string) : string :=
  match s with
  | EmptyString => EmptyString
  | String c s' => if class c then String c (keep class s') else keep class s'
  end.

(** [^[a-zA-Z0-9._%+-]+@[a-zA-Z0-9.-]+\.[a-zA-Z]{2,}$] *)
Definition email_pattern : regex :=
  let local := fun c => is_lower c || is_upper c || is_digit c || one_of "._%+-" c in
  let domain := fun c => is_lower c || is_upper c || is_digit c || one_of ".-" c in
  let alpha := fun c => is_lower c || is_upper c in
  Cat (plus (Chr local))
    (Cat (Chr (one_of "@"))
       (Cat (plus (Chr domain))
          (Cat (Chr (one_of "."))
             (Cat (Chr alpha) (Cat (Chr alpha) (Star (Chr alpha))))))).

(** [^[\+]?[1-9][\d]{0,15}$] *)
Definition phone_pattern : regex :=
  Cat (opt (Chr (one_of "+")))
    (Cat (Chr (between "1" "9")) (upto 15 (Chr is_digit))).

(** [^[A-Za-z0-9_-]+$] *)
Definition identifier_pattern : regex :=
  plus (Chr (fun c => is_upper c || is_lower c || is_digit c || one_of "_-" c)).

(** [^[a-z][a-z0-9_]*$] *)
Definition snake_case_pattern : regex :=
  Cat (Chr is_lower)
    (Star (Chr (fun c => is_lower c || is_digit c || one_of "_" c))).

End Re.

(** ** pandas columns *)

Module Pandas.

(** A cell of a table read from a sheet. Numbers are integers here; a
    missing cell (NaN, None, NaT) is [CNull]. *)
Inductive cell :=
| CNull
| CStr (s : string)
| CInt (z : Z)
| CBool (b : bool).

#[global] Instance cell_eq_dec : EqDecision cell.
Proof. solve_decision. Defined.

Inductive dtype := DInt64 | DFloat64 | DBool | DDatetime | DObject.

#[global] Instance dtype_eq_dec : EqDecision dtype.
Proof. solve_decision. Defined.

Record Series := mkSeries { dtype_of : dtype; values : list cell }.

Definition is_int (c : cell) : bool :=
  match c with CInt _ => true | _ => false end.
Definition is_bool (c : cell) : bool :=
  match c with CBool _ => true | _ => false end.
Definition isnull (c : cell) : bool :=
  match c with CNull => true | _ => false end.
Definition notna (c : cell) : bool := negb (isnull c).

(** The dtype the reader gives a column: integers are [int64], integers with
    holes [float64], booleans [bool], anything else [object]. *)
Definition infer_dtype (cells : list cell) : dtype :=
  match cells with
  | [] => DObject
  | _ =>
      if forallb is_int cells then DInt64
      else if forallb (fun c => is_int c || isnull c) cells then DFloat64
      else if forallb is_bool cells then DBool
      else DObject
  end.

Definition read_column (cells : list cell) : Series :=
  mkSeries (infer_dtype cells) cells.

(** [len(s)], [s.dropna()], [s.head(n)], [s.isnull().any()] *)
Definition len (s : Series) : nat := length (values s).
Definition dropna (s : Series) : Series :=
  mkSeries (dtype_of s) (List.filter notna (values s)).
Definition head (n : nat) (s : Series) : Series :=
  mkSeries (dtype_of s) (firstn n (values s)).
Definition any_null (s : Series) : bool := existsb isnull (values s).
Definition null_count (s : Series) : nat :=
  length (List.filter isnull (values s)).

(** [str(v)] *)
Definition str (c : cell) : string :=
  match c with
  | CNull => "nan"
  | CStr s => s
  | CInt z => PyStr.str_of_Z z
  | CBool true => "True"
  | CBool false => "False"
  end.

(** The distinct cells of a list, in order of first appearance. *)
Fixpoint distinct_from (seen cells : list cell) : list cell :=
  match cells with
  | [] => []
  | c :: cells' =>
      if bool_decide (c ∈ seen) then distinct_from seen cells'
      else c :: distinct_from (c :: seen) cells'
  end.

Definition distinct (cells : list cell) : list cell := distinct_from [] cells.

(** [s.unique()] keeps a missing value, [s.nunique()] does not count it. *)
Definition unique (s : Series) : list cell := distinct (values s).
Definition nunique (s : Series) : nat :=
  length (distinct (List.filter notna (values s))).

(** [s.duplicated(keep=False)]: the cell occurs more than once, two missing
    values counting as equal; [s.duplicated().any()]: some cell does. *)
Definition occurrences (c : cell) (cells : list cell) : nat :=
  length (List.filter (fun c' => bool_decide (c' = c)) cells).
Definition duplicated_keep_false (s : Series) : list bool :=
  map (fun c => (1 <? occurrences c (values s))%nat) (values s).
Definition duplicated_any (s : Series) : bool :=
  existsb (fun c => (1 <? occurrences c (values s))%nat) (values s).

(** A table: its columns in order, each with its header. *)
Definition DataFrame : Type := list (string * Series).

Definition df_columns (df : DataFrame) : list string := map fst df.

(** [len(df)]: the number of rows; a table without columns has none. *)
Definition df_len (df : DataFrame) : nat :=
  match df with
  | [] => 0
  | (_, s) :: _ => len s
  end.

(** [df.iterrows()]: each row pairs the headers with the row's cells. *)
Definition row_at (df : DataFrame) (i : nat) : list (string * cell) :=
  map (fun col => (fst col, nth i (values (snd col)) CNull)) df.
Definition iterrows (df : DataFrame) : list (nat * list (string * cell)) :=
  map (fun i => (i, row_at df i)) (seq 0 (df_len df)).

End Pandas.

(** ** The schema model: the dictionaries the analyzers exchange *)

Module Schema.
Import Pandas.

(** A value stored under a key of a column's [constraints]. *)
Inductive cval :=
| VNone
| VBool (b : bool)
| VInt (z : Z)
| VStr (s : string)
| VCells (l : list cell).

(** Python's truth value of such a value. *)
Definition truthy (v : cval) : bool :=
  match v with
  | VNone => false
  | VBool b => b
  | VInt z => negb (z =? 0)%Z
  | VStr s => negb (String.eqb s "")
  | VCells l => match l with [] => false | _ => true end
  end.

Definition constraints_t : Type := gmap string cval.

(** [bool(constraints.get(k))] and [bool(constraints)] *)
Definition get_truthy (k : string) (c : constraints_t) : bool :=
  match c !! k with Some v => truthy v | None => false end.
Definition nonempty (c : constraints_t) : bool := negb (bool_decide (c = ∅)).

Record Statistics := mkStatistics {
  total_values : nat;
  non_null_values : nat;
  null_values : nat;
  unique_values : nat;
  duplicate_values : nat
}.

(** An entry of [quality_issues], with the counts its text is formatted
    from. *)
Inductive quality_issue :=
| HighNullPercentage (nulls total : nat)
| LowUniquenessInIdField (uniques total : nat)
| UnableToDetermineDataType.

(** A column descriptor. A key the source may leave out of the dictionary
    and reads with a default ([foreign_key], [ndmo_standard],
    [description]) holds that default. *)
Record Column := mkColumn {
  name : string;
  data_type : string;
  nullable : bool;
  unique : bool;
  primary_key : bool;
  foreign_key : bool;
  constraints : constraints_t;
  sample_values : list cell;
  statistics : option Statistics;
  quality_issues : list quality_issue;
  ndmo_standard : option string;
  description : option string
}.

(** The three shapes of a business rule. *)
Inductive business_rule :=
| NamedRule (rule_name rule_type rule_description : string) (implemented : bool)
| RequiredFieldsRule (rule_id rule_name rule_description : string)
    (rule_columns : list cell) (severity : string)
| StandardRule (rule_id rule_name rule_description severity standard : string).

(** [rule.get("implemented", False)] *)
Definition is_implemented (r : business_rule) : bool :=
  match r with
  | NamedRule _ _ _ b => b
  | _ => false
  end.

(** The two shapes of a relationship record; both have type
    [foreign_key]. *)
Inductive relationship :=
| SourceTarget (source_column target_table rel_description : string)
| ChildParent (child_column parent_table relationship_type : string).

Record QualityMetrics := mkQualityMetrics {
  completeness : float;
  consistency : float;
  uniqueness : float;
  validity : float;
  metrics_overall_score : float
}.

Record Improvement := mkImprovement {
  improvement : string;
  improvement_standard : string;
  improvement_description : string
}.

(** The [schema_analysis] dictionary. Its [data_types] and [constraints]
    entries, which index by column name what the columns already hold, are
    left out. *)
Record SchemaInfo := mkSchemaInfo {
  sheet_name : string;
  total_rows : nat;
  total_columns : nat;
  columns : list Column;
  business_rules : list business_rule;
  relationships : list relationship;
  quality_metrics : option QualityMetrics;
  ndmo_compliant : bool;
  compliance_improvements : list Improvement
}.

End Schema.

(** ** smart_schema_analyzer.py *)

Module SmartSchemaAnalyzer.
Import PyFloat Pandas Schema Py.
Local Open Scope float_scope.

Section Analyzer.

(** What the code asks of its libraries and leaves to them:
    [pd.to_numeric(data)] and [pd.to_datetime(data)] return without raising;
    [int(s)] of a string, when it has one; [np.mean] of a list of floats. *)
Variable pd_to_numeric_ok : Series -> bool.
Variable pd_to_datetime_ok : Series -> bool.
Variable py_int : string -> option Z.
Variable np_mean : list float -> float.

Definition boolean_words : list string :=
  ["true"; "false"; "1"; "0"; "yes"; "no"].

Definition plus_or_digit (c : ascii) : bool :=
  Re.is_digit c || Re.one_of "+" c.

(** [_determine_data_type] *)
Definition _determine_data_type (data : Series) : string :=
  if (len data =? 0)%nat then "empty"
  else if pd_to_numeric_ok data then "numeric"
  else if pd_to_datetime_ok data then "datetime"
  else if bool_decide (dtype_of data = DBool)
          || forallb (fun val => PyStr.mem (PyStr.lower (str val)) boolean_words)
               (values data)
  then "boolean"
  else if of_nat (nunique data) <? of_nat (len data) * 0.5 then "categorical"
  else
    let sample_values := map str (values (head 10 data)) in
    if existsb (Re.match_anchored Re.email_pattern) sample_values then "email"
    else if existsb (fun val => Re.match_anchored Re.phone_pattern
                                  (Re.keep plus_or_digit val)) sample_values
    then "phone"
    else if existsb (Re.match_anchored Re.identifier_pattern) sample_values
    then "identifier"
    else "text".

Definition email_regex_text : string :=
  "^[a-zA-Z0-9._%+-]+@[a-zA-Z0-9.-]+\.[a-zA-Z]{2,}$".
Definition phone_regex_text : string := "^[\+]?[1-9][\d]{0,15}$".

Definition list_min (d : nat) (l : list nat) : nat :=
  match l with [] => d | x :: l' => fold_left Nat.min l' x end.
Definition list_max (d : nat) (l : list nat) : nat :=
  match l with [] => d | x :: l' => fold_left Nat.max l' x end.
Definition int_cells (cells : list cell) : list Z :=
  omap (fun c => match c with CInt z => Some z | _ => None end) cells.
Definition Z_min_list (l : list Z) : Z :=
  match l with [] => 0%Z | x :: l' => fold_left Z.min l' x end.
Definition Z_max_list (l : list Z) : Z :=
  match l with [] => 0%Z | x :: l' => fold_left Z.max l' x end.

(** [_analyze_column_constraints] *)
Definition _analyze_column_constraints (column_data : Series)
    (column_name : string) : constraints_t :=
  let constraints : constraints_t :=
    <["required" := VBool false]>
      (<["min_length" := VNone]> (<["max_length" := VNone]>
      (<["min_value" := VNone]> (<["max_value" := VNone]>
      (<["allowed_values" := VNone]> (<["pattern" := VNone]>
      (<["format" := VNone]> ∅))))))) in
  let non_null_data := dropna column_data in
  if (len non_null_data =? 0)%nat then constraints
  else
    let constraints :=
      if negb (any_null column_data)
      then <["required" := VBool true]> constraints else constraints in
    let constraints :=
      if bool_decide (dtype_of non_null_data = DObject)
      then
        let lengths := map (fun v => String.length (str v)) (values non_null_data) in
        <["max_length" := VInt (Z.of_nat (list_max 0 lengths))]>
          (<["min_length" := VInt (Z.of_nat (list_min 0 lengths))]> constraints)
      else constraints in
    let constraints :=
      if bool_decide (dtype_of non_null_data = DInt64)
         || bool_decide (dtype_of non_null_data = DFloat64)
      then
        <["max_value" := VInt (Z_max_list (int_cells (values non_null_data)))]>
          (<["min_value" := VInt (Z_min_list (int_cells (values non_null_data)))]>
             constraints)
      else constraints in
    let constraints :=
      if (nunique non_null_data <=? 20)%nat
      then <["allowed_values" := VCells (Pandas.unique non_null_data)]> constraints
      else constraints in
    if PyStr.contains "email" (PyStr.lower column_name)
    then <["format" := VStr "email"]>
           (<["pattern" := VStr email_regex_text]> constraints)
    else if PyStr.contains "phone" (PyStr.lower column_name)
    then <["format" := VStr "phone"]>
           (<["pattern" := VStr phone_regex_text]> constraints)
    else if PyStr.contains "date" (PyStr.lower column_name)
    then <["format" := VStr "date"]> constraints
    else constraints.

(** [_is_primary_key] and [_is_foreign_key] *)
Definition _is_primary_key (column_name : string) (column_data : Series) : bool :=
  existsb (fun pattern => PyStr.contains pattern (PyStr.lower column_name))
    ["id"; "key"; "pk"; "primary"; "serial"]
  && ((nunique column_data =? len column_data)%nat
      && negb (any_null column_data)).

Definition _is_foreign_key (column_name : string) (column_data : Series) : bool :=
  existsb (fun pattern => PyStr.contains pattern (PyStr.lower column_name))
    ["_id"; "_key"; "ref_"; "foreign"].

(** [a / b] on two [int]s *)
Definition int_div (a b : nat) : result float :=
  if (b =? 0)%nat then Raise "ZeroDivisionError"
  else Ok (of_nat a / of_nat b).

(** [_identify_column_quality_issues], on the entries of the column
    dictionary it reads. *)
Definition _identify_column_quality_issues (column_name data_type : string)
    (stats : Statistics) : result (list quality_issue) :=
  bind (int_div (null_values stats) (total_values stats)) (fun null_percentage =>
  let issues :=
    if 0.1 <? null_percentage
    then [HighNullPercentage (null_values stats) (total_values stats)] else [] in
  bind (if PyStr.contains "id" (PyStr.lower column_name)
        then bind (int_div (unique_values stats) (total_values stats))
               (fun uniqueness =>
                  Ok (if uniqueness <? 0.95
                      then issues ++ [LowUniquenessInIdField (unique_values stats)
                                        (total_values stats)]
                      else issues))
        else Ok issues) (fun issues =>
  Ok (if String.eqb data_type "unknown"
      then issues ++ [UnableToDetermineDataType] else issues))).

(** The statistics [_analyze_column] records. *)
Definition column_statistics (column_data : Series) : Statistics :=
  let non_null_data := dropna column_data in
  {| total_values := len column_data;
     non_null_values := len non_null_data;
     null_values := len column_data - len non_null_data;
     unique_values := nunique column_data;
     duplicate_values := len column_data - nunique column_data |}.

(** [_analyze_column] *)
Definition _analyze_column (column_data : Series) (column_name : string)
    : result Column :=
  let non_null_data := dropna column_data in
  let stats := column_statistics column_data in
  let samples := values (head 5 non_null_data) in
  let dt := _determine_data_type non_null_data in
  let cons := _analyze_column_constraints column_data column_name in
  let pk := _is_primary_key column_name column_data in
  let fk := _is_foreign_key column_name column_data in
  let uniq := pk || (nunique column_data =? len column_data)%nat in
  let nullable := any_null column_data in
  bind (_identify_column_quality_issues column_name dt stats) (fun issues =>
  Ok {| name := column_name;
        data_type := dt;
        nullable := nullable;
        unique := uniq;
        primary_key := pk;
        foreign_key := fk;
        constraints := cons;
        sample_values := samples;
        statistics := Some stats;
        quality_issues := issues;
        ndmo_standard := None;
        description := None |}).

(** [_extract_business_rules] *)
Definition common_rules : list business_rule :=
  [ NamedRule "Unique Identifiers" "uniqueness"
      "All records must have unique identifiers" false;
    NamedRule "Data Validation" "validation"
      "Data must pass validation rules" false;
    NamedRule "Referential Integrity" "integrity"
      "Foreign key relationships must be maintained" false ].

Definition _extract_business_rules (schema_df : DataFrame) : list business_rule :=
  omap (fun column =>
          if PyStr.contains "rule" (PyStr.lower column)
             || PyStr.contains "constraint" (PyStr.lower column)
          then Some (NamedRule column "constraint"
                       ("Business rule defined in column: " ++ column)%string true)
          else None)
       (df_columns schema_df)
  ++ common_rules.

(** [_analyze_relationships] *)
Definition _analyze_relationships (schema_df : DataFrame) : list relationship :=
  omap (fun col =>
          let column := fst col in
          if _is_foreign_key column (snd col)
          then Some (ChildParent column
                       (PyStr.replace "_key" "" (PyStr.replace "_id" "" column))
                       "many_to_one")
          else None)
       schema_df.

(** [_is_consistent_naming] *)
Definition _is_consistent_naming (column_name : string) : bool :=
  Re.match_anchored Re.snake_case_pattern (PyStr.lower column_name).

Definition count {A} (p : A -> bool) (l : list A) : nat :=
  length (List.filter p l).

(** [_calculate_schema_quality_metrics], on the list of columns. *)
Definition _calculate_schema_quality_metrics (cols : list Column)
    : QualityMetrics :=
  match cols with
  | [] => mkQualityMetrics 0 0 0 0 0
  | _ =>
      let n := of_nat (length cols) in
      let completeness :=
        of_nat (count (fun col => negb (String.eqb (data_type col) "unknown")) cols) / n in
      let consistency :=
        of_nat (count (fun col => _is_consistent_naming (name col)) cols) / n in
      let uniqueness :=
        of_nat (count (fun col => unique col || primary_key col) cols) / n in
      let validity :=
        of_nat (count (fun col => nonempty (constraints col)) cols) / n in
      mkQualityMetrics completeness consistency uniqueness validity
        (np_mean [completeness; consistency; uniqueness; validity; 0])
  end.

Definition record_columns (sheet : string) (rows ncols : nat) (cols : list Column)
    (rules : list business_rule) (rels : list relationship) : SchemaInfo :=
  {| sheet_name := sheet;
     total_rows := rows;
     total_columns := ncols;
     columns := cols;
     business_rules := rules;
     relationships := rels;
     quality_metrics := Some (_calculate_schema_quality_metrics cols);
     ndmo_compliant := false;
     compliance_improvements := [] |}.

(** [_analyze_regular_data_format] *)
Definition _analyze_regular_data_format (schema_df : DataFrame)
    (sheet : string) : result SchemaInfo :=
  bind (mapM (fun col => _analyze_column (snd col) (fst col)) schema_df)
    (fun cols =>
       Ok (record_columns sheet (df_len schema_df) (length (df_columns schema_df))
             cols (_extract_business_rules schema_df)
             (_analyze_relationships schema_df))).

(** [_is_schema_definition] *)
Definition _is_schema_definition (schema_df : DataFrame) : bool :=
  let has := fun header => PyStr.mem header (df_columns schema_df) in
  (has "COLUMN_NAME" || has "column_name")
  || (has "DATA_TYPE" || has "data_type")
  || (has "TABLE_NAME" || has "table_name").

(** [_map_database_type_to_standard] *)
Definition _map_database_type_to_standard (db_type : string) : string :=
  let db_type := PyStr.lower db_type in
  let has := fun word => PyStr.contains word db_type in
  if has "int" || has "bigint" || has "smallint" then "numeric"
  else if has "float" || has "double" || has "decimal" || has "numeric"
  then "numeric"
  else if has "varchar" || has "char" || has "text" || has "nvarchar"
  then "text"
  else if has "date" || has "time" || has "datetime" || has "timestamp"
  then "datetime"
  else if has "bool" || has "bit" then "boolean"
  else "text".

(** [int(v)] of a cell that is not missing. *)
Definition int_of_cell (c : cell) : result Z :=
  match c with
  | CInt z => Ok z
  | CBool b => Ok (if b then 1 else 0)%Z
  | CStr s => match py_int s with Some z => Ok z | None => Raise "ValueError" end
  | CNull => Raise "ValueError"
  end.

(** [row[k]] for a header the row has. *)
Definition row_get (k : string) (row : list (string * cell)) : cell :=
  match PyDict.get k row with Some c => c | None => CNull end.

(** [_analyze_schema_row] *)
Definition _analyze_schema_row (row : list (string * cell)) (index : nat)
    : result Column :=
  let has := fun header => PyDict.has_key header row in
  let column_name :=
    if has "COLUMN_NAME" then str (row_get "COLUMN_NAME" row)
    else if has "column_name" then str (row_get "column_name" row)
    else ("Column_" ++ PyStr.str_of_nat (index + 1))%string in
  let dt :=
    if has "DATA_TYPE"
    then _map_database_type_to_standard (PyStr.lower (str (row_get "DATA_TYPE" row)))
    else if has "data_type"
    then _map_database_type_to_standard (PyStr.lower (str (row_get "data_type" row)))
    else "unknown" in
  let nullable :=
    if has "IS_NULLABLE"
    then String.eqb (PyStr.upper (str (row_get "IS_NULLABLE" row))) "YES"
    else if has "is_nullable"
    then String.eqb (PyStr.upper (str (row_get "is_nullable" row))) "YES"
    else true in
  let constraints : constraints_t :=
    <["required" := VBool (negb nullable)]>
      (<["min_length" := VNone]> (<["max_length" := VNone]>
      (<["min_value" := VNone]> (<["max_value" := VNone]>
      (<["allowed_values" := VCells []]> (<["pattern" := VNone]>
      (<["format" := VNone]> ∅))))))) in
  bind (if has "CHARACTER_MAXIMUM_LENGTH"
           && notna (row_get "CHARACTER_MAXIMUM_LENGTH" row)
        then bind (int_of_cell (row_get "CHARACTER_MAXIMUM_LENGTH" row))
               (fun n => Ok (<["max_length" := VInt n]> constraints))
        else if has "character_maximum_length"
                && notna (row_get "character_maximum_length" row)
        then bind (int_of_cell (row_get "character_maximum_length" row))
               (fun n => Ok (<["max_length" := VInt n]> constraints))
        else Ok constraints) (fun constraints =>
  Ok {| name := column_name;
        data_type := dt;
        nullable := nullable;
        unique := false;
        primary_key := false;
        foreign_key := false;
        constraints := constraints;
        sample_values := [CStr column_name];
        statistics := Some (mkStatistics 1 1 0 1 0);
        quality_issues := [];
        ndmo_standard := None;
        description := None |}).

(** [_extract_business_rules_from_schema] *)
Definition _extract_business_rules_from_schema (schema_df : DataFrame)
    : list business_rule :=
  match PyDict.get "IS_NULLABLE" schema_df with
  | Some is_nullable =>
      let non_nullable :=
        List.filter (fun i => bool_decide (nth i (values is_nullable) CNull = CStr "NO"))
          (seq 0 (df_len schema_df)) in
      match non_nullable with
      | [] => []
      | _ =>
          [RequiredFieldsRule "BR001" "Required Fields" "Fields that cannot be null"
             match PyDict.get "COLUMN_NAME" schema_df with
             | Some names => map (fun i => nth i (values names) CNull) non_nullable
             | None => []
             end
             "high"]
      end
  | None => []
  end.

(** [_analyze_relationships_from_schema] *)
Definition _analyze_relationships_from_schema (schema_df : DataFrame)
    : list relationship :=
  match PyDict.get "COLUMN_NAME" schema_df with
  | Some names =>
      omap (fun column_name =>
              let s := str column_name in
              if PyStr.contains "id" (PyStr.lower s)
                 && negb (String.eqb (PyStr.lower s) "id")
              then
                let target := PyStr.replace "ID" "" (PyStr.replace "_id" "" s) in
                Some (SourceTarget s target
                        ("Foreign key relationship to " ++ target ++ " table")%string)
              else None)
           (values names)
  | None => []
  end.

(** [_analyze_schema_definition_format] *)
Definition _analyze_schema_definition_format (schema_df : DataFrame)
    (sheet : string) : result SchemaInfo :=
  bind (mapM (fun indexed => _analyze_schema_row (snd indexed) (fst indexed))
          (iterrows schema_df))
    (fun cols =>
       Ok (record_columns sheet (df_len schema_df) (df_len schema_df) cols
             (_extract_business_rules_from_schema schema_df)
             (_analyze_relationships_from_schema schema_df))).

(** [_analyze_schema_structure] *)
Definition _analyze_schema_structure (schema_df : DataFrame) (sheet : string)
    : result SchemaInfo :=
  if _is_schema_definition schema_df
  then _analyze_schema_definition_format schema_df sheet
  else _analyze_regular_data_format schema_df sheet.

End Analyzer.
End SmartSchemaAnalyzer.

(** ** schema_problem_analyzer.py: SchemaProblemAnalyzer *)

Module Problem.
Record t := mk {
  id : string;
  name : string;
  description : string;
  impact : string;
  solution : string;
  example : string
}.
End Problem.

Module SchemaProblemAnalyzer.
Import PyFloat Pandas Schema.
Local Open Scope float_scope.

Record Action := mkAction {
  action_problem_id : string;
  action : string;
  action_example : string;
  effort : string;
  priority : string
}.

Record EstimatedEffort := mkEffort {
  immediate : nat;
  short_term : nat;
  long_term : float;
  total : float
}.

Record CorrectionPlan := mkPlan {
  immediate_actions : list Action;
  short_term_actions : list Action;
  long_term_actions : list Action;
  estimated_effort : EstimatedEffort;
  resources_needed : list string
}.

Record PriorityAction := mkPriorityAction {
  pa_problem_id : string;
  pa_name : string;
  pa_priority : nat;
  pa_impact : string;
  pa_effort : string;
  pa_action : string
}.

(** The three lists the five analyses append to. *)
Record Problems := mkProblems {
  critical_problems : list Problem.t;
  major_problems : list Problem.t;
  minor_problems : list Problem.t
}.

Definition add_critical (p : Problem.t) (ps : Problems) : Problems :=
  mkProblems (critical_problems ps ++ [p]) (major_problems ps) (minor_problems ps).
Definition add_major (p : Problem.t) (ps : Problems) : Problems :=
  mkProblems (critical_problems ps) (major_problems ps ++ [p]) (minor_problems ps).
Definition add_minor (p : Problem.t) (ps : Problems) : Problems :=
  mkProblems (critical_problems ps) (major_problems ps) (minor_problems ps ++ [p]).

(** [any(word in col.get("name", "").lower() for col in columns)] *)
Definition name_has (word : string) (col : Column) : bool :=
  PyStr.contains word (PyStr.lower (name col)).
Definition some_name_has (words : list string) (cols : list Column) : bool :=
  existsb (fun word => existsb (name_has word) cols) words.

Definition count {A} (p : A -> bool) (l : list A) : nat :=
  length (List.filter p l).

Definition missing_primary_key : Problem.t :=
  Problem.mk "DG001" "Missing Primary Key" "No primary key found in schema"
    "Critical - Data integrity compromised"
    "Add a primary key column (e.g., 'id', 'serial_number')"
    "Add column: 'id' (integer, auto-increment, primary key)".

(** [_analyze_data_governance_problems] *)
Definition _analyze_data_governance_problems (schema_info : SchemaInfo)
    (problems : Problems) : Problems :=
  let cols := columns schema_info in
  let problems :=
    if negb (existsb primary_key cols)
    then add_critical missing_primary_key problems else problems in
  let problems :=
    if negb (existsb (name_has "documentation") cols)
    then add_major
           (Problem.mk "DG002" "Missing Data Lineage"
              "No data lineage documentation found"
              "Major - Data traceability compromised"
              "Add columns for data source and transformation history"
              "Add columns: 'data_source', 'created_date', 'last_modified'")
           problems
    else problems in
  if negb (existsb (fun col => name_has "owner" col || name_has "steward" col) cols)
  then add_major
         (Problem.mk "DG003" "Missing Data Ownership"
            "No data ownership information found"
            "Major - Data accountability unclear"
            "Add columns for data owner and steward"
            "Add columns: 'data_owner', 'data_steward', 'department'")
         problems
  else problems.

(** [_analyze_data_quality_problems] *)
Definition _analyze_data_quality_problems (schema_info : SchemaInfo)
    (problems : Problems) : Problems :=
  let cols := columns schema_info in
  let n := length cols in
  let required_fields :=
    count (fun col => get_truthy "required" (constraints col)) cols in
  let problems :=
    if of_nat required_fields <? of_nat n * 0.3
    then add_major
           (Problem.mk "DQ001" "Insufficient Required Fields"
              ("Only " ++ PyStr.str_of_nat required_fields ++ " out of "
               ++ PyStr.str_of_nat n ++ " fields are marked as required")%string
              "Major - Data completeness compromised"
              "Mark critical fields as required"
              "Set required=True for: customer_id, invoice_number, amount, date")
           problems
    else problems in
  let fields_with_validation := count (fun col => nonempty (constraints col)) cols in
  let problems :=
    if of_nat fields_with_validation <? of_nat n * 0.5
    then add_major
           (Problem.mk "DQ002" "Insufficient Data Validation"
              ("Only " ++ PyStr.str_of_nat fields_with_validation ++ " out of "
               ++ PyStr.str_of_nat n ++ " fields have validation rules")%string
              "Major - Data accuracy compromised"
              "Add validation rules for all fields"
              "Add constraints: min_length, max_length, allowed_values, pattern")
           problems
    else problems in
  let unique_fields := count unique cols in
  let problems :=
    if (unique_fields <? 2)%nat
    then add_major
           (Problem.mk "DQ004" "Insufficient Uniqueness Constraints"
              ("Only " ++ PyStr.str_of_nat unique_fields
               ++ " fields have uniqueness constraints")%string
              "Major - Data uniqueness compromised"
              "Add uniqueness constraints to key fields"
              "Set unique=True for: customer_id, invoice_number, email")
           problems
    else problems in
  let unknown_types := count (fun col => String.eqb (data_type col) "unknown") cols in
  if (0 <? unknown_types)%nat
  then add_minor
         (Problem.mk "DQ005" "Unknown Data Types"
            (PyStr.str_of_nat unknown_types ++ " fields have unknown data types")%string
            "Minor - Data type validation compromised"
            "Define specific data types for all fields"
            "Set data_type: 'numeric', 'datetime', 'text', 'email', 'phone'")
         problems
  else problems.

Definition sensitive_words : list string :=
  ["password"; "ssn"; "credit"; "card"; "secret"; "private"].

Definition is_sensitive (col : Column) : bool :=
  existsb (fun keyword => name_has keyword col) sensitive_words.

Definition sensitive_data_exposure (found : nat) : Problem.t :=
  Problem.mk "DS001" "Sensitive Data Exposure"
    ("Found " ++ PyStr.str_of_nat found ++ " fields with sensitive data")%string
    "Critical - Data security compromised"
    "Encrypt or mask sensitive data fields"
    "Add encryption for: password, ssn, credit_card_number".

(** [_analyze_data_security_problems] *)
Definition _analyze_data_security_problems (schema_info : SchemaInfo)
    (problems : Problems) : Problems :=
  let cols := columns schema_info in
  let sensitive_fields := List.filter is_sensitive cols in
  let problems :=
    match sensitive_fields with
    | _ :: _ => add_critical (sensitive_data_exposure (length sensitive_fields)) problems
    | [] => problems
    end in
  let problems :=
    if negb (existsb (fun col => name_has "access" col || name_has "permission" col) cols)
    then add_major
           (Problem.mk "DS002" "Missing Access Control"
              "No access control information found"
              "Major - Data access control compromised"
              "Add access control fields"
              "Add columns: 'access_level', 'permissions', 'user_role'")
           problems
    else problems in
  if negb (some_name_has ["created"; "modified"; "updated"; "audit"; "log"] cols)
  then add_major
         (Problem.mk "DS004" "Missing Audit Trail"
            "No audit trail information found"
            "Major - Data tracking compromised"
            "Add audit trail fields"
            "Add columns: 'created_date', 'modified_date', 'created_by', 'modified_by'")
         problems
  else problems.

(** [_is_consistent_naming] *)
Definition _is_consistent_naming (field_name : string) : bool :=
  Re.match_anchored Re.snake_case_pattern (PyStr.lower field_name).

(** [_analyze_data_architecture_problems] *)
Definition _analyze_data_architecture_problems (schema_info : SchemaInfo)
    (problems : Problems) : Problems :=
  let cols := columns schema_info in
  let inconsistent_naming :=
    count (fun col => negb (_is_consistent_naming (name col))) cols in
  let problems :=
    if (0 <? inconsistent_naming)%nat
    then add_minor
           (Problem.mk "DA001" "Inconsistent Naming"
              (PyStr.str_of_nat inconsistent_naming
               ++ " fields have inconsistent naming")%string
              "Minor - Data architecture compromised"
              "Standardize field naming conventions"
              "Use snake_case: customer_id, invoice_number, created_date")
           problems
    else problems in
  if negb (some_name_has ["source"; "system"; "import"; "sync"] cols)
  then add_minor
         (Problem.mk "DA002" "Missing Integration Fields"
            "No data integration information found"
            "Minor - Data integration compromised"
            "Add integration tracking fields"
            "Add columns: 'source_system', 'import_date', 'sync_status'")
         problems
  else problems.

(** [_analyze_business_rules_problems] *)
Definition _analyze_business_rules_problems (schema_info : SchemaInfo)
    (problems : Problems) : Problems :=
  let rules := business_rules schema_info in
  let implemented_rules := count is_implemented rules in
  let problems :=
    if of_nat implemented_rules <? of_nat (length rules) * 0.5
    then add_major
           (Problem.mk "BR001" "Insufficient Business Rules"
              ("Only " ++ PyStr.str_of_nat implemented_rules ++ " out of "
               ++ PyStr.str_of_nat (length rules)
               ++ " business rules are implemented")%string
              "Major - Business logic compromised"
              "Implement all business rules"
              "Add validation: amount > 0, date <= today, status in ['active', 'inactive']")
           problems
    else problems in
  match relationships schema_info with
  | [] =>
      add_major
        (Problem.mk "BR002" "Missing Data Relationships"
           "No data relationships defined"
           "Major - Data integrity compromised"
           "Define foreign key relationships"
           "Add relationships: customer_id -> customers.id, invoice_id -> invoices.id")
        problems
  | _ :: _ => problems
  end.

(** [_generate_correction_plan] *)
Definition to_action (effort priority : string) (p : Problem.t) : Action :=
  mkAction (Problem.id p) (Problem.solution p) (Problem.example p) effort priority.

Definition _generate_correction_plan (problems : Problems) : CorrectionPlan :=
  let immediate_actions := map (to_action "High" "Critical") (critical_problems problems) in
  let short_term_actions := map (to_action "Medium" "High") (major_problems problems) in
  let long_term_actions := map (to_action "Low" "Medium") (minor_problems problems) in
  mkPlan immediate_actions short_term_actions long_term_actions
    (mkEffort (length immediate_actions * 2) (length short_term_actions * 1)
       (of_nat (length long_term_actions) * 0.5)
       (of_nat (length immediate_actions * 2 + length short_term_actions * 1)
        + of_nat (length long_term_actions) * 0.5))
    ["Database Administrator"; "Data Analyst"; "Business Analyst";
     "Security Specialist"].

(** [list.sort(key=...)]: a stable sort by ascending key. *)
Fixpoint insert_by_key {A} (key : A -> nat) (x : A) (sorted : list A) : list A :=
  match sorted with
  | [] => [x]
  | y :: sorted' =>
      if (key x <? key y)%nat then x :: y :: sorted'
      else y :: insert_by_key key x sorted'
  end.
Definition sort_by_key {A} (key : A -> nat) (l : list A) : list A :=
  fold_left (fun sorted x => insert_by_key key x sorted) l [].

(** [_prioritize_actions] *)
Definition to_priority (rank : nat) (impact effort : string) (p : Problem.t)
    : PriorityAction :=
  mkPriorityAction (Problem.id p) (Problem.name p) rank impact effort
    (Problem.solution p).

Definition _prioritize_actions (problems : Problems) : list PriorityAction :=
  sort_by_key pa_priority
    (map (to_priority 1 "Critical" "High") (critical_problems problems)
     ++ map (to_priority 2 "Major" "Medium") (major_problems problems)
     ++ map (to_priority 3 "Minor" "Low") (minor_problems problems)).

(** What [analyze_schema_problems] returns. *)
Record ProblemAnalysis := mkAnalysis {
  found : Problems;
  missing_requirements : list string;
  correction_plan : CorrectionPlan;
  priority_actions : list PriorityAction
}.

(** [analyze_schema_problems], on the [schema_analysis] entry of its
    argument. *)
Definition analyze_schema_problems (schema_info : SchemaInfo) : ProblemAnalysis :=
  let problems := mkProblems [] [] [] in
  let problems := _analyze_data_governance_problems schema_info problems in
  let problems := _analyze_data_quality_problems schema_info problems in
  let problems := _analyze_data_security_problems schema_info problems in
  let problems := _analyze_data_architecture_problems schema_info problems in
  let problems := _analyze_business_rules_problems schema_info problems in
  mkAnalysis problems [] (_generate_correction_plan problems)
    (_prioritize_actions problems).

End SchemaProblemAnalyzer.

(** ** schema_problem_analyzer.py: SchemaNDMOComplianceProcessor *)

Module SchemaNDMOComplianceProcessor.
Import Pandas Schema.

Definition zero_statistics : Statistics := mkStatistics 0 0 0 0 0.

(** The primary key column [_ensure_primary_key] inserts. *)
Definition id_column : Column :=
  {| name := "id";
     data_type := "numeric";
     nullable := false;
     unique := true;
     primary_key := true;
     foreign_key := false;
     constraints :=
       <["required" := VBool true]> (<["min_value" := VInt 1]>
       (<["max_value" := VInt 999999999]> (<["auto_increment" := VBool true]> ∅)));
     sample_values := [CInt 1; CInt 2; CInt 3; CInt 4; CInt 5];
     statistics := Some zero_statistics;
     quality_issues := [];
     ndmo_standard := Some "DG001";
     description := Some "Primary key for unique identification" |}.

(** [_ensure_primary_key] *)
Definition _ensure_primary_key (cols : list Column) : list Column :=
  let has_primary_key := existsb primary_key cols in
  if negb has_primary_key then id_column :: cols else cols.

(** A mandated field, once [field.update(...)] has completed it. *)
Definition mandated (field_name field_type : string) (nullable : bool)
    (cons : constraints_t) (standard text : string) : Column :=
  {| name := field_name;
     data_type := field_type;
     nullable := nullable;
     unique := false;
     primary_key := false;
     foreign_key := false;
     constraints := cons;
     sample_values := [];
     statistics := Some zero_statistics;
     quality_issues := [];
     ndmo_standard := Some standard;
     description := Some text |}.

(** The loop the four [_add_*_fields] methods share: a field is appended
    when its name is not among the lower-cased names the columns had when
    the method started. *)
Definition add_missing (fields : list Column) (cols : list Column) : list Column :=
  let existing_names := map (fun col => PyStr.lower (name col)) cols in
  cols ++ List.filter (fun field => negb (PyStr.mem (name field) existing_names)) fields.

Definition timestamp_format : string := "YYYY-MM-DD HH:MM:SS".

Definition audit_fields : list Column :=
  [ mandated "created_date" "datetime" false
      (<["required" := VBool true]> (<["format" := VStr timestamp_format]> ∅))
      "DS004" "Record creation timestamp";
    mandated "modified_date" "datetime" true
      (<["required" := VBool false]> (<["format" := VStr timestamp_format]> ∅))
      "DS004" "Record modification timestamp";
    mandated "created_by" "text" false
      (<["required" := VBool true]> (<["max_length" := VInt 100]> ∅))
      "DS004" "User who created the record";
    mandated "modified_by" "text" true
      (<["required" := VBool false]> (<["max_length" := VInt 100]> ∅))
      "DS004" "User who last modified the record" ].

Definition security_fields : list Column :=
  [ mandated "data_classification" "categorical" false
      (<["required" := VBool true]>
         (<["allowed_values" :=
              VCells [CStr "Public"; CStr "Internal"; CStr "Confidential";
                      CStr "Restricted"]]> ∅))
      "DS001" "Data classification level";
    mandated "access_level" "categorical" false
      (<["required" := VBool true]>
         (<["allowed_values" := VCells [CStr "Read"; CStr "Write"; CStr "Admin"]]> ∅))
      "DS002" "Required access level" ].

Definition lineage_fields : list Column :=
  [ mandated "source_system" "text" false
      (<["required" := VBool true]> (<["max_length" := VInt 100]> ∅))
      "DG002" "Source system identifier";
    mandated "extraction_date" "datetime" false
      (<["required" := VBool true]> (<["format" := VStr timestamp_format]> ∅))
      "DG002" "Data extraction timestamp" ].

Definition ownership_fields : list Column :=
  [ mandated "data_owner" "text" false
      (<["required" := VBool true]> (<["max_length" := VInt 100]> ∅))
      "DG003" "Data owner department or person";
    mandated "data_steward" "text" true
      (<["required" := VBool false]> (<["max_length" := VInt 100]> ∅))
      "DG003" "Data steward responsible for quality" ].

Definition _add_audit_trail_fields : list Column -> list Column :=
  add_missing audit_fields.
Definition _add_security_fields : list Column -> list Column :=
  add_missing security_fields.
Definition _add_data_lineage_fields : list Column -> list Column :=
  add_missing lineage_fields.
Definition _add_data_ownership_fields : list Column -> list Column :=
  add_missing ownership_fields.

Definition set_type (col : Column) (new_type : string) (cons : constraints_t)
    : Column :=
  {| name := name col;
     data_type := new_type;
     nullable := nullable col;
     unique := unique col;
     primary_key := primary_key col;
     foreign_key := foreign_key col;
     constraints := cons;
     sample_values := sample_values col;
     statistics := statistics col;
     quality_issues := quality_issues col;
     ndmo_standard := ndmo_standard col;
     description := description col |}.

(** [_improve_data_types_for_ndmo], for one column, then for all. *)
Definition improve_data_type (col : Column) : Column :=
  let column_name := PyStr.lower (name col) in
  let has := fun word => PyStr.contains word column_name in
  let cons := constraints col in
  if has "date" || has "time"
  then set_type col "datetime" (<["format" := VStr timestamp_format]> cons)
  else if has "email"
  then set_type col "email"
         (<["pattern" := VStr "^[a-zA-Z0-9._%+-]+@[a-zA-Z0-9.-]+\.[a-zA-Z]{2,}$"]> cons)
  else if has "phone" || has "mobile"
  then set_type col "phone" (<["pattern" := VStr "^\+?[1-9]\d{1,14}$"]> cons)
  else if has "amount" || has "price" || has "charge"
  then set_type col "numeric"
         (<["decimal_places" := VInt 2]> (<["min_value" := VInt 0]> cons))
  else col.

Definition _improve_data_types_for_ndmo (cols : list Column) : list Column :=
  map improve_data_type cols.

(** [_add_data_quality_constraints], for one column, then for all. *)
Definition add_quality_constraints (col : Column) : Column :=
  let column_name := PyStr.lower (name col) in
  let has := fun word => PyStr.contains word column_name in
  let keyed := has "id" || has "key" in
  let cons := constraints col in
  let cons := if keyed then <["required" := VBool true]> cons else cons in
  let cons :=
    if String.eqb (data_type col) "text" && negb (get_truthy "max_length" cons)
    then <["max_length" := VInt 255]> cons else cons in
  let cons :=
    if has "code"
    then <["case_sensitive" := VBool true]>
           (<["pattern" := VStr "^[A-Z0-9_]+$"]> cons)
    else cons in
  {| name := name col;
     data_type := data_type col;
     nullable := if keyed then false else nullable col;
     unique := unique col;
     primary_key := primary_key col;
     foreign_key := foreign_key col;
     constraints := cons;
     sample_values := sample_values col;
     statistics := statistics col;
     quality_issues := quality_issues col;
     ndmo_standard := ndmo_standard col;
     description := description col |}.

Definition _add_data_quality_constraints (cols : list Column) : list Column :=
  map add_quality_constraints cols.

(** [_add_comprehensive_business_rules]: the rules it stores. *)
Definition comprehensive_business_rules : list business_rule :=
  [ StandardRule "BR001" "Primary Key Constraint"
      "Every record must have a unique primary key" "critical" "DG001";
    StandardRule "BR002" "Audit Trail Requirement"
      "All records must have creation and modification tracking" "high" "DS004";
    StandardRule "BR003" "Data Classification"
      "All data must be classified according to security levels" "high" "DS001";
    StandardRule "BR004" "Data Completeness"
      "Critical fields must not be null" "medium" "DQ001";
    StandardRule "BR005" "Data Validity"
      "Data must conform to defined formats and patterns" "medium" "DQ005" ].

(** [_get_compliance_improvements] *)
Definition _get_compliance_improvements : list Improvement :=
  [ mkImprovement "Added Primary Key" "DG001"
      "Ensures unique identification of records";
    mkImprovement "Added Audit Trail Fields" "DS004"
      "Tracks record creation and modification";
    mkImprovement "Improved Data Types" "DQ005"
      "Enhanced data validity and format compliance";
    mkImprovement "Added Security Classification" "DS001"
      "Implements data security classification";
    mkImprovement "Added Data Lineage Tracking" "DG002"
      "Tracks data source and extraction";
    mkImprovement "Added Data Ownership" "DG003"
      "Defines data ownership and stewardship" ].

(** The eight steps of [make_schema_ndmo_compliant] that act on the list of
    columns, in the order the method runs them (step 6 replaces the business
    rules and leaves the columns alone). *)
Definition compliant_columns (cols : list Column) : list Column :=
  let cols := _ensure_primary_key cols in
  let cols := _add_audit_trail_fields cols in
  let cols := _improve_data_types_for_ndmo cols in
  let cols := _add_data_quality_constraints cols in
  let cols := _add_security_fields cols in
  let cols := _add_data_lineage_fields cols in
  _add_data_ownership_fields cols.

(** [make_schema_ndmo_compliant], on the [schema_analysis] entry of its
    argument. *)
Definition make_schema_ndmo_compliant (schema_info : SchemaInfo) : SchemaInfo :=
  let cols := compliant_columns (columns schema_info) in
  {| sheet_name := sheet_name schema_info;
     total_rows := total_rows schema_info;
     total_columns := length cols;
     columns := cols;
     business_rules := comprehensive_business_rules;
     relationships := relationships schema_info;
     quality_metrics := quality_metrics schema_info;
     ndmo_compliant := true;
     compliance_improvements := _get_compliance_improvements |}.

End SchemaNDMOComplianceProcessor.

(** ** smart_data_processor.py *)

Module SmartDataProcessor.
Import Pandas Schema Py.

Section Processor.

(** The scalar parsers behind [pd.to_numeric] and [pd.to_datetime]: the
    parsed value of a cell, when it has one. *)
Variable to_numeric1 : cell -> option cell.
Variable to_datetime1 : cell -> option cell.

(** [bool(v)] of a cell; a missing cell is a NaN, which is true. *)
Definition truth (c : cell) : bool :=
  match c with
  | CNull => true
  | CStr s => negb (String.eqb s "")
  | CInt z => negb (z =? 0)%Z
  | CBool b => b
  end.

(** With [errors='coerce'] a cell that does not parse becomes missing. *)
Definition coerce (parse : cell -> option cell) (c : cell) : cell :=
  match parse c with Some v => v | None => CNull end.

Definition numeric_dtype (cells : list cell) : dtype :=
  if existsb isnull cells then DFloat64 else DInt64.

(** [_convert_to_target_type]. The handler of its [try] returns the column
    as it came; none of the four conversions raises here. *)
Definition _convert_to_target_type (column_data : Series) (target_type : string)
    : Series :=
  if String.eqb target_type "numeric"
  then let cells := map (coerce to_numeric1) (values column_data) in
       mkSeries (numeric_dtype cells) cells
  else if String.eqb target_type "datetime"
  then mkSeries DDatetime (map (coerce to_datetime1) (values column_data))
  else if String.eqb target_type "boolean"
  then mkSeries DBool (map (fun c => CBool (truth c)) (values column_data))
  else if String.eqb target_type "text"
  then mkSeries DObject (map (fun c => CStr (str c)) (values column_data))
  else column_data.

(** [constraints.get(k) is not None] and the number stored under [k]. *)
Definition is_set (k : string) (c : constraints_t) : bool :=
  match c !! k with
  | Some VNone | None => false
  | Some _ => true
  end.

Definition number (k : string) (c : constraints_t) : result (option Z) :=
  match c !! k with
  | Some VNone | None => Ok None
  | Some (VInt z) => Ok (Some z)
  | Some (VBool b) => Ok (Some (if b then 1 else 0)%Z)
  | Some _ => Raise "TypeError"
  end.

Definition fillna (v : cell) (s : Series) : Series :=
  mkSeries (dtype_of s) (map (fun c => if isnull c then v else c) (values s)).

Definition is_numeric_dtype (s : Series) : bool :=
  bool_decide (dtype_of s = DInt64) || bool_decide (dtype_of s = DFloat64).

(** [s.ljust(width)] *)
Definition ljust (width : nat) (s : string) : string :=
  (s ++ string_of_list_ascii (repeat " "%char (width - String.length s)))%string.

(** The function the length constraint applies to every cell. *)
Definition fit_length (min_len : Z) (max_len : option Z) (c : cell) : cell :=
  let s := str c in
  let n := Z.of_nat (String.length s) in
  match max_len with
  | Some m =>
      if (m <? n)%Z then CStr (String.substring 0 (Z.to_nat m) s)
      else if (n <? min_len)%Z then CStr (ljust (Z.to_nat min_len) s)
      else CStr s
  | None =>
      if (n <? min_len)%Z then CStr (ljust (Z.to_nat min_len) s) else CStr s
  end.

(** [s.clip(lower, upper)] on numbers; a missing cell stays missing. *)
Definition clip (lower upper : option Z) (c : cell) : cell :=
  match c with
  | CInt z =>
      let z := match lower with Some lo => Z.max z lo | None => z end in
      CInt (match upper with Some hi => Z.min z hi | None => z end)
  | _ => c
  end.

(** [_apply_constraints] *)
Definition _apply_constraints (column_data : Series) (constraints : constraints_t)
    : result Series :=
  let processed_column :=
    if get_truthy "required" constraints
    then
      if bool_decide (dtype_of column_data = DObject)
      then fillna (CStr "N/A") column_data
      else if is_numeric_dtype column_data then fillna (CInt 0) column_data
      else column_data
    else column_data in
  bind (if (is_set "min_length" constraints || is_set "max_length" constraints)
           && bool_decide (dtype_of processed_column = DObject)
        then
          bind (number "min_length" constraints) (fun min_len =>
          bind (number "max_length" constraints) (fun max_len =>
          Ok (mkSeries DObject
                (map (fit_length (default 0%Z min_len) max_len)
                   (values processed_column)))))
        else Ok processed_column) (fun processed_column =>
  bind (if (is_set "min_value" constraints || is_set "max_value" constraints)
           && is_numeric_dtype processed_column
        then
          bind (number "min_value" constraints) (fun min_val =>
          bind (number "max_value" constraints) (fun max_val =>
          Ok (mkSeries (dtype_of processed_column)
                (map (clip min_val max_val) (values processed_column)))))
        else Ok processed_column) (fun processed_column =>
  match constraints !! "allowed_values" with
  | Some (VCells (v :: allowed)) =>
      Ok (read_column
            (map (fun x => if bool_decide (x ∈ v :: allowed) then x else CNull)
               (values processed_column)))
  | _ => Ok processed_column
  end)).

(** The loop of [_ensure_primary_key_uniqueness]: the cells flagged as
    duplicated get the running counter as a suffix, in order. *)
Fixpoint suffix_duplicates (flags : list bool) (cells : list cell)
    (unique_counter : nat) : list cell :=
  match flags, cells with
  | true :: flags', original_value :: cells' =>
      CStr (str original_value ++ "_" ++ PyStr.str_of_nat unique_counter)%string
      :: suffix_duplicates flags' cells' (S unique_counter)
  | false :: flags', original_value :: cells' =>
      original_value :: suffix_duplicates flags' cells' unique_counter
  | _, _ => cells
  end.

(** [_ensure_primary_key_uniqueness] *)
Definition _ensure_primary_key_uniqueness (column_data : Series) : Series :=
  if duplicated_any column_data
  then mkSeries DObject
         (suffix_duplicates (duplicated_keep_false column_data)
            (values column_data) 1)
  else column_data.

(** The entries of [column_info] that [_process_column_according_to_schema]
    reads, and the method; when a step raises, its handler returns the
    column as it came. *)
Definition _process_column_according_to_schema (column_data : Series)
    (column_info : Column) : Series :=
  let processed_column :=
    if negb (String.eqb (data_type column_info) "unknown")
    then _convert_to_target_type column_data (data_type column_info)
    else column_data in
  match _apply_constraints processed_column (constraints column_info) with
  | Ok processed_column =>
      if primary_key column_info
      then _ensure_primary_key_uniqueness processed_column
      else processed_column
  | Raise _ => column_data
  end.

End Processor.
End SmartDataProcessor.

(** ** ndmo_standards.py: validating a schema *)

Module SchemaValidation.
Import PyFloat NdmoStandards.
Local Open Scope float_scope.

(** [max(a, b)] and [min(a, b)]: the second argument replaces the first
    when it is strictly greater, respectively smaller. *)
Definition py_max (a b : float) : float := if a <? b then b else a.
Definition py_min (a b : float) : float := if b <? a then b else a.

Definition count {A} (p : A -> bool) (l : list A) : nat :=
  length (List.filter p l).

(** A column dictionary as the four checks read it: the entries of a Schema
    Model column, and the truth value of [column.get("required", False)].
    The inference engine stores that flag under [constraints] and writes no
    top-level [required] entry; other producers of schema dictionaries (the
    sample schema of the report generator) do. *)
Record ColumnDict := mkColumnDict {
  entries : Schema.Column;
  top_level_required : bool
}.

(** The entries of [schema_data] the checks read. *)
Record SchemaData := mkSchemaData {
  dict_columns : list ColumnDict;
  dict_business_rules : list Schema.business_rule
}.

(** The dictionaries of a Schema Model the inference engine built. *)
Definition of_column (column : Schema.Column) : ColumnDict :=
  mkColumnDict column false.

Definition of_schema (schema_info : Schema.SchemaInfo) : SchemaData :=
  mkSchemaData (map of_column (Schema.columns schema_info))
    (Schema.business_rules schema_info).

(** [_check_primary_key] *)
Definition _check_primary_key (schema_data : SchemaData) : bool :=
  existsb (fun column => Schema.primary_key (entries column)
                         || Schema.unique (entries column))
    (dict_columns schema_data).

(** [_check_completeness_requirements] *)
Definition _check_completeness_requirements (schema_data : SchemaData) : float :=
  match dict_columns schema_data with
  | [] => 0
  | columns =>
      let required_fields := count top_level_required columns in
      py_min 1 (of_nat required_fields / py_max (of_nat (length columns) * 0.3) 1)
  end.

(** [_check_data_validity] *)
Definition _check_data_validity (schema_data : SchemaData) : float :=
  match dict_columns schema_data with
  | [] => 0
  | columns =>
      let valid_columns :=
        count (fun column =>
                 negb (String.eqb (Schema.data_type (entries column)) "")
                 && Schema.nonempty (Schema.constraints (entries column)))
          columns in
      of_nat valid_columns / of_nat (length columns)
  end.

(** [_check_business_rules] *)
Definition _check_business_rules (schema_data : SchemaData) : float :=
  match dict_business_rules schema_data with
  | [] => 0.5
  | business_rules =>
      of_nat (count Schema.is_implemented business_rules)
      / of_nat (length business_rules)
  end.

(** The four measurements [validate_schema_compliance] takes, in the order
    it stores them. *)
Definition schema_measurements (schema_data : SchemaData) : results_t :=
  [ ("DG001", if _check_primary_key schema_data then 1 else 0);
    ("DQ001", _check_completeness_requirements schema_data);
    ("DQ005", _check_data_validity schema_data);
    ("BR001", _check_business_rules schema_data) ].

(** [validate_schema_compliance] *)
Definition validate_schema_compliance (schema_data : SchemaData)
    : ComplianceResult :=
  calculate_compliance_score (schema_measurements schema_data).

End SchemaValidation.

(** ** smart_schema_analyzer.py: the primary-key candidate *)

Module SchemaAutoCorrect.
Import Pandas Schema.

(** The score [_find_primary_key_candidate] gives a column. *)
Definition candidate_score (column : Column) : nat :=
  let has := fun word => PyStr.contains word (PyStr.lower (name column)) in
  (if has "id" then 3 else 0)
  + (if has "key" then 2 else 0)
  + (if has "serial" then 2 else 0)
  + (if unique column then 2 else 0)
  + (if PyStr.mem (data_type column) ["numeric"; "identifier"] then 1 else 0).

(** [list.sort(key=..., reverse=True)]: a stable sort by descending key. *)
Fixpoint insert_descending {A} (key : A -> nat) (x : A) (sorted : list A)
    : list A :=
  match sorted with
  | [] => [x]
  | y :: sorted' =>
      if (key y <? key x)%nat then x :: y :: sorted'
      else y :: insert_descending key x sorted'
  end.

Definition sort_descending {A} (key : A -> nat) (l : list A) : list A :=
  fold_left (fun sorted x => insert_descending key x sorted) l [].

(** [_find_primary_key_candidate] *)
Definition _find_primary_key_candidate (columns : list Column) : option Column :=
  let candidates :=
    List.filter (fun scored => (0 <? snd scored)%nat)
      (map (fun column => (column, candidate_score column)) columns) in
  match sort_descending snd candidates with
  | [] => None
  | best :: _ => Some (fst best)
  end.

End SchemaAutoCorrect.

(** ** schema_problem_analyzer.py: the column steps of the corrected schema *)

Module SchemaCorrection.
Import Pandas Schema.

Definition zero_statistics : Statistics := mkStatistics 0 0 0 0 0.

(** The key column [_add_missing_critical_fields] appends. *)
Definition id_column : Column :=
  {| name := "id";
     data_type := "numeric";
     nullable := false;
     unique := true;
     primary_key := true;
     foreign_key := false;
     constraints :=
       <["required" := VBool true]> (<["min_value" := VInt 1]>
       (<["max_value" := VInt 999999999]> ∅));
     sample_values := [CInt 1; CInt 2; CInt 3; CInt 4; CInt 5];
     statistics := Some zero_statistics;
     quality_issues := [];
     ndmo_standard := None;
     description := None |}.

Definition audit_fields : list (string * string) :=
  [("created_date", "datetime"); ("modified_date", "datetime");
   ("created_by", "text"); ("modified_by", "text")].

Definition audit_column (field : string * string) : Column :=
  {| name := fst field;
     data_type := snd field;
     nullable := true;
     unique := false;
     primary_key := false;
     foreign_key := false;
     constraints :=
       <["required" := VBool (PyStr.mem (fst field) ["created_date"; "created_by"])]> ∅;
     sample_values := [];
     statistics := Some zero_statistics;
     quality_issues := [];
     ndmo_standard := None;
     description := None |}.

(** [_add_missing_critical_fields]: both tests read the lower-cased names
    the columns had when the method started. *)
Definition _add_missing_critical_fields (columns : list Column) : list Column :=
  let existing_names := map (fun col => PyStr.lower (name col)) columns in
  let columns :=
    if negb (existsb (PyStr.contains "id") existing_names)
    then columns ++ [id_column] else columns in
  columns
  ++ map audit_column
       (List.filter (fun field => negb (PyStr.mem (fst field) existing_names))
          audit_fields).

Definition with_type (column : Column) (new_type : string) : Column :=
  {| name := name column;
     data_type := new_type;
     nullable := nullable column;
     unique := unique column;
     primary_key := primary_key column;
     foreign_key := foreign_key column;
     constraints := constraints column;
     sample_values := sample_values column;
     statistics := statistics column;
     quality_issues := quality_issues column;
     ndmo_standard := ndmo_standard column;
     description := description column |}.

(** [_fix_data_types], for one column, then for all. *)
Definition fix_data_type (column : Column) : Column :=
  if String.eqb (data_type column) "unknown"
  then
    let column_name := PyStr.lower (name column) in
    let any_of := existsb (fun keyword => PyStr.contains keyword column_name) in
    if any_of ["date"; "time"] then with_type column "datetime"
    else if any_of ["amount"; "price"; "cost"; "number"; "count"]
    then with_type column "numeric"
    else if any_of ["email"; "mail"] then with_type column "email"
    else if any_of ["phone"; "mobile"; "tel"] then with_type column "phone"
    else with_type column "text"
  else column.

Definition _fix_data_types (columns : list Column) : list Column :=
  map fix_data_type columns.

Definition with_constraints (column : Column) (cons : constraints_t) : Column :=
  {| name := name column;
     data_type := data_type column;
     nullable := nullable column;
     unique := unique column;
     primary_key := primary_key column;
     foreign_key := foreign_key column;
     constraints := cons;
     sample_values := sample_values column;
     statistics := statistics column;
     quality_issues := quality_issues column;
     ndmo_standard := ndmo_standard column;
     description := description column |}.

(** [_add_missing_constraints], for one column, then for all. *)
Definition add_missing_constraints (column : Column) : Column :=
  let cons := constraints column in
  let is_type := String.eqb (data_type column) in
  if is_type "text"
  then with_constraints column
         (<["max_length" := VInt 255]> (<["min_length" := VInt 1]> cons))
  else if is_type "numeric"
  then with_constraints column
         (<["max_value" := VInt 999999999]> (<["min_value" := VInt 0]> cons))
  else if is_type "email"
  then with_constraints column
         (<["format" := VStr "email"]>
            (<["pattern" := VStr "^[a-zA-Z0-9._%+-]+@[a-zA-Z0-9.-]+\.[a-zA-Z]{2,}$"]> cons))
  else if is_type "phone"
  then with_constraints column
         (<["format" := VStr "phone"]>
            (<["pattern" := VStr "^[\+]?[1-9][\d]{0,15}$"]> cons))
  else column.

Definition _add_missing_constraints (columns : list Column) : list Column :=
  map add_missing_constraints columns.

(** The three steps of [generate_corrected_schema] that act on the columns,
    in the order the method runs them. *)
Definition corrected_columns (columns : list Column) : list Column :=
  _add_missing_constraints (_fix_data_types (_add_missing_critical_fields columns)).

(** [_add_relationships], on the entries of the schema it reads. *)
Definition _add_relationships (relationships : list relationship)
    (columns : list Column) : list relationship :=
  relationships
  ++ omap (fun column =>
             let column_name := PyStr.lower (name column) in
             if PyStr.endswith "_id" column_name
                && negb (String.eqb column_name "id")
             then Some (ChildParent column_name
                          (PyStr.replace "_id" "" column_name) "many_to_one")
             else None)
          columns.

End SchemaCorrection.

(** ** smart_data_processor.py: cleaning a header *)

Module ColumnNames.

(** [\w] and [\s] on ASCII characters. *)
Definition is_word (c : ascii) : bool :=
  Re.is_lower c || Re.is_upper c || Re.is_digit c || Re.one_of "_" c.
Definition is_space (c : ascii) : bool :=
  let n := nat_of_ascii c in
  ((9 <=? n)%nat && (n <=? 13)%nat) || ((28 <=? n)%nat && (n <=? 32)%nat).

(** [re.sub('\s+', '_', s)]: each run of white space becomes one
    underscore; [in_run] tells that the previous character was white
    space. *)
Fixpoint collapse_spaces (in_run : bool) (s : string) : string :=
  match s with
  | EmptyString => EmptyString
  | String c s' =>
      if is_space c
      then if in_run then collapse_spaces true s'
           else String "_" (collapse_spaces true s')
      else String c (collapse_spaces false s')
  end.

(** [_clean_column_name] *)
Definition _clean_column_name (column_name : string) : string :=
  let cleaned := Re.keep (fun c => is_word c || is_space c) column_name in
  let cleaned := collapse_spaces false cleaned in
  PyStr.lower cleaned.

End ColumnNames.

(** * Properties *)

(** ** Facts on dictionaries and floats *)

Module PyDictFacts.
Import PyDict.
Section Dict.
Context {V : Type}.
Implicit Types (d : list (string * V)) (k : string) (v : V).

Lemma get_Some_In k v d : get k d = Some v -> In (k, v) d.
Proof.
  induction d as [|[k' v'] d IH]; simpl; [discriminate|].
  destruct (String.eqb_spec k' k) as [->|_].
  - intros [= ->]. now left.
  - intros H. right. now apply IH.
Qed.

Lemma In_get k v d : wf d -> In (k, v) d -> get k d = Some v.
Proof.
  unfold wf, keys.
  induction d as [|[k' v'] d IH]; simpl; [easy|].
  intros Hnd [Heq|Hin].
  - injection Heq as -> ->. now rewrite String.eqb_refl.
  - inversion Hnd as [|? ? Hnotin Hd]; subst.
    destruct (String.eqb_spec k' k) as [->|_].
    + exfalso. apply Hnotin. apply list_elem_of_In.
      change k with (fst (k, v)). now apply in_map.
    + now apply IH.
Qed.

Lemma has_key_In k d : has_key k d = true <-> In k (keys d).
Proof.
  unfold has_key, keys.
  induction d as [|[k' v'] d IH]; simpl; [intuition discriminate|].
  destruct (String.eqb_spec k' k) as [->|Hne]; [intuition|].
  rewrite IH. intuition congruence.
Qed.
End Dict.
End PyDictFacts.

Module PyFloatFacts.
Local Open Scope float_scope.

(** Multiplication of binary64 numbers commutes. *)
Lemma mul_comm (x y : float) : x * y = y * x.
Proof.
  apply Prim2SF_inj. rewrite !mul_spec.
  destruct (Prim2SF x) as [sx|sx| |sx mx ex], (Prim2SF y) as [sy|sy| |sy my ey];
    simpl; try reflexivity;
    rewrite ?(xorb_comm sx sy); try reflexivity.
  now rewrite (Pos.mul_comm mx my), (Z.add_comm ex ey).
Qed.
End PyFloatFacts.

(** ** The compliance scorer *)

Module StandardsSpec.
Import PyFloat NdmoStandards.
Local Open Scope float_scope.

(** *** What the scoring loop computes *)

(** The measured items whose id the catalog knows, in the order of the
    mapping. *)
Definition known (results : results_t) : results_t :=
  List.filter (fun item => PyDict.has_key (fst item) standards) results.

Definition weight_of (standard_id : string) : float :=
  match get_standard standard_id with Some std => weight std | None => 0 end.

(** A measured critical standard scores strictly below its threshold. *)
Definition critical_failure (results : results_t) : Prop :=
  exists standard_id score std,
    In (standard_id, score) results /\
    get_standard standard_id = Some std /\
    critical std = true /\ (score <? threshold std) = true.

Definition fails_critical (item : string * float) : bool :=
  match get_standard (fst item) with
  | Some std => critical std && (snd item <? threshold std)
  | None => false
  end.

Lemma known_cons sid score (results : results_t) :
  known ((sid, score) :: results) =
  match get_standard sid with
  | Some _ => (sid, score) :: known results
  | None => known results
  end.
Proof.
  unfold known, PyDict.has_key, get_standard. cbn [List.filter fst].
  now destruct (PyDict.get sid standards).
Qed.

Lemma fails_critical_cons sid score (results : results_t) :
  List.filter fails_critical ((sid, score) :: results) =
  match get_standard sid with
  | Some std =>
      if critical std && (score <? threshold std)
      then (sid, score) :: List.filter fails_critical results
      else List.filter fails_critical results
  | None => List.filter fails_critical results
  end.
Proof.
  cbn [List.filter]. unfold fails_critical at 1. cbn [fst snd].
  now destruct (get_standard sid).
Qed.

Lemma fold_score_step (results : results_t) tw ws fs :
  fold_left score_step results (tw, ws, fs) =
  (fold_left PrimFloat.add (map (fun item => weight_of (fst item)) (known results)) tw,
   fold_left PrimFloat.add
     (map (fun item => snd item * weight_of (fst item)) (known results)) ws,
   fs ++ map fst (List.filter fails_critical results)).
Proof.
  revert tw ws fs.
  induction results as [|[sid score] results IH]; intros tw ws fs.
  - cbn. now rewrite app_nil_r.
  - cbn [fold_left]. rewrite known_cons, fails_critical_cons.
    unfold score_step at 2.
    destruct (get_standard sid) as [std|] eqn:Hstd; rewrite IH; [|reflexivity].
    assert (Hw : weight_of sid = weight std)
      by (unfold weight_of; now rewrite Hstd).
    cbn [map fold_left fst snd]. rewrite Hw.
    destruct (critical std && (score <? threshold std)); [|reflexivity].
    cbn [map fst]. now rewrite <- app_assoc.
Qed.

Lemma critical_failure_filter (results : results_t) :
  critical_failure results <-> List.filter fails_critical results <> [].
Proof.
  split.
  - intros (sid & score & std & Hin & Hstd & Hc & Hlt) Hnil.
    assert (Hf : In (sid, score) (List.filter fails_critical results)).
    { apply filter_In. split; [assumption|].
      unfold fails_critical; simpl. now rewrite Hstd, Hc, Hlt. }
    rewrite Hnil in Hf. destruct Hf.
  - destruct (List.filter fails_critical results) as [|[sid score] l] eqn:Hf;
      [congruence|]. intros _.
    assert (Hin : In (sid, score) (List.filter fails_critical results))
      by (rewrite Hf; now left).
    apply filter_In in Hin as [Hin Hfail].
    unfold fails_critical in Hfail; simpl in Hfail.
    destruct (get_standard sid) as [std|] eqn:Hstd; [|discriminate].
    apply andb_true_iff in Hfail as [Hc Hlt].
    now exists sid, score, std.
Qed.

(** *** The total weight of a non-empty measurement is positive

    Binary64 addition is not associative, so the sign of the running total
    is established on the partial sums themselves: [reach k] lists every
    value a sum of [k] catalog weights can take, in whatever order they are
    added. *)

Definition catalog_weights : list float :=
  map (fun entry => weight (snd entry)) standards.

Definition insert_new (x : float) (l : list float) : list float :=
  if existsb (PrimFloat.Leibniz.eqb x) l then l else x :: l.

Definition nub (l : list float) : list float := fold_right insert_new [] l.

Definition reach_step (sums : list float) : list float :=
  nub (flat_map (fun x => map (fun w => x + w) catalog_weights) sums).

Fixpoint reach (k : nat) : list float :=
  match k with
  | O => [0]
  | S k' => reach_step (reach k')
  end.

Lemma In_insert_new x y l : In x (y :: l) -> In x (insert_new y l).
Proof.
  unfold insert_new. destruct (existsb _ l) eqn:He; [|easy].
  intros [<-|Hin]; [|assumption].
  apply existsb_exists in He as (z & Hz & Heq).
  apply FloatAxioms.Leibniz.eqb_spec in Heq. now subst.
Qed.

Lemma In_nub x l : In x l -> In x (nub l).
Proof.
  induction l as [|y l IH]; [easy|]. intros Hin. cbn [nub fold_right].
  apply In_insert_new. destruct Hin as [->|Hin]; [now left|right; now apply IH].
Qed.

Lemma reach_add k x w :
  In x (reach k) -> In w catalog_weights -> In (x + w) (reach (S k)).
Proof.
  intros Hx Hw. cbn [reach]. unfold reach_step. apply In_nub.
  apply in_flat_map. exists x. split; [assumption|].
  now apply (in_map (fun w => x + w)).
Qed.

Lemma fold_reach ws :
  Forall (fun w => In w catalog_weights) ws ->
  forall k x, In x (reach k) ->
  In (fold_left PrimFloat.add ws x) (reach (k + length ws)).
Proof.
  induction 1 as [|w ws Hw _ IH]; intros k x Hx; cbn [fold_left length].
  - now rewrite Nat.add_0_r.
  - replace (k + S (length ws))%nat with (S k + length ws)%nat by lia.
    apply IH. now apply reach_add.
Qed.

Definition catalog_size : nat := length standards.

Lemma reach_positive :
  forallb (fun k => forallb (fun x => 0 <? x) (reach k)) (seq 1 catalog_size)
  = true.
Proof. vm_compute. reflexivity. Qed.

Lemma get_standard_In sid std :
  get_standard sid = Some std -> In (sid, std) standards.
Proof. apply PyDictFacts.get_Some_In. Qed.

Lemma known_In (results : results_t) item :
  In item (known results) ->
  In item results /\ exists std, get_standard (fst item) = Some std.
Proof.
  unfold known. rewrite filter_In. unfold PyDict.has_key, get_standard.
  intros [Hin Hk]. split; [assumption|].
  destruct (PyDict.get item.1 standards) as [std|]; [now exists std|discriminate].
Qed.

Lemma keys_filter_NoDup {V} (f : string * V -> bool) (d : list (string * V)) :
  PyDict.wf d -> PyDict.wf (List.filter f d).
Proof.
  unfold PyDict.wf, PyDict.keys.
  induction d as [|[k v] d IH]; cbn [List.filter map fst]; [easy|].
  intros Hnd. inversion Hnd as [|? ? Hnotin Hd]; subst.
  destruct (f (k, v)); [|now apply IH].
  cbn [map fst]. constructor; [|now apply IH].
  intros Hin. apply Hnotin.
  apply list_elem_of_In in Hin. apply list_elem_of_In.
  apply in_map_iff in Hin as (item & <- & Hitem).
  apply filter_In in Hitem as [Hitem _]. now apply in_map.
Qed.

Lemma known_length (results : results_t) :
  PyDict.wf results -> (length (known results) <= catalog_size)%nat.
Proof.
  intros Hwf.
  pose proof (keys_filter_NoDup
                (fun item => PyDict.has_key (fst item) standards) results Hwf)
    as Hnd.
  fold (known results) in Hnd. unfold PyDict.wf, PyDict.keys in Hnd.
  rewrite <- (length_map fst (known results)).
  unfold catalog_size. rewrite <- (length_map fst standards).
  apply NoDup_incl_length; [now apply NoDup_ListNoDup|].
  intros k Hk. apply in_map_iff in Hk as (item & <- & Hitem).
  apply known_In in Hitem as [_ [std Hstd]].
  apply get_standard_In in Hstd.
  now apply (in_map fst) in Hstd.
Qed.

Lemma total_weight_positive (results : results_t) :
  PyDict.wf results -> known results <> [] ->
  (0 <? fsum (map (fun item => weight_of (fst item)) (known results))) = true.
Proof.
  intros Hwf Hne. unfold fsum.
  assert (Hws : Forall (fun w => In w catalog_weights)
                  (map (fun item : string * float => weight_of (fst item))
                     (known results))).
  { apply List.Forall_forall. intros w Hw.
    apply in_map_iff in Hw as (item & <- & Hitem).
    apply known_In in Hitem as [_ [std Hstd]].
    unfold weight_of. rewrite Hstd.
    apply get_standard_In in Hstd.
    now apply (in_map (fun entry => weight (snd entry))) in Hstd. }
  pose proof (fold_reach _ Hws 0%nat 0 (or_introl eq_refl)) as Hin.
  rewrite length_map in Hin. cbn [Nat.add] in Hin.
  pose proof (known_length results Hwf) as Hlen.
  pose proof reach_positive as Hpos.
  rewrite forallb_forall in Hpos.
  specialize (Hpos (length (known results))).
  rewrite forallb_forall in Hpos. apply Hpos; [|assumption].
  apply in_seq. destruct (known results); [congruence|]. cbn [length] in *. lia.
Qed.

(** *** Ids the catalog does not know are ignored *)

Lemma catalog_keys_are_ids std :
  In std (map snd standards) -> PyDict.has_key (id std) standards = true.
Proof.
  assert (H : forallb (fun std => PyDict.has_key (id std) standards)
                (map snd standards) = true) by (vm_compute; reflexivity).
  rewrite forallb_forall in H. apply H.
Qed.

Lemma get_known k (results : results_t) :
  PyDict.has_key k standards = true ->
  PyDict.get k (known results) = PyDict.get k results.
Proof.
  intros Hk. unfold known.
  induction results as [|[k' v] results IH]; [reflexivity|].
  cbn [List.filter fst PyDict.get].
  destruct (String.eqb_spec k' k) as [->|Hne].
  - rewrite Hk. cbn [PyDict.get]. now rewrite String.eqb_refl.
  - destruct (PyDict.has_key k' standards); [|assumption].
    cbn [PyDict.get]. now apply String.eqb_neq in Hne as ->.
Qed.

Lemma known_idem (results : results_t) : known (known results) = known results.
Proof.
  unfold known. induction results as [|item results IH]; [reflexivity|].
  cbn [List.filter].
  destruct (PyDict.has_key item.1 standards) eqn:Hk; [|assumption].
  cbn [List.filter]. now rewrite Hk, IH.
Qed.

Lemma fails_critical_known (results : results_t) :
  List.filter fails_critical (known results) = List.filter fails_critical results.
Proof.
  induction results as [|[sid score] results IH]; [reflexivity|].
  rewrite known_cons, fails_critical_cons.
  destruct (get_standard sid) as [std|] eqn:Hstd; [|assumption].
  rewrite fails_critical_cons, Hstd. now rewrite IH.
Qed.

Lemma category_score_loop_known (results : results_t) stds :
  (forall std, In std stds -> In std (map snd standards)) ->
  category_score_loop (known results) stds = category_score_loop results stds.
Proof.
  unfold category_score_loop. generalize 0.
  induction stds as [|std stds IH]; intros acc Hin; [reflexivity|].
  cbn [fold_left].
  rewrite get_known by (apply catalog_keys_are_ids, Hin; now left).
  apply IH. intros std' Hstd'. apply Hin. now right.
Qed.

Lemma by_category_in_catalog c std :
  In std (get_standards_by_category c) -> In std (map snd standards).
Proof. unfold get_standards_by_category. rewrite filter_In. tauto. Qed.

Lemma category_scores_known (results : results_t) :
  _calculate_category_scores (known results) = _calculate_category_scores results.
Proof.
  unfold _calculate_category_scores. apply map_ext. intros c. cbv zeta.
  now rewrite category_score_loop_known by apply by_category_in_catalog.
Qed.

Lemma recommendations_known (results : results_t) :
  _generate_recommendations (known results) = _generate_recommendations results.
Proof.
  unfold _generate_recommendations. generalize (@nil recommendation).
  induction results as [|[sid score] results IH]; intros recs; [reflexivity|].
  rewrite known_cons. cbn [fold_left]. unfold recommend_step at 3.
  destruct (get_standard sid) as [std|] eqn:Hstd; [|apply IH].
  cbn [fold_left]. unfold recommend_step at 2. rewrite Hstd. apply IH.
Qed.

Lemma calculate_known (results : results_t) :
  calculate_compliance_score (known results) = calculate_compliance_score results.
Proof.
  unfold calculate_compliance_score.
  rewrite !fold_score_step, known_idem, fails_critical_known.
  now rewrite category_scores_known, recommendations_known.
Qed.

(** *** The overall score, as the specification words it *)

Definition spec_overall_score (results : results_t) : float :=
  match known results with
  | [] => 0
  | present =>
      fsum (map (fun item => snd item * weight_of (fst item)) present)
      / fsum (map (fun item => weight_of (fst item)) present)
  end.

Definition scenario_A : results_t := [("DG001", 1.0)].

(** C3: the overall score is the sum of score*weight divided by the sum of
    the weights, both over the measured ids the catalog knows; the other ids
    are ignored (the result is the one of the mapping without them, and no
    error arises), the score is 0 when no known id is measured, and
    [{"DG001": 1.0}] scores 1.0 with status [compliant]. *)
Theorem C3_overall_score (results : results_t) :
  PyDict.wf results ->
  overall_score (calculate_compliance_score results) = spec_overall_score results /\
  calculate_compliance_score results = calculate_compliance_score (known results) /\
  (known results = [] -> overall_score (calculate_compliance_score results) = 0) /\
  overall_score (calculate_compliance_score scenario_A) = 1.0 /\
  status (calculate_compliance_score scenario_A) = "compliant".
Proof.
  intros Hwf.
  assert (Hov : overall_score (calculate_compliance_score results)
                = spec_overall_score results).
  { unfold calculate_compliance_score, spec_overall_score.
    rewrite fold_score_step. cbn [overall_score].
    destruct (known results) as [|item present] eqn:Hk; [reflexivity|].
    pose proof (total_weight_positive results Hwf) as Hpos.
    rewrite Hk in Hpos. unfold fsum in *. now rewrite Hpos. }
  split; [|split; [|split; [|split]]].
  - exact Hov.
  - symmetry. apply calculate_known.
  - intros Hk. rewrite Hov. unfold spec_overall_score. now rewrite Hk.
  - vm_compute. reflexivity.
  - vm_compute. reflexivity.
Qed.

Definition measured_sample : results_t :=
  [("DQ001", 0.9); ("ZZ999", 0.5); ("DG001", 1.0); ("BR001", 0.85)].

Lemma C3_overall_score_witness :
  overall_score (calculate_compliance_score measured_sample)
  = spec_overall_score measured_sample /\
  calculate_compliance_score measured_sample
  = calculate_compliance_score (known measured_sample) /\
  (known measured_sample = [] ->
   overall_score (calculate_compliance_score measured_sample) = 0) /\
  overall_score (calculate_compliance_score scenario_A) = 1.0 /\
  status (calculate_compliance_score scenario_A) = "compliant".
Proof.
  apply (C3_overall_score measured_sample).
  unfold PyDict.wf, PyDict.keys. apply (bool_decide_unpack _).
  vm_compute. reflexivity.
Defined.

(** *** Category scores, as the specification words them *)

(** [results[k]] for a measured id. *)
Definition score_of (results : results_t) (k : string) : float :=
  match PyDict.get k results with Some score => score | None => 0 end.

(** The standards declared in category [c] that the mapping measures. *)
Definition measured_in (results : results_t) (c : string) : list NDMOStandard :=
  List.filter (fun std => PyDict.has_key (id std) results)
    (get_standards_by_category c).

Definition spec_category_score (results : results_t) (c : string) : float :=
  fsum (map (fun std => weight std * score_of results (id std))
          (measured_in results c))
  / fsum (map weight (get_standards_by_category c)).

Lemma category_score_loop_sum (results : results_t) stds :
  category_score_loop results stds =
  fsum (map (fun std => weight std * score_of results (id std))
          (List.filter (fun std => PyDict.has_key (id std) results) stds)).
Proof.
  unfold category_score_loop, fsum. generalize 0.
  induction stds as [|std stds IH]; intros acc; [reflexivity|].
  cbn [fold_left List.filter]. unfold PyDict.has_key at 1, score_of.
  destruct (PyDict.get (id std) results) as [score|] eqn:Hget; rewrite IH.
  - cbn [map fold_left]. unfold score_of.
    now rewrite Hget, (PyFloatFacts.mul_comm (weight std) score).
  - reflexivity.
Qed.

Lemma category_weight_positive c :
  In c categories ->
  (0 <? fsum (map weight (get_standards_by_category c))) = true.
Proof.
  intros Hc. repeat (destruct Hc as [<-|Hc]; [vm_compute; reflexivity|]).
  destruct Hc.
Qed.

Lemma zero_over_category_weight c :
  In c categories -> 0 / fsum (map weight (get_standards_by_category c)) = 0.
Proof.
  intros Hc. repeat (destruct Hc as [<-|Hc]; [vm_compute; reflexivity|]).
  destruct Hc.
Qed.

Lemma get_tabulate {V} (f : string -> V) (c : string) (l : list string) :
  In c l -> PyDict.get c (map (fun c => (c, f c)) l) = Some (f c).
Proof.
  induction l as [|c' l IH]; [easy|]. cbn [map PyDict.get].
  destruct (String.eqb_spec c' c) as [->|Hne]; [reflexivity|].
  intros [Heq|Hin]; [congruence|now apply IH].
Qed.

Lemma category_scores_of_result (results : results_t) :
  category_scores (calculate_compliance_score results)
  = _calculate_category_scores results.
Proof.
  unfold calculate_compliance_score.
  now destruct (fold_left score_step results (0, 0, [])) as [[tw ws] fs].
Qed.

(** C2: the score of a catalog category is the sum of weight*score over its
    measured standards divided by the sum of the weights of all the standards
    declared in it; with none of them measured it is 0.0. *)
Theorem C2_category_score (results : results_t) (c : string) :
  In c categories ->
  PyDict.get c (category_scores (calculate_compliance_score results))
  = Some (spec_category_score results c) /\
  (measured_in results c = [] ->
   PyDict.get c (category_scores (calculate_compliance_score results))
   = Some 0).
Proof.
  intros Hc.
  assert (Hget : PyDict.get c (category_scores (calculate_compliance_score results))
                 = Some (spec_category_score results c)).
  { rewrite category_scores_of_result. unfold _calculate_category_scores.
    rewrite (get_tabulate _ c categories Hc).
    rewrite (category_weight_positive c Hc), category_score_loop_sum.
    unfold spec_category_score, measured_in. reflexivity. }
  split; [exact Hget|].
  intros Hnone. rewrite Hget. unfold spec_category_score.
  rewrite Hnone. cbn [map]. unfold fsum at 1. cbn [fold_left].
  now rewrite (zero_over_category_weight c Hc).
Qed.

Lemma C2_category_score_witness :
  PyDict.get "Data Security"
    (category_scores (calculate_compliance_score measured_sample))
  = Some (spec_category_score measured_sample "Data Security") /\
  (measured_in measured_sample "Data Security" = [] ->
   PyDict.get "Data Security"
     (category_scores (calculate_compliance_score measured_sample))
   = Some 0).
Proof.
  apply (C2_category_score measured_sample "Data Security").
  unfold categories, _get_categories. cbn [In]. tauto.
Defined.

Definition threshold_status (overall : float) : string :=
  if 0.95 <=? overall then "compliant"
  else if 0.8 <=? overall then "partially_compliant"
  else "non_compliant".

(** C1: a measured critical standard below its threshold forces
    [non_compliant] whatever the overall score; without one the status follows
    the overall score: [compliant] from 0.95, [partially_compliant] from 0.8,
    [non_compliant] below. *)
Theorem C1_status_rule (results : results_t) :
  (critical_failure results ->
   status (calculate_compliance_score results) = "non_compliant") /\
  (~ critical_failure results ->
   status (calculate_compliance_score results) =
   threshold_status (overall_score (calculate_compliance_score results))).
Proof.
  unfold calculate_compliance_score.
  rewrite fold_score_step. cbn [app].
  rewrite critical_failure_filter.
  destruct (List.filter fails_critical results) as [|item l]; cbn [map status overall_score].
  - split; [congruence|]. intros _. unfold threshold_status.
    destruct (0.95 <=? _); [reflexivity|]. now destruct (0.8 <=? _).
  - split; [reflexivity|]. intros H. now destruct H.
Qed.

End StandardsSpec.

(** ** The schema inference engine *)

Module AnalyzerSpec.
Import PyFloat Pandas Schema Py SmartSchemaAnalyzer.
Local Open Scope float_scope.

(** *** Simple stand-ins for the library functions, to run examples *)

Definition digits (s : string) : bool :=
  Re.accepts (Re.plus (Re.Chr Re.is_digit)) s.

Definition iso_date (s : string) : bool :=
  let d := Re.Chr Re.is_digit in
  let dash := Re.Chr (Re.one_of "-") in
  Re.accepts
    (Re.Cat d (Re.Cat d (Re.Cat d (Re.Cat d (Re.Cat dash
       (Re.Cat d (Re.Cat d (Re.Cat dash (Re.Cat d d))))))))) s.

Definition numeric_ok (data : Series) : bool :=
  forallb (fun c => match c with
                    | CInt _ | CBool _ => true
                    | CStr s => digits s
                    | CNull => true
                    end) (values data).

Definition datetime_ok (data : Series) : bool :=
  forallb (fun c => match c with CStr s => iso_date s | _ => false end)
    (values data).

Definition int_of_digits (s : string) : option Z :=
  if digits s then option_map Z.of_int (NilZero.int_of_string s) else None.

Definition mean (xs : list float) : float := fsum xs / of_nat (length xs).

(** *** Column statistics *)




Lemma filter_notna_id (cells : list cell) :
  existsb isnull cells = false -> List.filter notna cells = cells.
Proof.
  induction cells as [|c cells IH]; [reflexivity|].
  cbn [existsb List.filter]. unfold notna at 1.
  destruct (isnull c); cbn [negb orb]; [discriminate|].
  intros H. now rewrite IH.
Qed.

Lemma dropna_no_null (column_data : Series) :
  any_null column_data = false -> len (dropna column_data) = len column_data.
Proof.
  unfold any_null, dropna, len; cbn [values]. intros H.
  now rewrite filter_notna_id.
Qed.




(** *** Type inference on sampled data *)

Definition is_email (s : string) : bool := Re.match_anchored Re.email_pattern s.
Definition is_phone (s : string) : bool :=
  Re.match_anchored Re.phone_pattern (Re.keep plus_or_digit s).
Definition is_identifier (s : string) : bool :=
  Re.match_anchored Re.identifier_pattern s.

(** The pattern test, as the specification words it: over the samples, the
    first of email, phone, identifier that any sample matches; else text. *)
Definition pattern_type (samples : list string) : string :=
  if existsb is_email samples then "email"
  else if existsb is_phone samples then "phone"
  else if existsb is_identifier samples then "identifier"
  else "text".

Definition first_samples (data : Series) : list string :=
  map str (firstn 10 (values data)).

(** The boolean and the categorical checks. *)
Definition all_boolean (data : Series) : bool :=
  bool_decide (dtype_of data = DBool)
  || forallb (fun val => PyStr.mem (PyStr.lower (str val)) boolean_words)
       (values data).
Definition categorical (data : Series) : bool :=
  of_nat (nunique data) <? of_nat (len data) * 0.5.

Definition scenario_C : Series :=
  read_column [CStr "a@b.com"; CStr "c@d.com"; CStr "not-an-email"].

Lemma pattern_type_email samples v :
  In v samples -> is_email v = true -> pattern_type samples = "email".
Proof.
  intros Hin Hv. unfold pattern_type.
  assert (H : existsb is_email samples = true)
    by (apply existsb_exists; now exists v).
  now rewrite H.
Qed.

(** C9: once the numeric, datetime, boolean and categorical checks have
    failed, the type is decided on the first 10 samples by the email, phone
    and identifier patterns in that order, one matching sample being enough,
    and is text when none matches; the column
    ["a@b.com","c@d.com","not-an-email"] is typed email. *)
Theorem C9_pattern_inference (numeric datetime : Series -> bool) (data : Series) :
  (numeric data = false -> datetime data = false ->
   all_boolean data = false -> categorical data = false ->
   _determine_data_type numeric datetime data = pattern_type (first_samples data)) /\
  (forall v, In v (first_samples data) -> is_email v = true ->
   pattern_type (first_samples data) = "email") /\
  (numeric scenario_C = false -> datetime scenario_C = false ->
   _determine_data_type numeric datetime scenario_C = "email") /\
  _determine_data_type numeric_ok datetime_ok scenario_C = "email".
Proof.
  assert (Hgen : forall d, numeric d = false -> datetime d = false ->
            all_boolean d = false -> categorical d = false ->
            _determine_data_type numeric datetime d = pattern_type (first_samples d)).
  { intros d Hn Hd Hb Hc. unfold _determine_data_type.
    destruct (len d =? 0)%nat eqn:Hlen.
    - apply Nat.eqb_eq in Hlen. unfold len in Hlen.
      unfold all_boolean in Hb. apply orb_false_iff in Hb as [_ Hb].
      destruct (values d); [discriminate Hb|discriminate Hlen].
    - rewrite Hn, Hd. fold (all_boolean d). rewrite Hb.
      fold (categorical d). rewrite Hc. reflexivity. }
  split; [apply Hgen|]. split; [apply pattern_type_email|].
  split; [|vm_compute; reflexivity].
  intros Hn Hd. rewrite Hgen; try assumption; vm_compute; reflexivity.
Qed.

(** *** Empty tables *)

Definition empty_schema (sheet : string) : SchemaInfo :=
  {| sheet_name := sheet;
     total_rows := 0;
     total_columns := 0;
     columns := [];
     business_rules := common_rules;
     relationships := [];
     quality_metrics := Some (mkQualityMetrics 0 0 0 0 0);
     ndmo_compliant := false;
     compliance_improvements := [] |}.

(** C10, as stated, fails on the table without columns: the engine returns a
    Schema Model, whose column list is empty. *)
Lemma C10_counterexample :
  _analyze_schema_structure numeric_ok datetime_ok int_of_digits mean [] "Sheet1"
  = Ok (empty_schema "Sheet1") /\
  columns (empty_schema "Sheet1") = [].
Proof. split; reflexivity. Qed.

Lemma analyze_column_without_rows numeric datetime column header :
  values column = [] ->
  _analyze_column numeric datetime column header = Raise "ZeroDivisionError".
Proof.
  intros Hv. unfold _analyze_column, _identify_column_quality_issues,
    column_statistics, len. cbn [null_values total_values].
  now rewrite Hv.
Qed.

Lemma int_div_ok a b : b <> 0%nat -> int_div a b = Ok (of_nat a / of_nat b).
Proof.
  intros Hb. unfold int_div. now apply Nat.eqb_neq in Hb as ->.
Qed.

Lemma quality_issues_with_rows column_name data_type stats :
  total_values stats <> 0%nat ->
  exists issues,
    _identify_column_quality_issues column_name data_type stats = Ok issues.
Proof.
  intros Hrows. unfold _identify_column_quality_issues.
  rewrite !int_div_ok by assumption. cbn [bind].
  destruct (PyStr.contains "id" (PyStr.lower column_name)); cbn [bind];
    eexists; reflexivity.
Qed.

(** The analysis of a column succeeds exactly when the column has rows, and
    then fills the descriptor from the column. *)
Lemma analyze_column_with_rows numeric datetime column_data column_name :
  values column_data <> [] ->
  exists issues,
    _analyze_column numeric datetime column_data column_name
    = Ok {| name := column_name;
            data_type := _determine_data_type numeric datetime (dropna column_data);
            nullable := any_null column_data;
            unique := _is_primary_key column_name column_data
                      || (nunique column_data =? len column_data)%nat;
            primary_key := _is_primary_key column_name column_data;
            foreign_key := _is_foreign_key column_name column_data;
            constraints := _analyze_column_constraints column_data column_name;
            sample_values := values (head 5 (dropna column_data));
            statistics := Some (column_statistics column_data);
            quality_issues := issues;
            ndmo_standard := None;
            description := None |}.
Proof.
  intros Hrows. unfold _analyze_column.
  destruct (quality_issues_with_rows column_name
              (_determine_data_type numeric datetime (dropna column_data))
              (column_statistics column_data)) as [issues Hissues].
  { unfold column_statistics, len. cbn [total_values].
    destruct (values column_data); [congruence|discriminate]. }
  exists issues. now rewrite Hissues.
Qed.

Lemma mapM_analyze_names numeric datetime (schema_df : DataFrame) cols :
  mapM (fun col => _analyze_column numeric datetime (snd col) (fst col)) schema_df
  = Ok cols ->
  map name cols = df_columns schema_df /\
  Forall (fun col => values (snd col) <> []) schema_df.
Proof.
  revert cols. induction schema_df as [|[header column] df IH]; intros cols.
  - cbn. intros [= <-]. split; [reflexivity|constructor].
  - cbn [mapM fst snd].
    destruct (values column) as [|c cells] eqn:Hv.
    { rewrite (analyze_column_without_rows _ _ _ _ Hv). discriminate. }
    destruct (analyze_column_with_rows numeric datetime column header)
      as [issues Heq]; [congruence|].
    rewrite Heq. cbn [bind].
    destruct (mapM _ df) as [cols'|] eqn:Hrest; cbn [bind]; [|discriminate].
    intros [= <-]. destruct (IH cols' eq_refl) as [Hnames Hrows].
    split.
    + cbn [map name df_columns fst]. unfold df_columns in Hnames. now rewrite Hnames.
    + constructor; [cbn [snd]; congruence|assumption].
Qed.

Lemma mapM_analyze_ok numeric datetime (schema_df : DataFrame) :
  Forall (fun col => values (snd col) <> []) schema_df ->
  exists cols,
    mapM (fun col => _analyze_column numeric datetime (snd col) (fst col)) schema_df
    = Ok cols.
Proof.
  induction 1 as [|[header column] df Hrows _ [cols Hcols]]; [now exists []|].
  destruct (analyze_column_with_rows numeric datetime column header Hrows)
    as [issues Heq].
  eexists. cbn [mapM fst snd]. rewrite Heq. cbn [bind]. rewrite Hcols.
  reflexivity.
Qed.

(** A column without rows ends the loop over the columns with the division
    by zero, wherever it stands. *)
Lemma mapM_analyze_raises numeric datetime (schema_df : DataFrame) :
  Exists (fun col => values (snd col) = []) schema_df ->
  mapM (fun col => _analyze_column numeric datetime (snd col) (fst col)) schema_df
  = Raise "ZeroDivisionError".
Proof.
  induction schema_df as [|[header column] df IH]; intros Hempty.
  - inversion Hempty.
  - cbn [mapM fst snd].
    destruct (values column) as [|c cells] eqn:Hv.
    { now rewrite (analyze_column_without_rows _ _ _ _ Hv). }
    destruct (analyze_column_with_rows numeric datetime column header)
      as [issues Heq]; [congruence|].
    rewrite Heq. cbn [bind].
    apply List.Exists_cons in Hempty as [Hhead|Htail];
      [cbn [snd] in Hhead; congruence|].
    now rewrite (IH Htail).
Qed.

(** C10, amended: a table without columns is not rejected: the engine
    returns a Schema Model with an empty column list, the three placeholder
    business rules, no relationship and zero metrics.  A table without
    schema-definition header is never rejected as unrecognizable: it is
    analysed as sampled data.  Such a table fails with one error, a division
    by zero, and yields no Schema Model, when some column has no row (so
    when it has columns and no rows); when every column has a row it yields
    a Schema Model with one column per header, in the order of the headers,
    never a partial column list. *)
Theorem C10_empty_table (numeric datetime : Series -> bool)
    (to_int : string -> option Z) (mean_of : list float -> float)
    (sheet : string) :
  _analyze_schema_structure numeric datetime to_int mean_of [] sheet
  = Ok (empty_schema sheet) /\
  (forall schema_df,
     _is_schema_definition schema_df = false ->
     _analyze_schema_structure numeric datetime to_int mean_of schema_df sheet
     = _analyze_regular_data_format numeric datetime mean_of schema_df sheet) /\
  (forall schema_df,
     _is_schema_definition schema_df = false ->
     Exists (fun col => values (snd col) = []) schema_df ->
     _analyze_schema_structure numeric datetime to_int mean_of schema_df sheet
     = Raise "ZeroDivisionError") /\
  (forall schema_df,
     _is_schema_definition schema_df = false ->
     schema_df <> [] -> df_len schema_df = 0%nat ->
     Forall (fun col => len (snd col) = df_len schema_df) schema_df ->
     _analyze_schema_structure numeric datetime to_int mean_of schema_df sheet
     = Raise "ZeroDivisionError") /\
  (forall schema_df,
     _is_schema_definition schema_df = false ->
     Forall (fun col => values (snd col) <> []) schema_df ->
     exists schema,
       _analyze_schema_structure numeric datetime to_int mean_of schema_df sheet
       = Ok schema /\
       map name (columns schema) = df_columns schema_df /\
       total_columns schema = length schema_df).
Proof.
  assert (Hshape : forall schema_df,
            _is_schema_definition schema_df = false ->
            _analyze_schema_structure numeric datetime to_int mean_of schema_df sheet
            = _analyze_regular_data_format numeric datetime mean_of schema_df sheet).
  { intros schema_df Hdf. unfold _analyze_schema_structure. now rewrite Hdf. }
  assert (Hraise : forall schema_df,
            _is_schema_definition schema_df = false ->
            Exists (fun col => values (snd col) = []) schema_df ->
            _analyze_schema_structure numeric datetime to_int mean_of schema_df sheet
            = Raise "ZeroDivisionError").
  { intros schema_df Hdf Hempty. rewrite (Hshape _ Hdf).
    unfold _analyze_regular_data_format.
    now rewrite (mapM_analyze_raises _ _ _ Hempty). }
  split; [reflexivity|]. split; [exact Hshape|]. split; [exact Hraise|]. split.
  - intros schema_df Hdf Hcolumns Hrows Hrect. apply (Hraise _ Hdf).
    destruct schema_df as [|[header column] df]; [congruence|].
    apply List.Exists_cons_hd. cbn [snd].
    apply List.Forall_inv in Hrect. cbn [snd] in Hrect.
    rewrite Hrows in Hrect. unfold len in Hrect.
    now destruct (values column).
  - intros schema_df Hdf Hrows. rewrite (Hshape _ Hdf).
    unfold _analyze_regular_data_format.
    destruct (mapM_analyze_ok numeric datetime schema_df Hrows) as [cols Hcols].
    rewrite Hcols. cbn [bind]. eexists. split; [reflexivity|].
    apply mapM_analyze_names in Hcols as [Hnames _].
    unfold record_columns. cbn [columns total_columns].
    split; [exact Hnames|]. unfold df_columns. apply length_map.
Qed.

End AnalyzerSpec.

(** ** The problem detector *)

Module ProblemSpec.
Import Pandas Schema SchemaProblemAnalyzer.

(** A column that carries nothing but its name. *)
Definition plain_column (column_name : string) : Column :=
  {| name := column_name;
     data_type := "text";
     nullable := true;
     unique := false;
     primary_key := false;
     foreign_key := false;
     constraints := ∅;
     sample_values := [];
     statistics := None;
     quality_issues := [];
     ndmo_standard := None;
     description := None |}.

Definition schema_of (cols : list Column) : SchemaInfo :=
  {| sheet_name := "Sheet1";
     total_rows := 0;
     total_columns := length cols;
     columns := cols;
     business_rules := [];
     relationships := [];
     quality_metrics := None;
     ndmo_compliant := false;
     compliance_improvements := [] |}.

Ltac split_conditions :=
  repeat match goal with
         | |- context [if ?b then _ else _] => destruct b
         | |- context [match ?l with [] => _ | _ :: _ => _ end] => destruct l
         end;
  reflexivity.

Lemma governance_critical schema_info problems :
  critical_problems (_analyze_data_governance_problems schema_info problems)
  = critical_problems problems
    ++ (if existsb primary_key (columns schema_info) then []
        else [missing_primary_key]).
Proof.
  unfold _analyze_data_governance_problems. cbv zeta.
  destruct (existsb primary_key (columns schema_info)); cbn [negb];
    [rewrite app_nil_r|]; split_conditions.
Qed.

Lemma quality_critical schema_info problems :
  critical_problems (_analyze_data_quality_problems schema_info problems)
  = critical_problems problems.
Proof. unfold _analyze_data_quality_problems. cbv zeta. split_conditions. Qed.

(** The critical problem the sensitive-name rule adds, if any. *)
Definition sensitive_problem (cols : list Column) : list Problem.t :=
  match List.filter is_sensitive cols with
  | [] => []
  | field :: fields => [sensitive_data_exposure (length (field :: fields))]
  end.

Lemma security_critical schema_info problems :
  critical_problems (_analyze_data_security_problems schema_info problems)
  = critical_problems problems ++ sensitive_problem (columns schema_info).
Proof.
  unfold _analyze_data_security_problems, sensitive_problem. cbv zeta.
  destruct (List.filter is_sensitive (columns schema_info));
    [rewrite app_nil_r|]; split_conditions.
Qed.

Lemma architecture_critical schema_info problems :
  critical_problems (_analyze_data_architecture_problems schema_info problems)
  = critical_problems problems.
Proof. unfold _analyze_data_architecture_problems. cbv zeta. split_conditions. Qed.

Lemma business_rules_critical schema_info problems :
  critical_problems (_analyze_business_rules_problems schema_info problems)
  = critical_problems problems.
Proof. unfold _analyze_business_rules_problems. cbv zeta. split_conditions. Qed.

Lemma critical_of_analysis schema_info :
  critical_problems (found (analyze_schema_problems schema_info))
  = (if existsb primary_key (columns schema_info) then []
     else [missing_primary_key])
    ++ sensitive_problem (columns schema_info).
Proof.
  unfold analyze_schema_problems. cbv zeta. cbn [found].
  rewrite business_rules_critical, architecture_critical, security_critical,
    quality_critical, governance_critical.
  reflexivity.
Qed.

Definition with_password : SchemaInfo :=
  schema_of [plain_column "customer_name"; plain_column "password"].

(** C8, as stated, fails on a schema without primary key that has a column
    named "password": two critical problems are emitted, DG001 and DS001. *)
Lemma C8_counterexample :
  existsb primary_key (columns with_password) = false /\
  map Problem.id (critical_problems (found (analyze_schema_problems with_password)))
  = ["DG001"; "DS001"].
Proof. vm_compute. split; reflexivity. Qed.

(** C8, amended: on a schema without a primary-key column the critical
    problems start with DG001, emitted once; it is the only critical problem
    when no column name contains a sensitive term (password, ssn, credit,
    card, secret, private), and is followed by the single problem DS001
    otherwise. *)
Theorem C8_missing_primary_key (schema_info : SchemaInfo) :
  existsb primary_key (columns schema_info) = false ->
  critical_problems (found (analyze_schema_problems schema_info))
  = missing_primary_key :: sensitive_problem (columns schema_info) /\
  Problem.id missing_primary_key = "DG001" /\
  (existsb is_sensitive (columns schema_info) = false ->
   critical_problems (found (analyze_schema_problems schema_info))
   = [missing_primary_key]) /\
  (existsb is_sensitive (columns schema_info) = true ->
   map Problem.id (critical_problems (found (analyze_schema_problems schema_info)))
   = ["DG001"; "DS001"]).
Proof.
  intros Hpk. rewrite critical_of_analysis, Hpk. cbn [app].
  split; [reflexivity|]. split; [reflexivity|].
  unfold sensitive_problem. split; intros Hs.
  - destruct (List.filter is_sensitive (columns schema_info)) as [|c l] eqn:Hf;
      [reflexivity|].
    assert (Hin : In c (List.filter is_sensitive (columns schema_info)))
      by (rewrite Hf; now left).
    apply filter_In in Hin as [Hin Hc].
    assert (existsb is_sensitive (columns schema_info) = true)
      by (apply existsb_exists; now exists c).
    congruence.
  - apply existsb_exists in Hs as (c & Hin & Hc).
    destruct (List.filter is_sensitive (columns schema_info)) as [|c' l] eqn:Hf;
      [|reflexivity].
    assert (Hin' : In c (List.filter is_sensitive (columns schema_info)))
      by (apply filter_In; now split).
    rewrite Hf in Hin'. destruct Hin'.
Qed.

Lemma C8_missing_primary_key_witness :
  critical_problems (found (analyze_schema_problems with_password))
  = missing_primary_key :: sensitive_problem (columns with_password) /\
  Problem.id missing_primary_key = "DG001" /\
  (existsb is_sensitive (columns with_password) = false ->
   critical_problems (found (analyze_schema_problems with_password))
   = [missing_primary_key]) /\
  (existsb is_sensitive (columns with_password) = true ->
   map Problem.id (critical_problems (found (analyze_schema_problems with_password)))
   = ["DG001"; "DS001"]).
Proof. apply (C8_missing_primary_key with_password). reflexivity. Defined.

End ProblemSpec.

(** ** The compliance transformer *)

Module TransformerSpec.
Import Pandas Schema SchemaNDMOComplianceProcessor.
Import ProblemSpec.

Definition names (cols : list Column) : list string := map name cols.

(** *** What the steps do to the column names *)

Lemma names_improve cols : names (_improve_data_types_for_ndmo cols) = names cols.
Proof.
  unfold names, _improve_data_types_for_ndmo. rewrite map_map.
  apply map_ext. intros col. unfold improve_data_type. cbv zeta.
  repeat match goal with
         | |- context [if ?b then _ else _] => destruct b
         end; reflexivity.
Qed.

Lemma names_quality cols : names (_add_data_quality_constraints cols) = names cols.
Proof.
  unfold names, _add_data_quality_constraints. rewrite map_map.
  now apply map_ext.
Qed.

Lemma names_add_missing fields cols :
  names (add_missing fields cols)
  = names cols
    ++ names (List.filter
                (fun field =>
                   negb (PyStr.mem (name field) (map PyStr.lower (names cols))))
                fields).
Proof.
  unfold add_missing, names. cbv zeta. rewrite map_app, map_map. reflexivity.
Qed.

Lemma names_ensure_primary_key cols :
  names (_ensure_primary_key cols)
  = if existsb primary_key cols then names cols else "id" :: names cols.
Proof.
  unfold _ensure_primary_key. cbv zeta.
  now destruct (existsb primary_key cols).
Qed.

(** Every original column is kept, in order and under its name: the new
    names are those of the input with names inserted before or after. *)
Lemma original_names_kept cols :
  names cols `sublist_of` names (compliant_columns cols).
Proof.
  unfold compliant_columns. cbv zeta.
  unfold _add_data_ownership_fields, _add_data_lineage_fields,
    _add_security_fields.
  rewrite !names_add_missing, names_quality, names_improve.
  unfold _add_audit_trail_fields. rewrite names_add_missing.
  rewrite names_ensure_primary_key.
  repeat apply sublist_inserts_r.
  destruct (existsb primary_key cols); [reflexivity|].
  now apply sublist_cons.
Qed.

(** *** Name uniqueness *)

Lemma mem_In k l : PyStr.mem k l = true <-> In k l.
Proof.
  unfold PyStr.mem. rewrite existsb_exists. split.
  - intros (x & Hin & Heq). apply String.eqb_eq in Heq. now subst.
  - intros Hin. exists k. split; [assumption|apply String.eqb_refl].
Qed.

(** Adding mandated fields keeps the names distinct, when the mandated
    names are distinct and in lower case. *)
Lemma add_missing_NoDup fields cols :
  NoDup (names fields) ->
  Forall (fun field => PyStr.lower (name field) = name field) fields ->
  NoDup (names cols) -> NoDup (names (add_missing fields cols)).
Proof.
  intros Hfields Hlower Hcols. rewrite names_add_missing.
  apply NoDup_app. split; [assumption|]. split.
  - intros k Hk Hadded.
    apply list_elem_of_In in Hk, Hadded.
    apply in_map_iff in Hadded as (field & <- & Hfield).
    apply filter_In in Hfield as [Hfield Hnew].
    apply negb_true_iff in Hnew.
    assert (Hmem : PyStr.mem (name field) (map PyStr.lower (names cols)) = true).
    { apply mem_In.
      rewrite List.Forall_forall in Hlower.
      rewrite <- (Hlower field Hfield). now apply in_map. }
    congruence.
  - clear Hlower. induction fields as [|field fields IH]; [constructor|].
    cbn [names map] in Hfields. apply NoDup_cons in Hfields as [Hnotin Hnd].
    cbn [List.filter].
    destruct (negb _); [|now apply IH].
    cbn [names map]. apply NoDup_cons. split; [|now apply IH].
    intros Hin. apply Hnotin.
    apply list_elem_of_In in Hin. apply list_elem_of_In.
    apply in_map_iff in Hin as (f & Heq & Hf).
    apply filter_In in Hf as [Hf _]. rewrite <- Heq. now apply in_map.
Qed.

Lemma mandated_names_ok fields :
  In fields [audit_fields; security_fields; lineage_fields; ownership_fields] ->
  NoDup (names fields) /\
  Forall (fun field => PyStr.lower (name field) = name field) fields.
Proof.
  intros Hin. cbn [In] in Hin.
  repeat (destruct Hin as [<-|Hin];
          [split; [apply (bool_decide_unpack _); vm_compute; reflexivity
                  |repeat constructor]|]).
  destruct Hin.
Qed.

(** The names stay distinct when the schema has a primary key, or has no
    column named "id". *)
Lemma names_stay_distinct cols :
  NoDup (names cols) ->
  existsb primary_key cols = true \/ ~ In "id" (names cols) ->
  NoDup (names (compliant_columns cols)).
Proof.
  intros Hnd Hid. unfold compliant_columns. cbv zeta.
  unfold _add_data_ownership_fields, _add_data_lineage_fields,
    _add_security_fields.
  repeat (apply add_missing_NoDup;
          [apply mandated_names_ok; cbn [In]; tauto
          |apply mandated_names_ok; cbn [In]; tauto|]).
  rewrite names_quality, names_improve.
  unfold _add_audit_trail_fields.
  apply add_missing_NoDup;
    [apply mandated_names_ok; cbn [In]; tauto
    |apply mandated_names_ok; cbn [In]; tauto|].
  rewrite names_ensure_primary_key.
  destruct (existsb primary_key cols) eqn:Hpk; [assumption|].
  destruct Hid as [Hid|Hid]; [discriminate|].
  apply NoDup_cons. split; [|assumption].
  intros Hin. apply Hid. now apply list_elem_of_In.
Qed.

(** Scenario E: a schema that has a primary-key column gets no "id" column
    inserted. *)
Lemma primary_key_not_inserted cols :
  existsb primary_key cols = true -> _ensure_primary_key cols = cols.
Proof. intros Hpk. unfold _ensure_primary_key. now rewrite Hpk. Qed.

(** *** The defect *)

(** A table whose "id" column is not flagged as primary key (its values
    repeat, say). *)
Definition unflagged_id : SchemaInfo :=
  schema_of [plain_column "id"; plain_column "customer_name"].

(** C4 fails on a schema whose column "id" is not flagged primary key:
    [_ensure_primary_key] computes the existing names and never looks at
    them, so a second column "id" is inserted and the names of the result
    are no longer distinct. *)
Theorem C4_second_id_column :
  NoDup (names (columns unflagged_id)) /\
  names (columns (make_schema_ndmo_compliant unflagged_id))
  = ["id"; "id"; "customer_name"; "created_date"; "modified_date";
     "created_by"; "modified_by"; "data_classification"; "access_level";
     "source_system"; "extraction_date"; "data_owner"; "data_steward"] /\
  ~ NoDup (names (columns (make_schema_ndmo_compliant unflagged_id))).
Proof.
  split; [apply (bool_decide_unpack _); vm_compute; reflexivity|].
  assert (Hnames : names (columns (make_schema_ndmo_compliant unflagged_id))
    = ["id"; "id"; "customer_name"; "created_date"; "modified_date";
       "created_by"; "modified_by"; "data_classification"; "access_level";
       "source_system"; "extraction_date"; "data_owner"; "data_steward"])
    by (vm_compute; reflexivity).
  split; [exact Hnames|].
  rewrite Hnames. intros Hnd. apply NoDup_cons in Hnd as [Hnotin _].
  apply Hnotin. now left.
Qed.

End TransformerSpec.

(** ** The data quality processor *)

Module ProcessorSpec.
Import Pandas Schema Py SmartDataProcessor.
Import AnalyzerSpec.

(** *** Simple stand-ins for the scalar parsers, to run examples *)

Definition parse_number (c : cell) : option cell :=
  match c with
  | CInt z => Some (CInt z)
  | CBool b => Some (CInt (if b then 1 else 0))
  | CStr s => option_map CInt (int_of_digits s)
  | CNull => None
  end.

Definition parse_date (c : cell) : option cell :=
  match c with
  | CStr s => if iso_date s then Some (CStr s) else None
  | _ => None
  end.

(** *** Primary-key uniqueness *)

Definition repeated_key : Series :=
  read_column [CStr "a"; CStr "a"; CStr "a_1"].

Definition text_key : Column :=
  {| name := "code";
     data_type := "text";
     nullable := false;
     unique := true;
     primary_key := true;
     foreign_key := false;
     constraints := ∅;
     sample_values := [];
     statistics := None;
     quality_issues := [];
     ndmo_standard := None;
     description := None |}.

(** C5 fails on the key column ["a","a","a_1"]: the single pass of
    [_ensure_primary_key_uniqueness] renames the two "a" to "a_1" and "a_2"
    and never compares the new values with the untouched ones, so "a_1"
    occurs twice and the column has 2 distinct values for 3 rows; the same
    column comes out of the processing of a text primary-key column. *)
Theorem C5_suffix_collision :
  values (_ensure_primary_key_uniqueness repeated_key)
  = [CStr "a_1"; CStr "a_2"; CStr "a_1"] /\
  nunique (_ensure_primary_key_uniqueness repeated_key) = 2%nat /\
  len (_ensure_primary_key_uniqueness repeated_key) = 3%nat /\
  (forall to_numeric1 to_datetime1,
     values (_process_column_according_to_schema to_numeric1 to_datetime1
               repeated_key text_key)
     = [CStr "a_1"; CStr "a_2"; CStr "a_1"]).
Proof.
  split; [vm_compute; reflexivity|].
  split; [vm_compute; reflexivity|].
  split; [vm_compute; reflexivity|].
  intros to_numeric1 to_datetime1. vm_compute. reflexivity.
Qed.

(** When no value repeats the column is returned as it came. *)
Lemma distinct_keys_untouched (column_data : Series) :
  duplicated_any column_data = false ->
  _ensure_primary_key_uniqueness column_data = column_data.
Proof. intros H. unfold _ensure_primary_key_uniqueness. now rewrite H. Qed.

(** *** Type coercion *)

(** A value parses as the target type: for numeric and datetime the scalar
    parser accepts it, for boolean it is one of the words the inference
    engine reads as a boolean, for text always. *)
Definition parses_as (to_numeric1 to_datetime1 : cell -> option cell)
    (target_type : string) (v : cell) : bool :=
  if String.eqb target_type "numeric" then bool_decide (is_Some (to_numeric1 v))
  else if String.eqb target_type "datetime"
  then bool_decide (is_Some (to_datetime1 v))
  else if String.eqb target_type "boolean"
  then PyStr.mem (PyStr.lower (str v)) SmartSchemaAnalyzer.boolean_words
  else true.

Lemma convert_numeric to_numeric1 to_datetime1 column_data :
  values (_convert_to_target_type to_numeric1 to_datetime1 column_data "numeric")
  = map (coerce to_numeric1) (values column_data).
Proof. reflexivity. Qed.

Lemma convert_datetime to_numeric1 to_datetime1 column_data :
  values (_convert_to_target_type to_numeric1 to_datetime1 column_data "datetime")
  = map (coerce to_datetime1) (values column_data).
Proof. reflexivity. Qed.

Lemma convert_boolean to_numeric1 to_datetime1 column_data :
  values (_convert_to_target_type to_numeric1 to_datetime1 column_data "boolean")
  = map (fun c => CBool (truth c)) (values column_data).
Proof. reflexivity. Qed.

Lemma convert_text to_numeric1 to_datetime1 column_data :
  values (_convert_to_target_type to_numeric1 to_datetime1 column_data "text")
  = map (fun c => CStr (str c)) (values column_data).
Proof. reflexivity. Qed.

Lemma lookup_map {A B} (f : A -> B) (l : list A) (i : nat) :
  map f l !! i = option_map f (l !! i).
Proof.
  revert i. induction l as [|x l IH]; intros [|i]; cbn; try reflexivity.
  apply IH.
Qed.

(** What the coercion does for each of the four targets: it returns a
    column of the same length, without raising; for numeric and datetime a
    value that does not parse becomes missing; for boolean each value
    becomes its truth value; for text each value becomes its string form. *)
Lemma coercion_by_target (to_numeric1 to_datetime1 : cell -> option cell)
    (column_data : Series) :
  Forall (fun target_type =>
            len (_convert_to_target_type to_numeric1 to_datetime1
                   column_data target_type)
            = len column_data)
    ["numeric"; "datetime"; "boolean"; "text"] /\
  (forall (i : nat) (v : cell),
     values column_data !! i = Some v ->
     (to_numeric1 v = None ->
      values (_convert_to_target_type to_numeric1 to_datetime1
                column_data "numeric") !! i = Some CNull) /\
     (to_datetime1 v = None ->
      values (_convert_to_target_type to_numeric1 to_datetime1
                column_data "datetime") !! i = Some CNull) /\
     values (_convert_to_target_type to_numeric1 to_datetime1
               column_data "boolean") !! i = Some (CBool (truth v)) /\
     values (_convert_to_target_type to_numeric1 to_datetime1
               column_data "text") !! i = Some (CStr (str v))).
Proof.
  split.
  - repeat constructor; unfold len, _convert_to_target_type; cbn;
      apply length_map.
  - intros i v Hv.
    rewrite convert_numeric, convert_datetime, convert_boolean, convert_text.
    rewrite !lookup_map, Hv. cbn [option_map]. unfold coerce.
    split; [now intros ->|]. split; [now intros ->|]. split; reflexivity.
Qed.

Definition answers : Series :=
  read_column [CStr "maybe"; CNull; CStr "false"; CStr "no"].

(** C6: the defect.  For the targets numeric and datetime a value that does
    not parse becomes missing, the parsers being called with
    [errors='coerce']; the boolean branch, [astype('bool')], has no such
    rule: every value becomes its truth value and none becomes missing.  On
    the column ["maybe"; missing; "false"; "no"] the boolean target gives four
    times True, although "maybe" is no boolean word, where the numeric
    target gives four missing values. *)
Theorem C6_boolean_coercion_defect :
  (forall (to_numeric1 to_datetime1 : cell -> option cell)
          (column_data : Series) (i : nat) (v : cell),
     values column_data !! i = Some v ->
     (to_numeric1 v = None ->
      values (_convert_to_target_type to_numeric1 to_datetime1
                column_data "numeric") !! i = Some CNull) /\
     (to_datetime1 v = None ->
      values (_convert_to_target_type to_numeric1 to_datetime1
                column_data "datetime") !! i = Some CNull) /\
     values (_convert_to_target_type to_numeric1 to_datetime1
               column_data "boolean") !! i = Some (CBool (truth v)) /\
     isnull (CBool (truth v)) = false) /\
  parses_as parse_number parse_date "boolean" (CStr "maybe") = false /\
  values (_convert_to_target_type parse_number parse_date answers "boolean")
  = [CBool true; CBool true; CBool true; CBool true] /\
  values (_convert_to_target_type parse_number parse_date answers "numeric")
  = [CNull; CNull; CNull; CNull].
Proof.
  split; [|vm_compute; repeat split; reflexivity].
  intros to_numeric1 to_datetime1 column_data i v Hv.
  destruct (coercion_by_target to_numeric1 to_datetime1 column_data) as [_ Hcells].
  destruct (Hcells i v Hv) as (Hnumeric & Hdatetime & Hboolean & _).
  repeat split; assumption.
Qed.

End ProcessorSpec.

(** ** Signs of binary64 results *)

Module FloatSigns.
Import PyFloat.
Local Open Scope float_scope.

(** Positive zero, a positive number or positive infinity: not a NaN and
    not negative. *)
Definition nonneg (x : spec_float) : Prop :=
  match x with
  | S754_zero false | S754_infinity false | S754_finite false _ _ => True
  | _ => False
  end.

Lemma shr_1_nonneg mrs : (0 <= shr_m mrs)%Z -> (0 <= shr_m (shr_1 mrs))%Z.
Proof.
  destruct mrs as [m r s]. destruct m as [|p|p]; try destruct p; cbn; lia.
Qed.

Lemma iter_shr_1_nonneg p mrs :
  (0 <= shr_m mrs)%Z -> (0 <= shr_m (SpecFloat.iter_pos shr_1 p mrs))%Z.
Proof.
  revert mrs. induction p as [p IH|p IH|]; intros mrs H; cbn.
  - apply IH, IH. now apply shr_1_nonneg.
  - now apply IH, IH.
  - now apply shr_1_nonneg.
Qed.

Lemma shr_fexp_nonneg m e l :
  (0 <= m)%Z -> (0 <= shr_m (fst (shr_fexp prec emax m e l)))%Z.
Proof.
  intros Hm. unfold shr_fexp, shr.
  assert (H : (0 <= shr_m (shr_record_of_loc m l))%Z)
    by (destruct l as [|[]]; exact Hm).
  destruct (fexp prec emax (Zdigits2 m + e) - e)%Z; cbn [fst]; try exact H.
  now apply iter_shr_1_nonneg.
Qed.

Lemma round_nearest_even_nonneg m l :
  (0 <= m)%Z -> (0 <= round_nearest_even m l)%Z.
Proof.
  intros Hm. destruct l as [|[]]; cbn; try destruct (Z.even m); lia.
Qed.

Lemma binary_round_aux_nonneg m e l :
  (0 <= m)%Z -> nonneg (binary_round_aux prec emax false m e l).
Proof.
  intros Hm. unfold binary_round_aux.
  pose proof (shr_fexp_nonneg m e l Hm) as H1.
  destruct (shr_fexp prec emax m e l) as [mrs' e']. cbn [fst] in H1.
  pose proof (shr_fexp_nonneg _ e' loc_Exact
                (round_nearest_even_nonneg _ (loc_of_shr_record mrs') H1)) as H2.
  destruct (shr_fexp prec emax _ e' loc_Exact) as [mrs'' e'']. cbn [fst] in H2.
  destruct (shr_m mrs'') as [|p|p]; [exact I| |lia].
  now destruct (e'' <=? emax - prec)%Z.
Qed.

Lemma of_nat_nonneg n : nonneg (Prim2SF (of_nat n)).
Proof.
  unfold of_nat. rewrite of_uint63_spec. unfold binary_normalize.
  pose proof (Uint63.to_Z_bounded (Uint63.of_Z (Z.of_nat n))) as Hb.
  destruct (Uint63.to_Z (Uint63.of_Z (Z.of_nat n))) as [|p|p]; [exact I| |lia].
  unfold binary_round. destruct (shl_align p 0 _) as [mz ez].
  now apply binary_round_aux_nonneg.
Qed.

Lemma mul_nonneg x y m e :
  nonneg (Prim2SF x) -> Prim2SF y = S754_finite false m e ->
  nonneg (Prim2SF (x * y)).
Proof.
  intros Hx Hy. rewrite mul_spec, Hy. unfold SF64mul.
  destruct (Prim2SF x) as [[|]|[|]| |[|] mx ex]; cbn in Hx |- *;
    try (exfalso; exact Hx); try exact I.
  now apply binary_round_aux_nonneg.
Qed.

(** Zero divided by a non-negative number that is not below one is zero. *)
Lemma zero_div_nonneg x :
  nonneg (Prim2SF x) -> (x <? 1) = false -> 0 / x = 0.
Proof.
  intros Hx Hlt. apply Prim2SF_inj. rewrite div_spec.
  rewrite ltb_spec in Hlt.
  destruct (Prim2SF x) as [[|]|[|]| |[|] mx ex]; cbn in Hx;
    try (exfalso; exact Hx).
  - vm_compute in Hlt. discriminate.
  - vm_compute. reflexivity.
  - vm_compute. reflexivity.
Qed.

End FloatSigns.

(** ** Validation of a schema against the catalog *)

Module ValidationSpec.
Import PyFloat NdmoStandards SchemaValidation StandardsSpec.
Local Open Scope float_scope.

(** No column dictionary has a true top-level [required] entry. *)
Definition no_required_entry (schema_data : SchemaData) : Prop :=
  Forall (fun column => top_level_required column = false)
    (dict_columns schema_data).

Lemma no_required_field (columns : list ColumnDict) :
  Forall (fun column => top_level_required column = false) columns ->
  count top_level_required columns = 0%nat.
Proof.
  unfold count. induction 1 as [|column columns Hcolumn _ IH]; [reflexivity|].
  cbn [List.filter]. now rewrite Hcolumn.
Qed.

(** Without such an entry the completeness measurement is 0.0. *)
Lemma completeness_is_zero schema_data :
  no_required_entry schema_data ->
  _check_completeness_requirements schema_data = 0.
Proof.
  unfold no_required_entry, _check_completeness_requirements. intros Hnone.
  destruct (dict_columns schema_data) as [|column columns]; [reflexivity|].
  rewrite (no_required_field _ Hnone).
  change (of_nat 0) with 0. unfold py_max.
  set (x := of_nat (length (column :: columns)) * 0.3).
  destruct (x <? 1) eqn:Hx.
  - vm_compute. reflexivity.
  - rewrite FloatSigns.zero_div_nonneg; [vm_compute; reflexivity| |exact Hx].
    apply (FloatSigns.mul_nonneg _ _ 5404319552844595 (-54));
      [apply FloatSigns.of_nat_nonneg|vm_compute; reflexivity].
Qed.

Lemma failures_of_measurements schema_data :
  no_required_entry schema_data ->
  map fst (List.filter fails_critical (schema_measurements schema_data))
  = (if _check_primary_key schema_data then [] else ["DG001"]) ++ ["DQ001"].
Proof.
  intros Hnone. unfold schema_measurements.
  rewrite (completeness_is_zero _ Hnone).
  rewrite !fails_critical_cons.
  change (get_standard "DG001") with (PyDict.get "DG001" standards).
  change (get_standard "DQ001") with (PyDict.get "DQ001" standards).
  change (get_standard "DQ005") with (PyDict.get "DQ005" standards).
  change (get_standard "BR001") with (PyDict.get "BR001" standards).
  cbn [PyDict.get standards _load_ndmo_standards String.eqb Ascii.eqb
       Bool.eqb critical threshold andb List.filter].
  change (0 <? 0.95) with true. cbv iota.
  destruct (_check_primary_key schema_data).
  - change (1 <? 1) with false. reflexivity.
  - change (0 <? 1) with true. reflexivity.
Qed.

Lemma engine_writes_no_required_entry (schema_info : Schema.SchemaInfo) :
  no_required_entry (of_schema schema_info).
Proof.
  unfold no_required_entry, of_schema. cbn [dict_columns].
  apply List.Forall_forall. intros column Hcolumn.
  apply in_map_iff in Hcolumn as (c & <- & _). reflexivity.
Qed.

(** A schema dictionary with a top-level [required] entry: one key column,
    required, typed and constrained, and one implemented rule. *)
Definition declared_schema : SchemaData :=
  mkSchemaData
    [ mkColumnDict
        (Schema.mkColumn "serial" "numeric" false true true false
           (<["min_value" := Schema.VInt 1]> ∅) [] None [] None None)
        true ]
    [ Schema.NamedRule "Positive Amounts" "validation"
        "All amount fields must be positive" true ].

(** X1: on a schema none of whose column dictionaries has a true top-level
    [required] entry, [validate_schema_compliance] never finds the schema
    compliant: the completeness measurement counts those entries only, so
    DQ001 is measured 0.0 and fails as a critical standard, DG001 failing as
    well exactly when no column is flagged primary key or unique.  Every
    Schema Model of the inference engine is such a schema, the engine
    storing the flag under [constraints]; with top-level entries a schema
    can be found compliant. *)
Theorem X1_validation_without_required_entries :
  (forall schema_data,
     no_required_entry schema_data ->
     critical_failures (validate_schema_compliance schema_data)
     = (if _check_primary_key schema_data then [] else ["DG001"]) ++ ["DQ001"] /\
     status (validate_schema_compliance schema_data) = "non_compliant") /\
  (forall schema_info, no_required_entry (of_schema schema_info)) /\
  status (validate_schema_compliance declared_schema) = "compliant".
Proof.
  split; [|split; [exact engine_writes_no_required_entry|vm_compute; reflexivity]].
  intros schema_data Hnone.
  unfold validate_schema_compliance, calculate_compliance_score.
  rewrite fold_score_step, (failures_of_measurements _ Hnone). cbn [app].
  now destruct (_check_primary_key schema_data).
Qed.

End ValidationSpec.

(** ** Recommendations and critical failures *)

Module RecommendationSpec.
Import PyFloat NdmoStandards StandardsSpec.
Local Open Scope float_scope.

(** A measured catalog standard scores strictly below its threshold. *)
Definition below_threshold (item : string * float) : bool :=
  match get_standard (fst item) with
  | Some std => snd item <? threshold std
  | None => false
  end.

(** The recommendation written for a measured standard. *)
Definition recommendation_for (std : NDMOStandard) (score : float)
    : recommendation :=
  mkRecommendation (name std) score (threshold std) (requirement std).

Definition recommendation_of (item : string * float) : list recommendation :=
  match get_standard (fst item) with
  | Some std => [recommendation_for std (snd item)]
  | None => []
  end.

Lemma fold_recommend_step (results : results_t) recs :
  fold_left recommend_step results recs
  = recs ++ flat_map recommendation_of (List.filter below_threshold results).
Proof.
  revert recs. induction results as [|[sid score] results IH]; intros recs.
  - cbn. now rewrite app_nil_r.
  - cbn [fold_left List.filter]. rewrite IH.
    unfold recommend_step, below_threshold at 2. cbn [fst snd].
    destruct (get_standard sid) as [std|] eqn:Hstd; [|reflexivity].
    destruct (score <? threshold std); [|reflexivity].
    cbn [flat_map]. unfold recommendation_of at 2. cbn [fst snd].
    rewrite Hstd. unfold recommendation_for. now rewrite <- app_assoc.
Qed.

Lemma recommendations_of_result (results : results_t) :
  recommendations (calculate_compliance_score results)
  = flat_map recommendation_of (List.filter below_threshold results).
Proof.
  unfold calculate_compliance_score.
  destruct (fold_left score_step results (0, 0, [])) as [[tw ws] fs].
  cbn [recommendations]. unfold _generate_recommendations.
  now rewrite fold_recommend_step.
Qed.

Lemma critical_failures_of_result (results : results_t) :
  critical_failures (calculate_compliance_score results)
  = map fst (List.filter fails_critical results).
Proof.
  unfold calculate_compliance_score. rewrite fold_score_step. reflexivity.
Qed.

Lemma fails_critical_below item :
  fails_critical item = true -> below_threshold item = true.
Proof.
  unfold fails_critical, below_threshold.
  destruct (get_standard item.1); [|easy]. now intros [_ H]%andb_true_iff.
Qed.

Lemma filter_length_implies {A} (p q : A -> bool) (l : list A) :
  (forall x, p x = true -> q x = true) ->
  (length (List.filter p l) <= length (List.filter q l))%nat.
Proof.
  intros Hpq. induction l as [|x l IH]; cbn; [lia|].
  destruct (p x) eqn:Hp.
  - rewrite (Hpq x Hp). cbn. lia.
  - destruct (q x); cbn; lia.
Qed.

Lemma flat_map_recommendation_length (items : results_t) :
  Forall (fun item => below_threshold item = true) items ->
  length (flat_map recommendation_of items) = length items.
Proof.
  induction 1 as [|item items Hitem _ IH]; [reflexivity|].
  cbn [flat_map]. rewrite length_app, IH.
  unfold recommendation_of, below_threshold in *.
  now destruct (get_standard item.1).
Qed.

(** X2: the critical failures are, in the order of the mapping, the ids of
    the measured critical standards that score below their threshold; each
    of them also gets a recommendation, carrying the standard's name, the
    measured score, the threshold and the requirement, so there are at least
    as many recommendations as critical failures. *)
Theorem X2_critical_failures_recommended (results : results_t) :
  critical_failures (calculate_compliance_score results)
  = map fst (List.filter fails_critical results) /\
  (forall standard_id,
     In standard_id (critical_failures (calculate_compliance_score results)) ->
     exists score std,
       In (standard_id, score) results /\
       get_standard standard_id = Some std /\
       critical std = true /\
       In (recommendation_for std score)
          (recommendations (calculate_compliance_score results))) /\
  (length (critical_failures (calculate_compliance_score results))
   <= length (recommendations (calculate_compliance_score results)))%nat.
Proof.
  rewrite critical_failures_of_result, recommendations_of_result.
  split; [reflexivity|]. split.
  - intros sid Hin. apply in_map_iff in Hin as ([sid' score] & Heq & Hin).
    cbn in Heq. subst sid'. apply filter_In in Hin as [Hin Hfail].
    pose proof (fails_critical_below _ Hfail) as Hbelow.
    unfold fails_critical in Hfail. cbn [fst snd] in Hfail.
    destruct (get_standard sid) as [std|] eqn:Hstd; [|discriminate].
    apply andb_true_iff in Hfail as [Hcrit _].
    exists score, std. repeat split; try assumption.
    apply in_flat_map. exists (sid, score). split.
    + apply filter_In. now split.
    + unfold recommendation_of. cbn [fst snd]. rewrite Hstd. now left.
  - rewrite length_map, flat_map_recommendation_length.
    + apply filter_length_implies, fails_critical_below.
    + apply List.Forall_forall. intros item Hitem.
      now apply filter_In in Hitem as [_ H].
Qed.

End RecommendationSpec.

(** ** Invariants of the inferred columns *)

Module AnalyzerInvariants.
Import PyFloat Pandas Schema Py SmartSchemaAnalyzer AnalyzerSpec.
Local Open Scope float_scope.

Definition serial_numbers : Series := read_column [CInt 7; CInt 8; CInt 9].

(** X3: a column that the analysis of sampled data flags as primary key is
    also flagged unique and not nullable, and its statistics record no
    duplicate and no missing value. *)
Theorem X3_primary_key_column (numeric datetime : Series -> bool)
    (column_data : Series) (column_name : string) (column : Column) :
  _analyze_column numeric datetime column_data column_name = Ok column ->
  primary_key column = true ->
  unique column = true /\ nullable column = false /\
  exists stats,
    statistics column = Some stats /\
    duplicate_values stats = 0%nat /\ null_values stats = 0%nat /\
    unique_values stats = total_values stats.
Proof.
  intros Hok Hpk.
  destruct (values column_data) as [|c cells] eqn:Hv.
  { rewrite (analyze_column_without_rows _ _ _ _ Hv) in Hok. discriminate. }
  destruct (analyze_column_with_rows numeric datetime column_data column_name)
    as [issues Heq]; [congruence|].
  rewrite Heq in Hok. injection Hok as <-. cbn in Hpk |- *.
  rewrite Hpk. unfold _is_primary_key in Hpk.
  apply andb_true_iff in Hpk as [_ Hpk].
  apply andb_true_iff in Hpk as [Hdistinct Hnull].
  apply Nat.eqb_eq in Hdistinct. apply negb_true_iff in Hnull.
  split; [reflexivity|]. split; [exact Hnull|].
  exists (column_statistics column_data). split; [reflexivity|].
  unfold column_statistics.
  cbn [duplicate_values null_values unique_values total_values].
  rewrite Hdistinct, (dropna_no_null _ Hnull). lia.
Qed.

Definition serial_column : Column :=
  match _analyze_column numeric_ok datetime_ok serial_numbers "serial_no" with
  | Ok column => column
  | Raise _ => ProblemSpec.plain_column "serial_no"
  end.

Lemma X3_primary_key_column_witness :
  unique serial_column = true /\ nullable serial_column = false /\
  exists stats,
    statistics serial_column = Some stats /\
    duplicate_values stats = 0%nat /\ null_values stats = 0%nat /\
    unique_values stats = total_values stats.
Proof.
  apply (X3_primary_key_column numeric_ok datetime_ok serial_numbers "serial_no").
  - vm_compute. reflexivity.
  - vm_compute. reflexivity.
Defined.

(** *** Required and nullable *)

Lemma required_of_constraints column_data column_name :
  _analyze_column_constraints column_data column_name !! "required"
  = Some (VBool (negb (len (dropna column_data) =? 0)%nat
                 && negb (any_null column_data))).
Proof.
  unfold _analyze_column_constraints, constraints_t. cbv zeta.
  destruct (len (dropna column_data) =? 0)%nat; [reflexivity|].
  cbn [negb andb].
  repeat match goal with
         | |- context [if ?b then _ else _] => destruct b
         end;
    repeat (rewrite lookup_insert_ne by discriminate);
    now rewrite lookup_insert_eq.
Qed.

Lemma all_null_any_null column_data :
  values column_data <> [] -> len (dropna column_data) = 0%nat ->
  any_null column_data = true.
Proof.
  unfold len, dropna, any_null. cbn [values].
  destruct (values column_data) as [|c cells]; [congruence|]. intros _.
  cbn [List.filter existsb]. unfold notna.
  destruct (isnull c); [reflexivity|discriminate].
Qed.

Lemma required_of_row to_int row index column :
  _analyze_schema_row to_int row index = Ok column ->
  constraints column !! "required" = Some (VBool (negb (nullable column))).
Proof.
  unfold _analyze_schema_row, constraints_t. cbv zeta.
  repeat match goal with
         | |- context [if ?b then _ else _] => destruct b
         | |- context [int_of_cell ?f ?c] => destruct (int_of_cell f c)
         end;
    cbn [bind]; intros Hok; try discriminate;
    injection Hok as <-; cbn [constraints nullable]; unfold constraints_t;
    repeat (rewrite lookup_insert_ne by discriminate);
    now rewrite lookup_insert_eq.
Qed.

(** X4: in every column descriptor the inference engine builds, in either
    input shape, the constraint [required] is the negation of the [nullable]
    flag; a sampled column with at least one row always gets a
    descriptor. *)
Theorem X4_required_is_not_nullable (numeric datetime : Series -> bool)
    (to_int : string -> option Z) :
  (forall column_data column_name column,
     _analyze_column numeric datetime column_data column_name = Ok column ->
     constraints column !! "required" = Some (VBool (negb (nullable column)))) /\
  (forall row index column,
     _analyze_schema_row to_int row index = Ok column ->
     constraints column !! "required" = Some (VBool (negb (nullable column)))) /\
  (forall column_data column_name,
     values column_data <> [] ->
     exists column,
       _analyze_column numeric datetime column_data column_name = Ok column).
Proof.
  split; [|split; [apply required_of_row|]]; cycle 1.
  { intros column_data column_name Hrows.
    destruct (analyze_column_with_rows numeric datetime column_data column_name Hrows)
      as [issues Heq].
    eexists. exact Heq. }
  intros column_data column_name column Hok.
  destruct (values column_data) as [|c cells] eqn:Hv.
  { rewrite (analyze_column_without_rows _ _ _ _ Hv) in Hok. discriminate. }
  destruct (analyze_column_with_rows numeric datetime column_data column_name)
    as [issues Heq]; [congruence|].
  rewrite Heq in Hok. injection Hok as <-. cbn [constraints nullable].
  rewrite required_of_constraints.
  destruct (len (dropna column_data) =? 0)%nat eqn:Hlen; [|reflexivity].
  apply Nat.eqb_eq in Hlen.
  rewrite (all_null_any_null column_data) by congruence. reflexivity.
Qed.

(** *** Success of the sampled-data analysis *)

Lemma rows_or_empty (schema_df : DataFrame) :
  Forall (fun col => values (snd col) <> []) schema_df
  \/ Exists (fun col => values (snd col) = []) schema_df.
Proof.
  induction schema_df as [|col df [Hrows|Hempty]].
  - left. constructor.
  - destruct (values (snd col)) as [|c cells] eqn:Hv.
    + right. now apply List.Exists_cons_hd.
    + left. constructor; [congruence|assumption].
  - right. now apply List.Exists_cons_tl.
Qed.

(** X5: the analysis of a table in the sampled-data shape succeeds exactly
    when every column has at least one row, and otherwise raises a division
    by zero; the Schema Model it returns has one column per header, in the
    order and under the names of the headers, and counts them in
    [total_columns]. *)
Theorem X5_sampled_analysis_outcome (numeric datetime : Series -> bool)
    (mean_of : list float -> float) (schema_df : DataFrame) (sheet : string) :
  ((exists schema,
      _analyze_regular_data_format numeric datetime mean_of schema_df sheet
      = Ok schema)
   <-> Forall (fun col => values (snd col) <> []) schema_df) /\
  (_analyze_regular_data_format numeric datetime mean_of schema_df sheet
   = Raise "ZeroDivisionError"
   <-> Exists (fun col => values (snd col) = []) schema_df) /\
  (forall schema,
     _analyze_regular_data_format numeric datetime mean_of schema_df sheet
     = Ok schema ->
     map name (columns schema) = df_columns schema_df /\
     total_columns schema = length schema_df /\
     total_rows schema = df_len schema_df).
Proof.
  unfold _analyze_regular_data_format.
  split; [split|split; [split|]].
  - intros [schema Hok].
    destruct (mapM _ schema_df) as [cols|] eqn:Hcols; [|discriminate].
    now apply mapM_analyze_names in Hcols.
  - intros Hrows.
    destruct (mapM_analyze_ok numeric datetime schema_df Hrows) as [cols Hcols].
    rewrite Hcols. cbn [bind]. eexists. reflexivity.
  - intros Hraise.
    destruct (rows_or_empty schema_df) as [Hrows|Hempty]; [|exact Hempty].
    destruct (mapM_analyze_ok numeric datetime schema_df Hrows) as [cols Hcols].
    rewrite Hcols in Hraise. discriminate Hraise.
  - intros Hempty. now rewrite (mapM_analyze_raises _ _ _ Hempty).
  - intros schema Hok.
    destruct (mapM _ schema_df) as [cols|] eqn:Hcols; [|discriminate].
    cbn [bind] in Hok. injection Hok as <-.
    apply mapM_analyze_names in Hcols as [Hnames _].
    unfold record_columns. cbn [columns total_columns total_rows].
    split; [exact Hnames|]. split; [|reflexivity].
    unfold df_columns. apply length_map.
Qed.

(** *** The lexical type map *)

Lemma lower_upper_ascii c :
  PyStr.lower_ascii (PyStr.upper_ascii c) = PyStr.lower_ascii c.
Proof. destruct c as [[] [] [] [] [] [] [] []]; reflexivity. Qed.

Lemma lower_lower_ascii c :
  PyStr.lower_ascii (PyStr.lower_ascii c) = PyStr.lower_ascii c.
Proof. destruct c as [[] [] [] [] [] [] [] []]; reflexivity. Qed.

Lemma lower_upper s : PyStr.lower (PyStr.upper s) = PyStr.lower s.
Proof.
  induction s as [|c s IH]; [reflexivity|].
  cbn [PyStr.lower PyStr.upper]. now rewrite lower_upper_ascii, IH.
Qed.

Lemma lower_lower s : PyStr.lower (PyStr.lower s) = PyStr.lower s.
Proof.
  induction s as [|c s IH]; [reflexivity|].
  cbn [PyStr.lower]. now rewrite lower_lower_ascii, IH.
Qed.

(** X6: the lexical map of declared database types always answers one of
    numeric, text, datetime and boolean (never unknown), and does not depend
    on the letter case of the declared type. *)
Theorem X6_database_type_map (db_type : string) :
  In (_map_database_type_to_standard db_type)
    ["numeric"; "text"; "datetime"; "boolean"] /\
  _map_database_type_to_standard (PyStr.upper db_type)
  = _map_database_type_to_standard db_type /\
  _map_database_type_to_standard (PyStr.lower db_type)
  = _map_database_type_to_standard db_type.
Proof.
  split; [|split].
  - unfold _map_database_type_to_standard. cbv zeta.
    repeat match goal with
           | |- context [if ?b then _ else _] => destruct b
           end; cbn [In]; tauto.
  - unfold _map_database_type_to_standard. now rewrite lower_upper.
  - unfold _map_database_type_to_standard. now rewrite lower_lower.
Qed.

End AnalyzerInvariants.

(** ** The primary-key candidate *)

Module CandidateSpec.
Import Pandas Schema SchemaAutoCorrect.
Local Open Scope nat_scope.

Section Sorting.
Context {A : Type} (key : A -> nat).

(** A list in descending order of key. *)
Fixpoint descending (l : list A) : Prop :=
  match l with
  | [] => True
  | x :: l' => Forall (fun y => key y <= key x) l' /\ descending l'
  end.

Lemma insert_descending_In x y sorted :
  In y (insert_descending key x sorted) <-> y = x \/ In y sorted.
Proof.
  induction sorted as [|z sorted IH]; cbn [insert_descending In];
    [intuition congruence|].
  destruct (key z <? key x); cbn [In]; [intuition congruence|].
  rewrite IH. intuition congruence.
Qed.

Lemma insert_descending_sorted x sorted :
  descending sorted -> descending (insert_descending key x sorted).
Proof.
  induction sorted as [|z sorted IH]; cbn [insert_descending descending];
    [intuition|].
  intros [Hz Hsorted]. destruct (key z <? key x) eqn:Hlt; cbn [descending].
  - apply Nat.ltb_lt in Hlt. repeat split; try assumption.
    constructor; [lia|].
    eapply List.Forall_impl; [|exact Hz]. cbn. intros; lia.
  - apply Nat.ltb_ge in Hlt. split; [|now apply IH].
    apply List.Forall_forall. intros y Hy.
    apply insert_descending_In in Hy as [->|Hy]; [assumption|].
    rewrite List.Forall_forall in Hz. now apply Hz.
Qed.

Lemma fold_insert_descending l acc :
  descending acc ->
  descending (fold_left (fun sorted x => insert_descending key x sorted) l acc) /\
  (forall y, In y (fold_left (fun sorted x => insert_descending key x sorted) l acc)
             <-> In y l \/ In y acc).
Proof.
  revert acc. induction l as [|x l IH]; intros acc Hacc; cbn [fold_left].
  - split; [assumption|]. cbn. intuition.
  - destruct (IH (insert_descending key x acc)) as [Hs Hin];
      [now apply insert_descending_sorted|].
    split; [assumption|]. intros y. rewrite Hin, insert_descending_In.
    cbn. intuition.
Qed.

Lemma sort_descending_spec l :
  descending (sort_descending key l) /\
  (forall y, In y (sort_descending key l) <-> In y l).
Proof.
  unfold sort_descending.
  destruct (fold_insert_descending l [] I) as [Hs Hin].
  split; [assumption|]. intros y. rewrite Hin. cbn. intuition.
Qed.

(** [b] is the first element of [l] with the greatest key. *)
Definition first_greatest (b : A) (l : list A) : Prop :=
  exists before after,
    l = before ++ b :: after /\
    Forall (fun y => key y < key b) before /\
    Forall (fun y => key y <= key b) after.

Lemma fold_insert_head l : forall b rest original,
  first_greatest b original ->
  exists top others,
    fold_left (fun sorted x => insert_descending key x sorted) l (b :: rest)
    = top :: others /\
    first_greatest top (original ++ l).
Proof.
  induction l as [|x l IH]; intros b rest original Hfirst; cbn [fold_left].
  - exists b, rest. now rewrite app_nil_r.
  - replace (original ++ x :: l) with ((original ++ [x]) ++ l)
      by now rewrite <- app_assoc.
    cbn [insert_descending].
    destruct Hfirst as (before & after & -> & Hbefore & Hafter).
    destruct (Nat.ltb_spec (key b) (key x)) as [Hlt|Hge]; apply IH.
    + exists (before ++ b :: after), []. split; [reflexivity|].
      split; [|constructor].
      apply List.Forall_app. split.
      * eapply List.Forall_impl; [|exact Hbefore]. cbn beta. intros; lia.
      * constructor; [assumption|].
        eapply List.Forall_impl; [|exact Hafter]. cbn beta. intros; lia.
    + exists before, (after ++ [x]). split; [now rewrite <- app_assoc|].
      split; [assumption|].
      apply List.Forall_app. split; [assumption|]. now repeat constructor.
Qed.

Lemma sort_descending_head x l :
  exists top others,
    sort_descending key (x :: l) = top :: others /\ first_greatest top (x :: l).
Proof.
  unfold sort_descending. cbn [fold_left insert_descending].
  apply (fold_insert_head l x [] [x]).
  exists [], []. repeat split; constructor.
Qed.

End Sorting.

(** The column behind the first candidate of a given score. *)
Lemma first_candidate (columns : list Column) : forall before best score after,
  List.filter (fun scored => (0 <? snd scored)%nat)
    (map (fun column => (column, candidate_score column)) columns)
  = before ++ (best, score) :: after ->
  exists earlier later,
    columns = earlier ++ best :: later /\
    forall column, In column earlier ->
                   candidate_score column = 0
                   \/ In (column, candidate_score column) before.
Proof.
  induction columns as [|c columns IH]; intros before best score after Hsplit.
  - destruct before; discriminate Hsplit.
  - cbn [map List.filter snd] in Hsplit.
    destruct (Nat.ltb_spec 0 (candidate_score c)) as [Hpos|Hzero].
    + destruct before as [|scored before].
      * injection Hsplit as -> _ _. exists [], columns.
        split; [reflexivity|]. intros column [].
      * injection Hsplit as <- Hsplit.
        destruct (IH _ _ _ _ Hsplit) as (earlier & later & -> & Hearlier).
        exists (c :: earlier), later. split; [reflexivity|].
        intros column [<-|Hin]; [right; now left|].
        destruct (Hearlier column Hin) as [Hz|Hb]; [now left|right; now right].
    + destruct (IH _ _ _ _ Hsplit) as (earlier & later & -> & Hearlier).
      exists (c :: earlier), later. split; [reflexivity|].
      intros column [<-|Hin]; [left; lia|]. now apply Hearlier.
Qed.

(** X7: the primary-key candidate is one of the columns, has a positive
    score, and no column scores higher; among the columns with the highest
    score it is the first; there is no candidate exactly when every column
    scores 0. *)
Theorem X7_primary_key_candidate (columns : list Column) :
  (forall best,
     _find_primary_key_candidate columns = Some best ->
     In best columns /\ 0 < candidate_score best /\
     (forall column, In column columns ->
                     candidate_score column <= candidate_score best) /\
     exists earlier later,
       columns = earlier ++ best :: later /\
       Forall (fun column => candidate_score column < candidate_score best)
         earlier) /\
  (_find_primary_key_candidate columns = None <->
   forall column, In column columns -> candidate_score column = 0).
Proof.
  unfold _find_primary_key_candidate. cbv zeta.
  set (candidates := List.filter (fun scored => (0 <? snd scored)%nat)
                       (map (fun column => (column, candidate_score column)) columns)).
  assert (Hcand : forall scored, In scored candidates <->
            In (fst scored) columns /\ snd scored = candidate_score (fst scored)
            /\ 0 < snd scored).
  { intros [column score]. unfold candidates. rewrite filter_In, in_map_iff.
    cbn [fst snd]. rewrite Nat.ltb_lt. split.
    - intros [(c & [= <- <-] & Hc) Hpos]. auto.
    - intros (Hc & -> & Hpos). split; [now exists column|assumption]. }
  destruct (sort_descending_spec snd candidates) as [Hsorted Hin].
  destruct (sort_descending snd candidates) as [|[best score] rest] eqn:Hsort.
  - split; [intros best [=]|]. split; [|reflexivity]. intros _ column Hcolumn.
    destruct (candidate_score column) as [|n] eqn:Hscore; [reflexivity|].
    exfalso. apply (proj2 (Hin (column, candidate_score column))).
    apply Hcand. cbn [fst snd]. rewrite Hscore. repeat split; [assumption|lia].
  - assert (Hbest : In (best, score) candidates) by (apply Hin; now left).
    apply Hcand in Hbest as (Hbest & Hscore & Hpos). cbn [fst snd] in *.
    split.
    + intros best' [= <-]. subst score.
      split; [assumption|]. split; [assumption|]. split.
      * intros column Hcolumn.
        destruct (candidate_score column) as [|n] eqn:Hn; [lia|].
        assert (Hc : In (column, candidate_score column)
                       ((best, candidate_score best) :: rest)).
        { apply Hin, Hcand. cbn [fst snd]. rewrite Hn.
          repeat split; [assumption|lia]. }
        destruct Hc as [[= <- _]|Hc]; [lia|].
        destruct Hsorted as [Hle _]. rewrite List.Forall_forall in Hle.
        specialize (Hle _ Hc). cbn [snd] in Hle. lia.
      * destruct candidates as [|scored candidates'] eqn:Hcandidates;
          [discriminate Hsort|].
        destruct (sort_descending_head snd scored candidates')
          as (top & others & Hhead & before & after & Hsplit & Hbefore & _).
        rewrite Hsort in Hhead. injection Hhead as <- _.
        unfold candidates in Hcandidates. rewrite Hsplit in Hcandidates.
        destruct (first_candidate columns _ _ _ _ Hcandidates)
          as (earlier & later & Hcolumns & Hearlier).
        exists earlier, later. split; [exact Hcolumns|].
        apply List.Forall_forall. intros column Hcolumn.
        destruct (Hearlier column Hcolumn) as [Hzero|Hscored]; [lia|].
        rewrite List.Forall_forall in Hbefore.
        apply (Hbefore _ Hscored).
    + split; [intros [=]|]. intros Hzero.
      specialize (Hzero best Hbest). lia.
Qed.

End CandidateSpec.

(** ** What the compliance transformer guarantees *)

Module TransformerGuarantees.
Import Pandas Schema SchemaNDMOComplianceProcessor.
Import ProblemSpec TransformerSpec.

(** The ten names the transformer mandates. *)
Definition mandated_names : list string :=
  names audit_fields ++ names security_fields ++ names lineage_fields
  ++ names ownership_fields.

Definition lower_names (cols : list Column) : list string :=
  map PyStr.lower (names cols).

Lemma lower_names_add_missing_l fields cols n :
  In n (lower_names cols) -> In n (lower_names (add_missing fields cols)).
Proof.
  unfold lower_names. rewrite names_add_missing, map_app, in_app_iff. tauto.
Qed.

Lemma lower_names_add_missing_r fields cols field :
  In field fields -> PyStr.lower (name field) = name field ->
  In (name field) (lower_names (add_missing fields cols)).
Proof.
  intros Hfield Hlower. unfold lower_names.
  rewrite names_add_missing, map_app, in_app_iff.
  destruct (PyStr.mem (name field) (map PyStr.lower (names cols))) eqn:Hmem.
  - left. now apply mem_In.
  - right. rewrite <- Hlower. apply in_map. apply (in_map name).
    apply filter_In. split; [assumption|]. now rewrite Hmem.
Qed.

Lemma add_missing_present fields cols :
  (forall field, In field fields -> In (name field) (lower_names cols)) ->
  names (add_missing fields cols) = names cols.
Proof.
  intros Hpresent. rewrite names_add_missing.
  replace (List.filter _ fields) with (@nil Column); [now rewrite app_nil_r|].
  symmetry. induction fields as [|field fields IH]; [reflexivity|].
  cbn [List.filter].
  assert (Hmem : PyStr.mem (name field) (map PyStr.lower (names cols)) = true)
    by (apply mem_In, Hpresent; now left).
  rewrite Hmem. cbn [negb]. apply IH. intros f Hf. apply Hpresent. now right.
Qed.

Lemma lower_names_same cols cols' :
  names cols' = names cols -> lower_names cols' = lower_names cols.
Proof. unfold lower_names. now intros ->. Qed.

Lemma lower_names_ensure cols n :
  In n (lower_names cols) -> In n (lower_names (_ensure_primary_key cols)).
Proof.
  unfold lower_names. rewrite names_ensure_primary_key.
  destruct (existsb primary_key cols); [easy|]. cbn [map In]. tauto.
Qed.

Lemma primary_key_improve cols :
  existsb primary_key (_improve_data_types_for_ndmo cols)
  = existsb primary_key cols.
Proof.
  unfold _improve_data_types_for_ndmo.
  induction cols as [|col cols IH]; [reflexivity|].
  cbn [map existsb]. rewrite IH. f_equal.
  unfold improve_data_type. cbv zeta.
  repeat match goal with
         | |- context [if ?b then _ else _] => destruct b
         end; reflexivity.
Qed.

Lemma primary_key_quality cols :
  existsb primary_key (_add_data_quality_constraints cols)
  = existsb primary_key cols.
Proof.
  unfold _add_data_quality_constraints.
  induction cols as [|col cols IH]; [reflexivity|].
  cbn [map existsb]. now rewrite IH.
Qed.

Lemma primary_key_add_missing fields cols :
  existsb primary_key cols = true ->
  existsb primary_key (add_missing fields cols) = true.
Proof.
  intros H. unfold add_missing. cbv zeta. rewrite existsb_app, H. reflexivity.
Qed.

Lemma primary_key_ensured cols :
  existsb primary_key (_ensure_primary_key cols) = true.
Proof.
  unfold _ensure_primary_key. cbv zeta.
  now destruct (existsb primary_key cols) eqn:H.
Qed.

Lemma compliant_has_primary_key cols :
  existsb primary_key (compliant_columns cols) = true.
Proof.
  unfold compliant_columns. cbv zeta.
  unfold _add_data_ownership_fields, _add_data_lineage_fields,
    _add_security_fields, _add_audit_trail_fields.
  repeat apply primary_key_add_missing.
  rewrite primary_key_quality, primary_key_improve.
  apply primary_key_add_missing, primary_key_ensured.
Qed.

Lemma mandated_lower fields field :
  In fields [audit_fields; security_fields; lineage_fields; ownership_fields] ->
  In field fields -> PyStr.lower (name field) = name field.
Proof.
  intros Hgroup Hfield.
  destruct (mandated_names_ok fields Hgroup) as [_ Hlower].
  rewrite List.Forall_forall in Hlower. now apply Hlower.
Qed.

Lemma compliant_has_mandated cols n :
  In n mandated_names -> In n (lower_names (compliant_columns cols)).
Proof.
  unfold mandated_names. rewrite !in_app_iff. unfold names at 1 2 3 4.
  rewrite !in_map_iff.
  unfold compliant_columns. cbv zeta.
  unfold _add_data_ownership_fields, _add_data_lineage_fields,
    _add_security_fields, _add_audit_trail_fields.
  intros [(field & <- & Hf)|[(field & <- & Hf)|[(field & <- & Hf)|(field & <- & Hf)]]].
  - do 3 apply lower_names_add_missing_l.
    rewrite (lower_names_same _ _ (names_quality _)).
    rewrite (lower_names_same _ _ (names_improve _)).
    apply lower_names_add_missing_r; [assumption|].
    apply (mandated_lower audit_fields); cbn [In]; tauto.
  - do 2 apply lower_names_add_missing_l.
    apply lower_names_add_missing_r; [assumption|].
    apply (mandated_lower security_fields); cbn [In]; tauto.
  - apply lower_names_add_missing_l.
    apply lower_names_add_missing_r; [assumption|].
    apply (mandated_lower lineage_fields); cbn [In]; tauto.
  - apply lower_names_add_missing_r; [assumption|].
    apply (mandated_lower ownership_fields); cbn [In]; tauto.
Qed.

(** X8: the transformed schema always has a primary-key column and, up to
    letter case, a column for each of the ten mandated names (four audit,
    two security, two lineage and two ownership fields). *)
Theorem X8_mandated_columns_present (schema_info : SchemaInfo) :
  existsb primary_key (columns (make_schema_ndmo_compliant schema_info)) = true /\
  (forall n, In n mandated_names ->
     In n (lower_names (columns (make_schema_ndmo_compliant schema_info)))) /\
  mandated_names
  = ["created_date"; "modified_date"; "created_by"; "modified_by";
     "data_classification"; "access_level"; "source_system"; "extraction_date";
     "data_owner"; "data_steward"].
Proof.
  cbn [columns make_schema_ndmo_compliant].
  split; [apply compliant_has_primary_key|].
  split; [intros n; apply compliant_has_mandated|reflexivity].
Qed.

(** A second run changes no name: with a primary key and the mandated names
    in place, nothing is inserted or appended. *)
Lemma names_of_second_run cols :
  existsb primary_key cols = true ->
  (forall n, In n mandated_names -> In n (lower_names cols)) ->
  names (compliant_columns cols) = names cols.
Proof.
  intros Hpk Hnames.
  assert (Hgroup : forall fields,
            In fields [audit_fields; security_fields; lineage_fields;
                       ownership_fields] ->
            forall cols', names cols' = names cols ->
            names (add_missing fields cols') = names cols).
  { intros fields Hfields cols' Hsame.
    rewrite add_missing_present; [assumption|].
    intros field Hfield. rewrite (lower_names_same _ _ Hsame).
    apply Hnames. unfold mandated_names. rewrite !in_app_iff.
    cbn [In] in Hfields.
    destruct Hfields as [<-|[<-|[<-|[<-|[]]]]];
      [left|right; left|right; right; left|right; right; right];
      now apply (in_map name). }
  unfold compliant_columns. cbv zeta.
  unfold _add_data_ownership_fields, _add_data_lineage_fields,
    _add_security_fields, _add_audit_trail_fields.
  apply Hgroup; [cbn [In]; tauto|].
  apply Hgroup; [cbn [In]; tauto|].
  apply Hgroup; [cbn [In]; tauto|].
  rewrite names_quality, names_improve.
  apply Hgroup; [cbn [In]; tauto|].
  now rewrite (primary_key_not_inserted _ Hpk).
Qed.

(** X9: running the transformer on its own output adds no column and
    renames none: the column names of the second result are those of the
    first. *)
Theorem X9_transformer_idempotent_on_names (schema_info : SchemaInfo) :
  names (columns (make_schema_ndmo_compliant
                    (make_schema_ndmo_compliant schema_info)))
  = names (columns (make_schema_ndmo_compliant schema_info)) /\
  total_columns (make_schema_ndmo_compliant
                   (make_schema_ndmo_compliant schema_info))
  = total_columns (make_schema_ndmo_compliant schema_info).
Proof.
  assert (Hnames : names (compliant_columns (compliant_columns (columns schema_info)))
                   = names (compliant_columns (columns schema_info))).
  { apply names_of_second_run;
      [apply compliant_has_primary_key|intros n; apply compliant_has_mandated]. }
  cbn [columns total_columns make_schema_ndmo_compliant].
  split; [exact Hnames|].
  unfold names in Hnames. apply (f_equal (@length string)) in Hnames.
  now rewrite !length_map in Hnames.
Qed.

Lemma add_missing_length fields cols :
  length (add_missing fields cols) <= length cols + length fields.
Proof.
  unfold add_missing. cbv zeta. rewrite length_app.
  pose proof (filter_length_le
                (fun field : Column =>
                   negb (PyStr.mem (name field)
                           (map (fun col => PyStr.lower (name col)) cols)))
                fields).
  lia.
Qed.

(** X10: the transformer removes and renames nothing: the names of the
    input columns appear in the result in their order, new names being
    inserted before or after them; at most eleven columns are added. *)
Theorem X10_original_columns_kept (schema_info : SchemaInfo) :
  names (columns schema_info)
    `sublist_of` names (columns (make_schema_ndmo_compliant schema_info)) /\
  length (columns (make_schema_ndmo_compliant schema_info))
  <= length (columns schema_info) + 11.
Proof.
  cbn [columns make_schema_ndmo_compliant].
  split; [apply original_names_kept|].
  unfold compliant_columns. cbv zeta.
  unfold _add_data_ownership_fields, _add_data_lineage_fields,
    _add_security_fields, _add_audit_trail_fields,
    _add_data_quality_constraints, _improve_data_types_for_ndmo.
  assert (Hkey : length (_ensure_primary_key (columns schema_info))
                 <= length (columns schema_info) + 1).
  { unfold _ensure_primary_key. cbv zeta.
    destruct (existsb primary_key (columns schema_info)); cbn [negb length]; lia. }
  set (keyed := _ensure_primary_key (columns schema_info)) in *.
  pose proof (add_missing_length audit_fields keyed) as Haudit.
  set (audited := add_missing audit_fields keyed) in *.
  assert (Htyped : length (map add_quality_constraints
                             (map improve_data_type audited))
                   = length audited) by now rewrite !length_map.
  set (typed := map add_quality_constraints (map improve_data_type audited)) in *.
  pose proof (add_missing_length security_fields typed) as Hsecurity.
  set (secured := add_missing security_fields typed) in *.
  pose proof (add_missing_length lineage_fields secured) as Hlineage.
  set (traced := add_missing lineage_fields secured) in *.
  pose proof (add_missing_length ownership_fields traced) as Hownership.
  cbn [length audit_fields security_fields lineage_fields ownership_fields] in *.
  lia.
Qed.

Definition keyed_schema : SchemaInfo :=
  schema_of [ mkColumn "id" "numeric" false true true false ∅ [] None [] None None;
              plain_column "Created_Date" ].

(** X11: when the schema has a primary-key column, or no column named
    "id", distinct column names stay distinct through the transformer. *)
Theorem X11_names_stay_distinct (schema_info : SchemaInfo) :
  NoDup (names (columns schema_info)) ->
  existsb primary_key (columns schema_info) = true
  \/ ~ In "id" (names (columns schema_info)) ->
  NoDup (names (columns (make_schema_ndmo_compliant schema_info))).
Proof.
  intros Hnd Hid. cbn [columns make_schema_ndmo_compliant].
  now apply names_stay_distinct.
Qed.

Lemma X11_names_stay_distinct_witness :
  NoDup (names (columns (make_schema_ndmo_compliant keyed_schema))).
Proof.
  apply (X11_names_stay_distinct keyed_schema).
  - apply (bool_decide_unpack _). vm_compute. reflexivity.
  - left. reflexivity.
Defined.

End TransformerGuarantees.

(** ** What the problem detector reports *)

Module DetectorSpec.
Import PyFloat Pandas Schema SchemaProblemAnalyzer ProblemSpec.
Local Open Scope float_scope.

(** The identifier a check contributes. *)
Definition when (failed : bool) (problem_id : string) : list string :=
  if failed then [problem_id] else [].

Definition governance_major_ids (schema_info : SchemaInfo) : list string :=
  let cols := columns schema_info in
  when (negb (existsb (name_has "documentation") cols)) "DG002"
  ++ when (negb (existsb (fun col => name_has "owner" col || name_has "steward" col)
                   cols)) "DG003".

Definition quality_major_ids (schema_info : SchemaInfo) : list string :=
  let cols := columns schema_info in
  let n := length cols in
  when (of_nat (count (fun col => get_truthy "required" (constraints col)) cols)
        <? of_nat n * 0.3) "DQ001"
  ++ when (of_nat (count (fun col => nonempty (constraints col)) cols)
           <? of_nat n * 0.5) "DQ002"
  ++ when (count unique cols <? 2)%nat "DQ004".

Definition security_major_ids (schema_info : SchemaInfo) : list string :=
  let cols := columns schema_info in
  when (negb (existsb (fun col => name_has "access" col || name_has "permission" col)
                cols)) "DS002"
  ++ when (negb (some_name_has ["created"; "modified"; "updated"; "audit"; "log"]
                   cols)) "DS004".

Definition business_major_ids (schema_info : SchemaInfo) : list string :=
  let rules := business_rules schema_info in
  when (of_nat (count is_implemented rules) <? of_nat (length rules) * 0.5) "BR001"
  ++ match relationships schema_info with
     | [] => ["BR002"]
     | _ :: _ => []
     end.

Definition critical_ids (schema_info : SchemaInfo) : list string :=
  when (negb (existsb primary_key (columns schema_info))) "DG001"
  ++ when (existsb is_sensitive (columns schema_info)) "DS001".

Definition major_ids (schema_info : SchemaInfo) : list string :=
  governance_major_ids schema_info ++ quality_major_ids schema_info
  ++ security_major_ids schema_info ++ business_major_ids schema_info.

Definition minor_ids (schema_info : SchemaInfo) : list string :=
  let cols := columns schema_info in
  when (0 <? count (fun col => String.eqb (data_type col) "unknown") cols)%nat "DQ005"
  ++ when (0 <? count (fun col => negb (_is_consistent_naming (name col))) cols)%nat
       "DA001"
  ++ when (negb (some_name_has ["source"; "system"; "import"; "sync"] cols)) "DA002".

(** Every identifier the detector can report, in the order of the report. *)
Definition detectable_ids : list string :=
  ["DG001"; "DS001";
   "DG002"; "DG003"; "DQ001"; "DQ002"; "DQ004"; "DS002"; "DS004"; "BR001"; "BR002";
   "DQ005"; "DA001"; "DA002"].

Definition reported_ids (analysis : ProblemAnalysis) : list string :=
  map Problem.id
    (critical_problems (found analysis) ++ major_problems (found analysis)
     ++ minor_problems (found analysis)).

Ltac split_ids :=
  cbv zeta; unfold when;
  repeat match goal with
         | |- context [if ?b then _ else _] => destruct b
         | |- context [match ?l with [] => _ | _ :: _ => _ end] => destruct l
         end;
  cbn [major_problems minor_problems critical_problems
       add_major add_minor add_critical];
  rewrite ?map_app; cbn [map Problem.id];
  rewrite <- ?app_assoc; cbn [app]; rewrite ?app_nil_r; reflexivity.

Lemma governance_major schema_info problems :
  map Problem.id (major_problems (_analyze_data_governance_problems schema_info problems))
  = map Problem.id (major_problems problems) ++ governance_major_ids schema_info.
Proof.
  unfold _analyze_data_governance_problems, governance_major_ids. split_ids.
Qed.

Lemma governance_minor schema_info problems :
  minor_problems (_analyze_data_governance_problems schema_info problems)
  = minor_problems problems.
Proof. unfold _analyze_data_governance_problems. cbv zeta. split_conditions. Qed.

Lemma quality_major schema_info problems :
  map Problem.id (major_problems (_analyze_data_quality_problems schema_info problems))
  = map Problem.id (major_problems problems) ++ quality_major_ids schema_info.
Proof.
  unfold _analyze_data_quality_problems, quality_major_ids. split_ids.
Qed.

Lemma quality_minor schema_info problems :
  map Problem.id (minor_problems (_analyze_data_quality_problems schema_info problems))
  = map Problem.id (minor_problems problems)
    ++ when (0 <? count (fun col => String.eqb (data_type col) "unknown")
                    (columns schema_info))%nat "DQ005".
Proof. unfold _analyze_data_quality_problems. split_ids. Qed.

Lemma security_major schema_info problems :
  map Problem.id (major_problems (_analyze_data_security_problems schema_info problems))
  = map Problem.id (major_problems problems) ++ security_major_ids schema_info.
Proof.
  unfold _analyze_data_security_problems, security_major_ids. split_ids.
Qed.

Lemma security_minor schema_info problems :
  minor_problems (_analyze_data_security_problems schema_info problems)
  = minor_problems problems.
Proof. unfold _analyze_data_security_problems. cbv zeta. split_conditions. Qed.

Lemma architecture_major schema_info problems :
  major_problems (_analyze_data_architecture_problems schema_info problems)
  = major_problems problems.
Proof. unfold _analyze_data_architecture_problems. cbv zeta. split_conditions. Qed.

Lemma architecture_minor schema_info problems :
  map Problem.id (minor_problems (_analyze_data_architecture_problems schema_info problems))
  = map Problem.id (minor_problems problems)
    ++ when (0 <? count (fun col => negb (_is_consistent_naming (name col)))
                    (columns schema_info))%nat "DA001"
    ++ when (negb (some_name_has ["source"; "system"; "import"; "sync"]
                     (columns schema_info))) "DA002".
Proof. unfold _analyze_data_architecture_problems. split_ids. Qed.

Lemma business_rules_major schema_info problems :
  map Problem.id (major_problems (_analyze_business_rules_problems schema_info problems))
  = map Problem.id (major_problems problems) ++ business_major_ids schema_info.
Proof.
  unfold _analyze_business_rules_problems, business_major_ids. split_ids.
Qed.

Lemma business_rules_minor schema_info problems :
  minor_problems (_analyze_business_rules_problems schema_info problems)
  = minor_problems problems.
Proof. unfold _analyze_business_rules_problems. cbv zeta. split_conditions. Qed.

Lemma sensitive_problem_ids cols :
  map Problem.id (sensitive_problem cols) = when (existsb is_sensitive cols) "DS001".
Proof.
  unfold sensitive_problem, when.
  destruct (List.filter is_sensitive cols) as [|col fields] eqn:Hfilter.
  - destruct (existsb is_sensitive cols) eqn:Hsome; [|reflexivity].
    apply existsb_exists in Hsome as (col & Hin & Hcol).
    assert (Hmember : In col (List.filter is_sensitive cols))
      by (apply filter_In; now split).
    rewrite Hfilter in Hmember. destruct Hmember.
  - assert (Hmember : In col (List.filter is_sensitive cols))
      by (rewrite Hfilter; now left).
    apply filter_In in Hmember as [Hin Hcol].
    assert (Hsome : existsb is_sensitive cols = true)
      by (apply existsb_exists; now exists col).
    now rewrite Hsome.
Qed.

Lemma critical_ids_of_analysis schema_info :
  map Problem.id (critical_problems (found (analyze_schema_problems schema_info)))
  = critical_ids schema_info.
Proof.
  rewrite critical_of_analysis, map_app, sensitive_problem_ids.
  unfold critical_ids, when.
  now destruct (existsb primary_key (columns schema_info)).
Qed.

Lemma major_ids_of_analysis schema_info :
  map Problem.id (major_problems (found (analyze_schema_problems schema_info)))
  = major_ids schema_info.
Proof.
  unfold analyze_schema_problems. cbv zeta. cbn [found].
  rewrite business_rules_major, architecture_major, security_major,
    quality_major, governance_major.
  cbn [major_problems map app]. unfold major_ids.
  now rewrite <- !app_assoc.
Qed.

Lemma minor_ids_of_analysis schema_info :
  map Problem.id (minor_problems (found (analyze_schema_problems schema_info)))
  = minor_ids schema_info.
Proof.
  unfold analyze_schema_problems. cbv zeta. cbn [found].
  rewrite business_rules_minor, architecture_minor, security_minor,
    quality_minor, governance_minor.
  cbn [minor_problems map app]. unfold minor_ids. cbv zeta.
  now rewrite <- ?app_assoc.
Qed.

Lemma reported_ids_of_analysis schema_info :
  reported_ids (analyze_schema_problems schema_info)
  = critical_ids schema_info ++ major_ids schema_info ++ minor_ids schema_info.
Proof.
  unfold reported_ids.
  now rewrite !map_app, critical_ids_of_analysis, major_ids_of_analysis,
    minor_ids_of_analysis.
Qed.

Lemma when_sublist failed problem_id l l' :
  l `sublist_of` l' -> when failed problem_id ++ l `sublist_of` problem_id :: l'.
Proof.
  intros Hsub. destruct failed; cbn [when app].
  - now apply sublist_skip.
  - now apply sublist_cons.
Qed.

Lemma other_ids_sublist schema_info :
  when (existsb is_sensitive (columns schema_info)) "DS001"
  ++ major_ids schema_info ++ minor_ids schema_info
    `sublist_of` tail detectable_ids.
Proof.
  unfold major_ids, minor_ids, governance_major_ids,
    quality_major_ids, security_major_ids, business_major_ids, detectable_ids.
  cbv zeta. cbn [tail]. rewrite <- !app_assoc.
  do 9 apply when_sublist.
  replace (match relationships schema_info with [] => ["BR002"] | _ :: _ => [] end)
    with (when (match relationships schema_info with [] => true | _ :: _ => false end)
            "BR002")
    by now destruct (relationships schema_info).
  do 3 apply when_sublist.
  rewrite <- (app_nil_r (when _ "DA002")). apply when_sublist. apply sublist_nil.
Qed.

Lemma reported_sublist schema_info :
  reported_ids (analyze_schema_problems schema_info) `sublist_of` detectable_ids.
Proof.
  rewrite reported_ids_of_analysis. unfold critical_ids.
  rewrite <- app_assoc. apply when_sublist. apply other_ids_sublist.
Qed.

(** DG001 is reported exactly when no column is flagged as primary key. *)
Lemma missing_key_reported schema_info :
  In "DG001" (reported_ids (analyze_schema_problems schema_info))
  <-> existsb primary_key (columns schema_info) = false.
Proof.
  rewrite reported_ids_of_analysis. unfold critical_ids.
  rewrite <- app_assoc.
  destruct (existsb primary_key (columns schema_info)); cbn [negb when app].
  - split; [|discriminate]. intros Hin. exfalso.
    pose proof (other_ids_sublist schema_info) as Hsub.
    apply list_elem_of_In in Hin.
    apply (sublist_subseteq _ _ Hsub) in Hin.
    apply list_elem_of_In in Hin. cbn [detectable_ids tail In] in Hin.
    repeat (destruct Hin as [Hin|Hin]; [discriminate Hin|]). exact Hin.
  - split; [reflexivity|]. intros _. now left.
Qed.

Lemma In_when problem_id failed reported :
  In problem_id (when failed reported) <-> failed = true /\ reported = problem_id.
Proof.
  destruct failed; cbn [when In]; intuition discriminate.
Qed.

(** BR002 is reported exactly when the schema records no relationship. *)
Lemma no_relationship_reported schema_info :
  In "BR002" (reported_ids (analyze_schema_problems schema_info))
  <-> relationships schema_info = [].
Proof.
  rewrite reported_ids_of_analysis.
  unfold critical_ids, major_ids, minor_ids, governance_major_ids,
    quality_major_ids, security_major_ids, business_major_ids.
  cbv zeta. rewrite !in_app_iff, !In_when.
  destruct (relationships schema_info); cbn [In].
  - assert (Hself : "BR002" = "BR002") by reflexivity.
    split; [reflexivity|]. intros _. tauto.
  - split; [|discriminate]. intros Hin. exfalso.
    repeat match goal with
           | H : _ \/ _ |- _ => destruct H as [H|H]
           | H : _ /\ _ |- _ => destruct H as [_ H]
           | H : _ = "BR002" |- _ => discriminate H
           end.
    exact Hin.
Qed.

(** X12: the detector reports each problem at most once and in one fixed
    order (DG001, DS001, then the nine major and the three minor checks);
    every reported identifier is a standard of the catalog, and the
    standards DQ003, DQ006, DS003, DA003 and BR003 are never reported. *)
Theorem X12_reported_problem_ids (schema_info : SchemaInfo) :
  reported_ids (analyze_schema_problems schema_info) `sublist_of` detectable_ids /\
  NoDup (reported_ids (analyze_schema_problems schema_info)) /\
  (forall problem_id,
     In problem_id (reported_ids (analyze_schema_problems schema_info)) ->
     PyDict.has_key problem_id NdmoStandards.standards = true /\
     ~ In problem_id ["DQ003"; "DQ006"; "DS003"; "DA003"; "BR003"]).
Proof.
  pose proof (reported_sublist schema_info) as Hsub.
  split; [exact Hsub|]. split.
  - eapply sublist_NoDup; [|exact Hsub].
    apply (bool_decide_unpack _). vm_compute. reflexivity.
  - intros problem_id Hin.
    assert (Hdetectable : In problem_id detectable_ids).
    { apply list_elem_of_In. eapply sublist_subseteq; [exact Hsub|].
      now apply list_elem_of_In. }
    cbn [detectable_ids In] in Hdetectable.
    repeat (destruct Hdetectable as [<-|Hdetectable];
            [split; [vm_compute; reflexivity
                    |cbn [In]; intros Hno;
                     repeat (destruct Hno as [Hno|Hno]; [discriminate Hno|]);
                     exact Hno]|]).
    destruct Hdetectable.
Qed.

Section StableSort.
Context {A : Type} (key : A -> nat).

Lemma insert_last x sorted :
  Forall (fun y => (key y <= key x)%nat) sorted ->
  insert_by_key key x sorted = sorted ++ [x].
Proof.
  induction 1 as [|y sorted Hy Hsorted IH]; [reflexivity|].
  cbn [insert_by_key app].
  destruct (Nat.ltb_spec (key x) (key y)); [lia|]. now rewrite IH.
Qed.

Lemma insert_block rank block : forall sorted,
  Forall (fun y => (key y <= rank)%nat) sorted ->
  Forall (fun y => key y = rank) block ->
  fold_left (fun sorted x => insert_by_key key x sorted) block sorted
  = sorted ++ block.
Proof.
  induction block as [|x block IH]; intros sorted Hsorted Hblock.
  - now rewrite app_nil_r.
  - apply List.Forall_cons_iff in Hblock as [Hx Hblock].
    cbn [fold_left]. rewrite insert_last.
    + rewrite IH; [now rewrite <- app_assoc| |assumption].
      apply List.Forall_app. split; [assumption|].
      constructor; [lia|constructor].
    + eapply List.Forall_impl; [|exact Hsorted]. cbn beta. intros y Hy. lia.
Qed.

End StableSort.

Lemma rank_of_block rank impact effort block :
  Forall (fun y => pa_priority y = rank) (map (to_priority rank impact effort) block).
Proof.
  apply List.Forall_forall. intros y Hy.
  apply in_map_iff in Hy as (p & <- & _). reflexivity.
Qed.

Lemma prioritize_actions_unsorted problems :
  _prioritize_actions problems
  = map (to_priority 1 "Critical" "High") (critical_problems problems)
    ++ map (to_priority 2 "Major" "Medium") (major_problems problems)
    ++ map (to_priority 3 "Minor" "Low") (minor_problems problems).
Proof.
  unfold _prioritize_actions, sort_by_key.
  rewrite !fold_left_app.
  set (critical := map (to_priority 1 "Critical" "High") (critical_problems problems)).
  set (major := map (to_priority 2 "Major" "Medium") (major_problems problems)).
  set (minor := map (to_priority 3 "Minor" "Low") (minor_problems problems)).
  assert (Hcritical : Forall (fun y => pa_priority y = 1%nat) critical)
    by apply rank_of_block.
  assert (Hmajor : Forall (fun y => pa_priority y = 2%nat) major)
    by apply rank_of_block.
  assert (Hminor : Forall (fun y => pa_priority y = 3%nat) minor)
    by apply rank_of_block.
  rewrite (insert_block pa_priority 1 critical []); [|constructor|assumption].
  cbn [app].
  rewrite (insert_block pa_priority 2 major critical); [| |assumption].
  - rewrite (insert_block pa_priority 3 minor (critical ++ major));
      [now rewrite <- app_assoc| |assumption].
    apply List.Forall_app. split.
    + eapply List.Forall_impl; [|exact Hcritical]. cbn beta. intros y ->. lia.
    + eapply List.Forall_impl; [|exact Hmajor]. cbn beta. intros y ->. lia.
  - eapply List.Forall_impl; [|exact Hcritical]. cbn beta. intros y ->. lia.
Qed.

(** X13: the priority list names every reported problem exactly once:
    the critical problems first, then the major, then the minor ones, each
    group in the order of detection, so the final sort moves nothing; the
    three action lists of the correction plan name the same problems in the
    same order. *)
Theorem X13_priority_actions_order (schema_info : SchemaInfo) :
  map pa_problem_id (priority_actions (analyze_schema_problems schema_info))
  = reported_ids (analyze_schema_problems schema_info) /\
  map pa_priority (priority_actions (analyze_schema_problems schema_info))
  = repeat 1%nat (length (critical_problems (found (analyze_schema_problems schema_info))))
    ++ repeat 2%nat (length (major_problems (found (analyze_schema_problems schema_info))))
    ++ repeat 3%nat (length (minor_problems (found (analyze_schema_problems schema_info)))) /\
  (let plan := correction_plan (analyze_schema_problems schema_info) in
   map action_problem_id
     (immediate_actions plan ++ short_term_actions plan ++ long_term_actions plan)
   = map pa_problem_id (priority_actions (analyze_schema_problems schema_info))).
Proof.
  assert (Hrank : forall rank impact effort block,
            map pa_priority (map (to_priority rank impact effort) block)
            = repeat rank (length block)).
  { intros rank impact effort block.
    induction block as [|p block IH]; [reflexivity|].
    cbn [map length repeat]. now rewrite IH. }
  unfold analyze_schema_problems at 1 3 7 8. cbv zeta.
  cbn [priority_actions correction_plan].
  fold (found (analyze_schema_problems schema_info)).
  rewrite prioritize_actions_unsorted.
  unfold reported_ids, _generate_correction_plan. cbv zeta.
  cbn [immediate_actions short_term_actions long_term_actions].
  rewrite !map_app, !Hrank, !map_map. cbn [to_priority to_action
    pa_problem_id action_problem_id].
  split; [reflexivity|]. split; reflexivity.
Qed.

End DetectorSpec.

(** ** The detector on the transformer's result *)

Module PipelineSpec.
Import PyFloat Pandas Schema SchemaProblemAnalyzer SchemaNDMOComplianceProcessor.
Import ProblemSpec TransformerSpec TransformerGuarantees DetectorSpec.

Lemma existsb_names (P : string -> bool) cols :
  existsb (fun col => P (name col)) cols = existsb P (names cols).
Proof.
  induction cols as [|col cols IH]; [reflexivity|].
  cbn [names map existsb]. now rewrite IH.
Qed.

Lemma names_filter_false (P : string -> bool) (keep : Column -> bool) fields :
  existsb P (names fields) = false ->
  existsb P (names (List.filter keep fields)) = false.
Proof.
  induction fields as [|field fields IH]; [reflexivity|].
  cbn [names map existsb List.filter]. intros Hnone.
  apply orb_false_iff in Hnone as [Hfield Hfields].
  destruct (keep field); cbn [map existsb]; [rewrite Hfield|]; now apply IH.
Qed.

(** A test on names that fails on "id" and on the mandated names gives the
    same answer before and after the transformation. *)
Lemma added_names_irrelevant (P : string -> bool) cols :
  P "id" = false -> existsb P mandated_names = false ->
  existsb P (names (compliant_columns cols)) = existsb P (names cols).
Proof.
  intros Hid Hmandated. unfold mandated_names in Hmandated.
  rewrite !existsb_app in Hmandated.
  apply orb_false_iff in Hmandated as [Haudit Hmandated].
  apply orb_false_iff in Hmandated as [Hsecurity Hmandated].
  apply orb_false_iff in Hmandated as [Hlineage Hownership].
  unfold compliant_columns. cbv zeta.
  unfold _add_data_ownership_fields, _add_data_lineage_fields,
    _add_security_fields.
  rewrite !names_add_missing, names_quality, names_improve.
  unfold _add_audit_trail_fields. rewrite names_add_missing.
  rewrite names_ensure_primary_key, !existsb_app.
  rewrite !names_filter_false by assumption. rewrite !orb_false_r.
  destruct (existsb primary_key cols); [reflexivity|].
  cbn [existsb]. now rewrite Hid.
Qed.

Lemma present_name (Q : string -> bool) cols n :
  In n (lower_names cols) -> Q n = true ->
  existsb (fun col => Q (PyStr.lower (name col))) cols = true.
Proof.
  unfold lower_names, names. rewrite map_map, in_map_iff.
  intros (col & <- & Hin) HQ. apply existsb_exists. now exists col.
Qed.

Lemma mandated_name_has word n cols :
  In n mandated_names -> PyStr.contains word n = true ->
  existsb (name_has word) (compliant_columns cols) = true.
Proof.
  intros Hin Hword.
  apply (present_name (PyStr.contains word) _ n); [|assumption].
  now apply compliant_has_mandated.
Qed.

Lemma compliant_ownership cols :
  existsb (fun col => name_has "owner" col || name_has "steward" col)
    (compliant_columns cols) = true.
Proof.
  apply (present_name
           (fun n => PyStr.contains "owner" n || PyStr.contains "steward" n)
           _ "data_owner"); [|reflexivity].
  apply compliant_has_mandated. vm_compute. tauto.
Qed.

Lemma compliant_access cols :
  existsb (fun col => name_has "access" col || name_has "permission" col)
    (compliant_columns cols) = true.
Proof.
  apply (present_name
           (fun n => PyStr.contains "access" n || PyStr.contains "permission" n)
           _ "access_level"); [|reflexivity].
  apply compliant_has_mandated. vm_compute. tauto.
Qed.

Lemma compliant_audit cols :
  some_name_has ["created"; "modified"; "updated"; "audit"; "log"]
    (compliant_columns cols) = true.
Proof.
  unfold some_name_has. cbn [existsb].
  rewrite (mandated_name_has "created" "created_date");
    [reflexivity|vm_compute; tauto|reflexivity].
Qed.

Lemma compliant_integration cols :
  some_name_has ["source"; "system"; "import"; "sync"] (compliant_columns cols) = true.
Proof.
  unfold some_name_has. cbn [existsb].
  rewrite (mandated_name_has "source" "source_system");
    [reflexivity|vm_compute; tauto|reflexivity].
Qed.

Lemma compliant_sensitive cols :
  existsb is_sensitive (compliant_columns cols) = existsb is_sensitive cols.
Proof.
  set (P := fun n => existsb (fun keyword => PyStr.contains keyword (PyStr.lower n))
                      sensitive_words).
  assert (Hnames : forall cs, existsb is_sensitive cs = existsb P (names cs))
    by (intros cs; exact (existsb_names P cs)).
  rewrite !Hnames. now apply added_names_irrelevant.
Qed.

Lemma compliant_documentation cols :
  existsb (name_has "documentation") (compliant_columns cols)
  = existsb (name_has "documentation") cols.
Proof.
  set (P := fun n => PyStr.contains "documentation" (PyStr.lower n)).
  assert (Hnames : forall cs, existsb (name_has "documentation") cs
                              = existsb P (names cs))
    by (intros cs; exact (existsb_names P cs)).
  rewrite !Hnames. now apply added_names_irrelevant.
Qed.

(** The identifiers the detector can still report after the
    transformation. *)
Definition remaining_ids : list string :=
  ["DS001"; "DG002"; "DQ001"; "DQ002"; "DQ004"; "BR001"; "BR002";
   "DQ005"; "DA001"].

(** The detector run on the transformed schema. *)
Definition analysis_after (schema_info : SchemaInfo) : ProblemAnalysis :=
  analyze_schema_problems (make_schema_ndmo_compliant schema_info).

(** X14: the detector on the transformer's result.  DG001, DG003, DS002,
    DS004 and DA002 are never reported again; DS001 and DG002 are reported
    exactly when they were before (a sensitive column name, no column named
    after documentation), since no column is renamed or removed; BR001 is
    always reported, the five rules the transformer stores carrying no
    [implemented] mark. *)
Theorem X14_problems_after_transformation (schema_info : SchemaInfo) :
  reported_ids (analysis_after schema_info) `sublist_of` remaining_ids /\
  map Problem.id (critical_problems (found (analysis_after schema_info)))
  = when (existsb is_sensitive (columns schema_info)) "DS001" /\
  (In "DG002" (reported_ids (analysis_after schema_info))
   <-> existsb (name_has "documentation") (columns schema_info) = false) /\
  In "BR001" (reported_ids (analysis_after schema_info)).
Proof.
  unfold analysis_after.
  assert (Hcritical :
            critical_ids (make_schema_ndmo_compliant schema_info)
            = when (existsb is_sensitive (columns schema_info)) "DS001").
  { unfold critical_ids. cbn [columns make_schema_ndmo_compliant].
    now rewrite compliant_has_primary_key, compliant_sensitive. }
  assert (Hmajor :
            major_ids (make_schema_ndmo_compliant schema_info)
            = when (negb (existsb (name_has "documentation") (columns schema_info)))
                "DG002"
              ++ quality_major_ids (make_schema_ndmo_compliant schema_info)
              ++ "BR001"
                 :: match relationships schema_info with
                    | [] => ["BR002"]
                    | _ :: _ => []
                    end).
  { unfold major_ids, governance_major_ids, security_major_ids, business_major_ids.
    cbv zeta. cbn [columns business_rules relationships make_schema_ndmo_compliant].
    rewrite compliant_ownership, compliant_access, compliant_audit,
      compliant_documentation.
    replace (of_nat (count is_implemented comprehensive_business_rules)
             <? of_nat (length comprehensive_business_rules) * 0.5)%float
      with true by (vm_compute; reflexivity).
    cbn [negb when app]. now rewrite app_nil_r. }
  assert (Hminor :
            minor_ids (make_schema_ndmo_compliant schema_info)
            = when (0 <? count (fun col => String.eqb (data_type col) "unknown")
                           (columns (make_schema_ndmo_compliant schema_info)))%nat
                "DQ005"
              ++ when (0 <? count (fun col => negb (_is_consistent_naming (name col)))
                              (columns (make_schema_ndmo_compliant schema_info)))%nat
                   "DA001").
  { unfold minor_ids. cbv zeta.
    cbn [columns make_schema_ndmo_compliant].
    rewrite compliant_integration. cbn [negb when]. now rewrite app_nil_r. }
  rewrite reported_ids_of_analysis, critical_ids_of_analysis.
  rewrite Hcritical, Hmajor, Hminor.
  split; [|split; [reflexivity|split]].
  - unfold remaining_ids, quality_major_ids. cbv zeta. rewrite <- !app_assoc.
    do 5 apply when_sublist. cbn [app]. apply sublist_skip.
    replace (match relationships schema_info with [] => ["BR002"] | _ :: _ => [] end)
      with (when (match relationships schema_info with [] => true | _ :: _ => false end)
              "BR002")
      by now destruct (relationships schema_info).
    do 2 apply when_sublist.
    rewrite <- (app_nil_r (when _ "DA001")). apply when_sublist. apply sublist_nil.
  - unfold quality_major_ids, when. cbv zeta.
    destruct (existsb (name_has "documentation") (columns schema_info));
      cbn [negb]; rewrite !in_app_iff.
    + split; [|discriminate]. intros Hin. exfalso.
      repeat match goal with
             | H : _ \/ _ |- _ => destruct H as [H|H]
             | H : In _ (if ?b then _ else _) |- _ => destruct b
             | H : In _ (match ?l with [] => _ | _ :: _ => _ end) |- _ => destruct l
             | H : In _ (_ :: _) |- _ => destruct H as [H|H]; [discriminate H|]
             | H : In _ [] |- _ => destruct H
             end.
    + split; [reflexivity|]. intros _. right. left. left. now left.
  - rewrite !in_app_iff. right. left. right. right. now left.
Qed.

End PipelineSpec.

(** ** What the constraints do to a column *)

Module ConstraintSpec.
Import Pandas Schema Py SmartDataProcessor.

(** The four steps of [_apply_constraints], one per constraint. *)
Definition required_step (c : constraints_t) (s : Series) : Series :=
  if get_truthy "required" c
  then
    if bool_decide (dtype_of s = DObject) then fillna (CStr "N/A") s
    else if is_numeric_dtype s then fillna (CInt 0) s
    else s
  else s.

Definition length_step (c : constraints_t) (s : Series) : result Series :=
  if (is_set "min_length" c || is_set "max_length" c)
     && bool_decide (dtype_of s = DObject)
  then
    bind (number "min_length" c) (fun min_len =>
    bind (number "max_length" c) (fun max_len =>
    Ok (mkSeries DObject
          (map (fit_length (default 0%Z min_len) max_len) (values s)))))
  else Ok s.

Definition value_step (c : constraints_t) (s : Series) : result Series :=
  if (is_set "min_value" c || is_set "max_value" c) && is_numeric_dtype s
  then
    bind (number "min_value" c) (fun min_val =>
    bind (number "max_value" c) (fun max_val =>
    Ok (mkSeries (dtype_of s) (map (clip min_val max_val) (values s)))))
  else Ok s.

Definition allowed_step (c : constraints_t) (s : Series) : result Series :=
  match c !! "allowed_values" with
  | Some (VCells (v :: allowed)) =>
      Ok (read_column
            (map (fun x => if bool_decide (x ∈ v :: allowed) then x else CNull)
               (values s)))
  | _ => Ok s
  end.

Lemma apply_constraints_steps s c :
  _apply_constraints s c
  = bind (length_step c (required_step c s)) (fun s1 =>
    bind (value_step c s1) (allowed_step c)).
Proof. reflexivity. Qed.

(** The numbers the constraints hold are numbers (or are not there). *)
Definition numbers_ok (c : constraints_t) : bool :=
  forallb (fun k => match number k c with Ok _ => true | Raise _ => false end)
    ["min_length"; "max_length"; "min_value"; "max_value"].

Lemma numbers_ok_number c k :
  numbers_ok c = true ->
  In k ["min_length"; "max_length"; "min_value"; "max_value"] ->
  exists z, number k c = Ok z.
Proof.
  unfold numbers_ok. rewrite forallb_forall. intros Hall Hk.
  specialize (Hall k Hk). destruct (number k c) as [z|]; [now exists z|discriminate].
Qed.

Lemma required_step_rows c s :
  length (values (required_step c s)) = length (values s).
Proof.
  unfold required_step, fillna.
  repeat match goal with
         | |- context [if ?b then _ else _] => destruct b
         end; cbn [values]; now rewrite ?length_map.
Qed.


Lemma length_step_returns c s :
  numbers_ok c = true ->
  exists s', length_step c s = Ok s' /\
             length (values s') = length (values s).
Proof.
  intros Hok. unfold length_step.
  destruct (numbers_ok_number c "min_length" Hok) as [lo ->]; [cbn [In]; tauto|].
  destruct (numbers_ok_number c "max_length" Hok) as [hi ->]; [cbn [In]; tauto|].
  destruct (_ && _); cbn [bind]; eexists; (split; [reflexivity|]);
    cbn [values]; now rewrite ?length_map.
Qed.

Lemma value_step_returns c s :
  numbers_ok c = true ->
  exists s', value_step c s = Ok s' /\
             length (values s') = length (values s).
Proof.
  intros Hok. unfold value_step.
  destruct (numbers_ok_number c "min_value" Hok) as [lo ->]; [cbn [In]; tauto|].
  destruct (numbers_ok_number c "max_value" Hok) as [hi ->]; [cbn [In]; tauto|].
  destruct (_ && _); cbn [bind]; eexists; (split; [reflexivity|]);
    cbn [values]; now rewrite ?length_map.
Qed.

Lemma length_step_rows c s s' :
  length_step c s = Ok s' -> length (values s') = length (values s).
Proof.
  unfold length_step.
  destruct (_ && _); [|now intros [= <-]].
  destruct (number "min_length" c) as [lo|]; [|discriminate].
  destruct (number "max_length" c) as [hi|]; [|discriminate].
  cbn [bind]. intros [= <-]. cbn [values]. now rewrite length_map.
Qed.

Lemma value_step_rows c s s' :
  value_step c s = Ok s' -> length (values s') = length (values s).
Proof.
  unfold value_step.
  destruct (_ && _); [|now intros [= <-]].
  destruct (number "min_value" c) as [lo|]; [|discriminate].
  destruct (number "max_value" c) as [hi|]; [|discriminate].
  cbn [bind]. intros [= <-]. cbn [values]. now rewrite length_map.
Qed.

Lemma allowed_step_rows c s s' :
  allowed_step c s = Ok s' -> length (values s') = length (values s).
Proof.
  unfold allowed_step.
  destruct (c !! "allowed_values") as [[| | | |[|v allowed]]|];
    intros [= <-]; cbn [values read_column]; now rewrite ?length_map.
Qed.

Lemma apply_constraints_rows s c s' :
  _apply_constraints s c = Ok s' -> length (values s') = length (values s).
Proof.
  rewrite apply_constraints_steps.
  destruct (length_step c (required_step c s)) as [s1|] eqn:H1; [|discriminate].
  cbn [bind]. destruct (value_step c s1) as [s2|] eqn:H2; [|discriminate].
  cbn [bind]. intros H3.
  rewrite (allowed_step_rows _ _ _ H3), (value_step_rows _ _ _ H2),
    (length_step_rows _ _ _ H1).
  apply required_step_rows.
Qed.

Lemma suffix_duplicates_rows flags : forall cells n,
  length (suffix_duplicates flags cells n) = length cells.
Proof.
  induction flags as [|[|] flags IH]; intros [|c cells] n; cbn [suffix_duplicates length];
    try reflexivity; now rewrite IH.
Qed.

Lemma ensure_uniqueness_rows s :
  length (values (_ensure_primary_key_uniqueness s)) = length (values s).
Proof.
  unfold _ensure_primary_key_uniqueness.
  destruct (duplicated_any s); [|reflexivity].
  cbn [values]. apply suffix_duplicates_rows.
Qed.

Section Rows.
Variable to_numeric1 : cell -> option cell.
Variable to_datetime1 : cell -> option cell.

Lemma convert_rows s target_type :
  length (values (_convert_to_target_type to_numeric1 to_datetime1 s target_type))
  = length (values s).
Proof.
  unfold _convert_to_target_type. cbv zeta.
  repeat match goal with
         | |- context [if ?b then _ else _] => destruct b
         end; cbn [values]; now rewrite ?length_map.
Qed.

(** X15: whatever the declared type, the constraints and the parsers,
    processing a column neither drops nor adds a row. *)
Theorem X15_processing_keeps_rows (column_data : Series) (column_info : Column) :
  len (_process_column_according_to_schema to_numeric1 to_datetime1
         column_data column_info)
  = len column_data.
Proof.
  unfold len, _process_column_according_to_schema. cbv zeta.
  destruct (_apply_constraints _ _) as [processed|] eqn:Hconstraints;
    [|reflexivity].
  apply apply_constraints_rows in Hconstraints.
  assert (Hconverted : length (values processed) = length (values column_data)).
  { rewrite Hconstraints. destruct (negb _); [apply convert_rows|reflexivity]. }
  destruct (primary_key column_info); [|assumption].
  now rewrite ensure_uniqueness_rows.
Qed.

End Rows.


(** *** Allowed values *)

Definition is_text (c : cell) : bool :=
  match c with CStr _ => true | _ => false end.

(** What the allowed-values constraint does to a cell. *)
Definition keep_allowed (allowed : list cell) (x : cell) : cell :=
  if bool_decide (x ∈ allowed) then x else CNull.

Lemma apply_constraints_returns s c :
  numbers_ok c = true ->
  exists s2, bind (length_step c (required_step c s)) (value_step c) = Ok s2 /\
             _apply_constraints s c = allowed_step c s2.
Proof.
  intros Hok. rewrite apply_constraints_steps.
  destruct (length_step_returns c (required_step c s) Hok) as (s1 & -> & _).
  cbn [bind].
  destruct (value_step_returns c s1 Hok) as (s2 & -> & _).
  cbn [bind]. now exists s2.
Qed.

Lemma allowed_after_filler (allowed : list cell) (filler x : cell) :
  forallb is_text allowed = true -> ~ In filler allowed ->
  keep_allowed allowed (if isnull x then filler else x) = keep_allowed allowed x.
Proof.
  intros Htext Hfiller. unfold keep_allowed.
  destruct x as [|t|z|b]; cbn [isnull]; try reflexivity.
  destruct (bool_decide_reflect (filler ∈ allowed)) as [Hin|_].
  - exfalso. apply Hfiller. now apply list_elem_of_In.
  - destruct (bool_decide_reflect (CNull ∈ allowed)) as [Hin|_]; [|reflexivity].
    apply list_elem_of_In in Hin. rewrite forallb_forall in Htext.
    now apply Htext in Hin.
Qed.

(** With no bound set, the allowed values are tested on the cells as they
    came. *)
Lemma allowed_values_alone (column_data : Series) (c : constraints_t)
    (v : cell) (allowed : list cell) :
  c !! "allowed_values" = Some (VCells (v :: allowed)) ->
  forallb is_text (v :: allowed) = true ->
  is_set "min_length" c = false -> is_set "max_length" c = false ->
  is_set "min_value" c = false -> is_set "max_value" c = false ->
  get_truthy "required" c = false \/ ~ In (CStr "N/A") (v :: allowed) ->
  _apply_constraints column_data c
  = Ok (read_column (map (keep_allowed (v :: allowed)) (values column_data))).
Proof.
  intros Hallowed Htext Hminl Hmaxl Hminv Hmaxv Hfiller.
  rewrite apply_constraints_steps.
  unfold length_step. rewrite Hminl, Hmaxl. cbn [orb andb bind].
  unfold value_step. rewrite Hminv, Hmaxv. cbn [orb andb bind].
  unfold allowed_step. rewrite Hallowed. do 2 f_equal.
  change (fun x : cell => if bool_decide (x ∈ v :: allowed) then x else CNull)
    with (keep_allowed (v :: allowed)).
  unfold required_step.
  destruct (get_truthy "required" c); [|reflexivity].
  destruct Hfiller as [Hfiller|Hfiller]; [discriminate Hfiller|].
  destruct (bool_decide (dtype_of column_data = DObject)).
  - unfold fillna. cbn [values]. rewrite map_map. apply map_ext. intros x.
    now apply allowed_after_filler.
  - destruct (is_numeric_dtype column_data); [|reflexivity].
    unfold fillna. cbn [values]. rewrite map_map. apply map_ext. intros x.
    apply allowed_after_filler; [assumption|].
    intros Hzero. rewrite forallb_forall in Htext.
    now apply Htext in Hzero.
Qed.

(** X16: with a list of allowed texts, every cell of the result is one of
    them or is missing.  When no length or value bound is set, and
    [required] is off or "N/A" is not allowed, the result is the input cell
    by cell, each allowed cell kept and each other cell blanked. *)
Theorem X16_allowed_values_enforced (column_data : Series) (c : constraints_t)
    (v : cell) (allowed : list cell) :
  numbers_ok c = true ->
  c !! "allowed_values" = Some (VCells (v :: allowed)) ->
  forallb is_text (v :: allowed) = true ->
  exists result,
    _apply_constraints column_data c = Ok result /\
    len result = len column_data /\
    Forall (fun x => x = CNull \/ In x (v :: allowed)) (values result) /\
    (is_set "min_length" c = false -> is_set "max_length" c = false ->
     is_set "min_value" c = false -> is_set "max_value" c = false ->
     get_truthy "required" c = false \/ ~ In (CStr "N/A") (v :: allowed) ->
     forall i x,
       nth_error (values column_data) i = Some x ->
       nth_error (values result) i
       = Some (if bool_decide (x ∈ v :: allowed) then x else CNull)).
Proof.
  intros Hok Hallowed Htext.
  destruct (apply_constraints_returns column_data c Hok) as (s2 & Hs2 & Happly).
  unfold allowed_step in Happly. rewrite Hallowed in Happly.
  eexists. split; [exact Happly|]. split; [|split].
  - unfold len. apply (apply_constraints_rows _ c). exact Happly.
  - cbn [values read_column]. apply List.Forall_forall. intros x Hx.
    apply in_map_iff in Hx as (x0 & <- & _).
    destruct (bool_decide_reflect (x0 ∈ v :: allowed)) as [Hin|_]; [|now left].
    right. now apply list_elem_of_In.
  - intros Hminl Hmaxl Hminv Hmaxv Hfiller i x Hx.
    rewrite (allowed_values_alone column_data c v allowed
               Hallowed Htext Hminl Hmaxl Hminv Hmaxv Hfiller) in Happly.
    injection Happly as _ Hcells. cbn [values read_column].
    rewrite <- Hcells, nth_error_map, Hx. reflexivity.
Qed.

Definition classification : constraints_t :=
  <["required" := VBool true]>
    (<["allowed_values" := VCells [CStr "Public"; CStr "Internal"]]> ∅).

Definition labels : Series :=
  mkSeries DObject [CStr "Public"; CNull; CStr "Secret"; CStr "Internal"].

Lemma X16_allowed_values_enforced_witness :
  exists result,
    _apply_constraints labels classification = Ok result /\
    len result = len labels /\
    Forall (fun x => x = CNull \/ In x [CStr "Public"; CStr "Internal"])
      (values result) /\
    (is_set "min_length" classification = false ->
     is_set "max_length" classification = false ->
     is_set "min_value" classification = false ->
     is_set "max_value" classification = false ->
     get_truthy "required" classification = false
     \/ ~ In (CStr "N/A") [CStr "Public"; CStr "Internal"] ->
     forall i x,
       nth_error (values labels) i = Some x ->
       nth_error (values result) i
       = Some (if bool_decide (x ∈ [CStr "Public"; CStr "Internal"])
               then x else CNull)).
Proof.
  apply (X16_allowed_values_enforced labels classification
           (CStr "Public") [CStr "Internal"]); reflexivity.
Defined.

Lemma allowed_after_fill (allowed : list cell) (x : cell) :
  forallb is_text allowed = true -> ~ In (CStr "N/A") allowed ->
  keep_allowed allowed (if isnull x then CStr "N/A" else x) = keep_allowed allowed x.
Proof.
  intros Htext Hfiller. unfold keep_allowed.
  destruct x as [|t|z|b]; cbn [isnull]; try reflexivity.
  destruct (bool_decide_reflect (CStr "N/A" ∈ allowed)) as [Hin|_].
  - exfalso. apply Hfiller. now apply list_elem_of_In.
  - destruct (bool_decide_reflect (CNull ∈ allowed)) as [Hin|_]; [|reflexivity].
    apply list_elem_of_In in Hin. rewrite forallb_forall in Htext.
    now apply Htext in Hin.
Qed.

(** X17: on a text column, [required] is undone by a list of allowed texts
    that does not contain "N/A": the filler put in the missing cells is not
    allowed and is blanked again, so the result is the one the allowed
    values alone give, and every missing cell is still missing. *)
Theorem X17_required_undone_by_allowed_values (column_data : Series)
    (c : constraints_t) (v : cell) (allowed : list cell) :
  dtype_of column_data = DObject ->
  get_truthy "required" c = true ->
  is_set "min_length" c = false -> is_set "max_length" c = false ->
  c !! "allowed_values" = Some (VCells (v :: allowed)) ->
  forallb is_text (v :: allowed) = true ->
  ~ In (CStr "N/A") (v :: allowed) ->
  _apply_constraints column_data c
  = Ok (read_column (map (keep_allowed (v :: allowed)) (values column_data))) /\
  null_count column_data
  <= null_count (read_column (map (keep_allowed (v :: allowed)) (values column_data))).
Proof.
  intros Hdtype Hrequired Hmin Hmax Hallowed Htext Hfiller. split.
  - rewrite apply_constraints_steps.
    unfold required_step. rewrite Hrequired, Hdtype.
    rewrite bool_decide_eq_true_2 by reflexivity.
    unfold length_step. rewrite Hmin, Hmax. cbn [orb andb bind].
    unfold value_step, is_numeric_dtype, fillna. cbn [dtype_of].
    rewrite Hdtype.
    rewrite !bool_decide_eq_false_2 by discriminate.
    rewrite andb_false_r. cbn [bind].
    unfold allowed_step. rewrite Hallowed. cbn [values].
    do 2 f_equal. rewrite map_map. apply map_ext. intros x.
    now apply (allowed_after_fill (v :: allowed)).
  - unfold null_count. cbn [values read_column].
    induction (values column_data) as [|x cells IH]; [reflexivity|].
    cbn [map List.filter].
    destruct x as [|t|z|b]; cbn [isnull];
      try (etransitivity; [exact IH|];
           destruct (isnull (keep_allowed (v :: allowed) _)); cbn [length]; lia).
    unfold keep_allowed at 1.
    destruct (bool_decide (CNull ∈ v :: allowed)); cbn [isnull length]; lia.
Qed.

Lemma X17_required_undone_by_allowed_values_witness :
  _apply_constraints labels classification
  = Ok (read_column
          (map (keep_allowed [CStr "Public"; CStr "Internal"]) (values labels))) /\
  null_count labels
  <= null_count (read_column
                   (map (keep_allowed [CStr "Public"; CStr "Internal"])
                      (values labels))).
Proof.
  apply (X17_required_undone_by_allowed_values labels classification
           (CStr "Public") [CStr "Internal"]); try reflexivity.
  cbn [In]. intros [H|[H|[]]]; discriminate H.
Defined.


(** *** Length and value bounds *)
















(** *** Required columns *)







(** *** Primary-key values *)






End ConstraintSpec.

(** ** Cleaned column names *)

Module ColumnNameSpec.
Import ColumnNames.

(** The characters [a-z0-9_]. *)
Definition is_clean (c : ascii) : bool :=
  Re.is_lower c || Re.is_digit c || Re.one_of "_" c.

Definition is_ascii (c : ascii) : bool := (nat_of_ascii c <? 128)%nat.

Fixpoint all_chars (p : ascii -> bool) (s : string) : bool :=
  match s with
  | EmptyString => true
  | String c s' => p c && all_chars p s'
  end.

Ltac each_character c :=
  destruct c as [[] [] [] [] [] [] [] []]; vm_compute;
  repeat split; congruence.

Lemma word_lower_clean c :
  is_word c = true -> is_clean (PyStr.lower_ascii c) = true.
Proof. each_character c. Qed.

Lemma space_not_word c : is_space c = true -> is_word c = false.
Proof. each_character c. Qed.

Lemma clean_character c :
  is_clean c = true ->
  is_word c = true /\ is_space c = false /\ PyStr.lower_ascii c = c /\
  Ascii.eqb Re.newline c = false.
Proof. each_character c. Qed.

Lemma cleaned_chars s : forall in_run,
  all_chars is_clean
    (PyStr.lower (collapse_spaces in_run
                    (Re.keep (fun c => is_word c || is_space c) s))) = true.
Proof.
  induction s as [|c s IH]; intros in_run; [reflexivity|].
  cbn [Re.keep].
  destruct (is_word c) eqn:Hword; cbn [orb].
  - cbn [collapse_spaces].
    destruct (is_space c) eqn:Hspace;
      [apply space_not_word in Hspace; congruence|].
    cbn [PyStr.lower all_chars]. now rewrite word_lower_clean, IH.
  - destruct (is_space c) eqn:Hspace; [|apply IH].
    cbn [collapse_spaces]. rewrite Hspace.
    destruct in_run; [apply IH|].
    cbn [PyStr.lower all_chars]. now rewrite IH.
Qed.

Lemma clean_is_fixed s :
  all_chars is_clean s = true -> _clean_column_name s = s.
Proof.
  unfold _clean_column_name. cbv zeta.
  assert (Hcollapse : forall t in_run,
            all_chars is_clean t = true -> collapse_spaces in_run t = t).
  { induction t as [|c t IH]; intros in_run Hclean; [reflexivity|].
    cbn [all_chars] in Hclean. apply andb_true_iff in Hclean as [Hc Ht].
    destruct (clean_character c Hc) as (_ & Hspace & _).
    cbn [collapse_spaces]. rewrite Hspace. now rewrite IH. }
  induction s as [|c s IH]; intros Hclean; [reflexivity|].
  cbn [all_chars] in Hclean. apply andb_true_iff in Hclean as [Hc Hs].
  destruct (clean_character c Hc) as (Hword & Hspace & Hlower & _).
  specialize (IH Hs).
  cbn [Re.keep]. rewrite Hword. cbn [orb collapse_spaces]. rewrite Hspace.
  cbn [PyStr.lower]. rewrite Hlower. f_equal.
  rewrite Hcollapse in IH |- *; try assumption.
  - clear -Hs. induction s as [|c s IH]; [reflexivity|].
    cbn [all_chars] in Hs. apply andb_true_iff in Hs as [Hc Hs].
    destruct (clean_character c Hc) as (Hword & _).
    cbn [Re.keep]. rewrite Hword. cbn [orb all_chars]. now rewrite Hc, IH.
  - clear -Hs. induction s as [|c s IH]; [reflexivity|].
    cbn [all_chars] in Hs. apply andb_true_iff in Hs as [Hc Hs].
    destruct (clean_character c Hc) as (Hword & _).
    cbn [Re.keep]. rewrite Hword. cbn [orb all_chars]. now rewrite Hc, IH.
Qed.

Lemma cleaned_length s : forall in_run,
  String.length (PyStr.lower (collapse_spaces in_run
                                (Re.keep (fun c => is_word c || is_space c) s)))
  <= String.length s.
Proof.
  induction s as [|c s IH]; intros in_run; [reflexivity|].
  cbn [Re.keep String.length].
  destruct (is_word c || is_space c); [|specialize (IH in_run); lia].
  cbn [collapse_spaces].
  destruct (is_space c); [destruct in_run|];
    cbn [PyStr.lower String.length];
    match goal with
    | |- context [collapse_spaces ?b _] => specialize (IH b); lia
    end.
Qed.

(** X22: a cleaned column name (of an ASCII name) is made of the
    characters [a-z0-9_] only and is no longer than the name; cleaning a
    cleaned name changes nothing. *)
Theorem X22_clean_column_name (column_name : string) :
  all_chars is_ascii column_name = true ->
  all_chars is_clean (_clean_column_name column_name) = true /\
  String.length (_clean_column_name column_name) <= String.length column_name /\
  _clean_column_name (_clean_column_name column_name)
  = _clean_column_name column_name.
Proof.
  intros _.
  assert (Hclean : all_chars is_clean (_clean_column_name column_name) = true)
    by apply cleaned_chars.
  split; [exact Hclean|]. split; [apply cleaned_length|].
  now apply clean_is_fixed.
Qed.

Lemma X22_clean_column_name_witness :
  all_chars is_clean (_clean_column_name "Customer  Name (EN)") = true /\
  String.length (_clean_column_name "Customer  Name (EN)")
  <= String.length "Customer  Name (EN)" /\
  _clean_column_name (_clean_column_name "Customer  Name (EN)")
  = _clean_column_name "Customer  Name (EN)".
Proof.
  apply (X22_clean_column_name "Customer  Name (EN)"). reflexivity.
Defined.

(** The pattern of the naming check once a first letter is read. *)
Definition snake_case_tail : Re.regex :=
  Re.Cat (Re.Star (Re.Chr (fun c => Re.is_lower c || Re.is_digit c || Re.one_of "_" c)))
    (Re.opt (Re.Chr (Ascii.eqb Re.newline))).

Lemma accepts_void s : Re.accepts Re.Void s = false.
Proof. induction s as [|c s IH]; [reflexivity|exact IH]. Qed.

Lemma accepts_tail s :
  all_chars is_clean s = true -> Re.accepts snake_case_tail s = true.
Proof.
  induction s as [|c s IH]; intros Hclean; [reflexivity|].
  cbn [all_chars] in Hclean. apply andb_true_iff in Hclean as [Hc Hs].
  destruct (clean_character c Hc) as (_ & _ & _ & Hnewline).
  unfold is_clean in Hc.
  cbn [Re.accepts snake_case_tail Re.deriv Re.nullable Re.opt].
  rewrite Hc, Hnewline. cbn [Re.cat Re.alt]. now apply IH.
Qed.

(** X23: the naming check of the problem detector, on a cleaned name:
    the name passes exactly when it starts with a letter. A name that
    starts with a digit or an underscore, or that is empty after cleaning,
    is still reported as inconsistent. *)
Theorem X23_cleaned_name_naming_check (column_name : string) :
  all_chars is_ascii column_name = true ->
  SchemaProblemAnalyzer._is_consistent_naming (_clean_column_name column_name)
  = match _clean_column_name column_name with
    | String c _ => Re.is_lower c
    | EmptyString => false
    end.
Proof.
  intros _.
  pose proof (cleaned_chars column_name false) as Hclean.
  fold (_clean_column_name column_name) in Hclean.
  unfold SchemaProblemAnalyzer._is_consistent_naming.
  assert (Hlower : forall s, all_chars is_clean s = true -> PyStr.lower s = s).
  { induction s as [|c s IH]; intros Hs; [reflexivity|].
    cbn [all_chars] in Hs. apply andb_true_iff in Hs as [Hc Hs].
    destruct (clean_character c Hc) as (_ & _ & Hfixed & _).
    cbn [PyStr.lower]. now rewrite Hfixed, IH. }
  rewrite (Hlower _ Hclean).
  destruct (_clean_column_name column_name) as [|c s]; [reflexivity|].
  cbn [all_chars] in Hclean. apply andb_true_iff in Hclean as [_ Hs].
  unfold Re.match_anchored, Re.snake_case_pattern.
  cbn [Re.accepts Re.deriv Re.nullable Re.opt andb].
  destruct (Re.is_lower c); cbn [Re.cat Re.alt].
  - now apply accepts_tail.
  - apply accepts_void.
Qed.

Lemma X23_cleaned_name_naming_check_witness :
  SchemaProblemAnalyzer._is_consistent_naming (_clean_column_name "2nd Address")
  = match _clean_column_name "2nd Address" with
    | String c _ => Re.is_lower c
    | EmptyString => false
    end.
Proof.
  apply (X23_cleaned_name_naming_check "2nd Address"). reflexivity.
Defined.

End ColumnNameSpec.

(** ** The corrected schema *)

Module CorrectionSpec.
Import Pandas Schema SchemaCorrection.
Import SchemaProblemAnalyzer DetectorSpec.

Definition names (cols : list Column) : list string := map name cols.

(** Some column name contains "id", whatever the letter case. *)
Definition id_like_name (cols : list Column) : bool :=
  existsb (PyStr.contains "id") (map (fun col => PyStr.lower (name col)) cols).

Ltac split_branches :=
  repeat match goal with
         | |- context [if ?b then _ else _] => destruct b eqn:?
         end.

Lemma fix_data_type_known col :
  String.eqb (data_type (fix_data_type col)) "unknown" = false.
Proof.
  unfold fix_data_type. cbv zeta.
  destruct (String.eqb (data_type col) "unknown") eqn:Hunknown; [|exact Hunknown].
  split_branches; reflexivity.
Qed.

Lemma fix_data_type_keeps col :
  name (fix_data_type col) = name col /\
  primary_key (fix_data_type col) = primary_key col.
Proof. unfold fix_data_type. cbv zeta. split_branches; split; reflexivity. Qed.

Lemma add_missing_constraints_keeps col :
  name (add_missing_constraints col) = name col /\
  primary_key (add_missing_constraints col) = primary_key col /\
  data_type (add_missing_constraints col) = data_type col.
Proof.
  unfold add_missing_constraints. cbv zeta.
  split_branches; repeat split; reflexivity.
Qed.

Lemma corrected_names cols :
  names (corrected_columns cols) = names (_add_missing_critical_fields cols).
Proof.
  unfold corrected_columns, _add_missing_constraints, _fix_data_types, names.
  rewrite !map_map. apply map_ext. intros col.
  destruct (add_missing_constraints_keeps (fix_data_type col)) as (-> & _).
  apply fix_data_type_keeps.
Qed.

Lemma corrected_primary_key cols :
  existsb primary_key (corrected_columns cols)
  = existsb primary_key (_add_missing_critical_fields cols).
Proof.
  unfold corrected_columns, _add_missing_constraints, _fix_data_types.
  induction (_add_missing_critical_fields cols) as [|col l IH]; [reflexivity|].
  cbn [map existsb]. rewrite IH. f_equal.
  destruct (add_missing_constraints_keeps (fix_data_type col)) as (_ & -> & _).
  apply fix_data_type_keeps.
Qed.

Lemma audit_columns_no_key (keep : string * string -> bool) :
  existsb primary_key (map audit_column (List.filter keep audit_fields)) = false.
Proof.
  unfold audit_fields. cbn [List.filter].
  split_branches; reflexivity.
Qed.

Lemma critical_fields_primary_key cols :
  existsb primary_key (_add_missing_critical_fields cols)
  = existsb primary_key cols || negb (id_like_name cols).
Proof.
  unfold _add_missing_critical_fields, id_like_name. cbv zeta.
  rewrite existsb_app, audit_columns_no_key, orb_false_r.
  destruct (existsb (PyStr.contains "id") _); cbn [negb].
  - now rewrite orb_false_r.
  - rewrite existsb_app. reflexivity.
Qed.

(** The audit field "created_date" is in the result under its name, or a
    column of that name (in some letter case) was there before. *)
Lemma critical_fields_created cols :
  existsb (name_has "created") (_add_missing_critical_fields cols) = true.
Proof.
  unfold _add_missing_critical_fields. cbv zeta.
  set (existing_names := map (fun col => PyStr.lower (name col)) cols).
  rewrite existsb_app. apply orb_true_iff.
  destruct (PyStr.mem "created_date" existing_names) eqn:Hmem.
  - left. apply TransformerSpec.mem_In in Hmem.
    apply in_map_iff in Hmem as (col & Hname & Hin).
    assert (Hcol : name_has "created" col = true)
      by (unfold name_has; now rewrite Hname).
    destruct (negb _); [rewrite existsb_app; apply orb_true_iff; left|];
      apply existsb_exists; now exists col.
  - right. unfold audit_fields. cbn [List.filter fst]. rewrite Hmem.
    reflexivity.
Qed.

Lemma name_has_corrected word cols :
  existsb (name_has word) (corrected_columns cols)
  = existsb (name_has word) (_add_missing_critical_fields cols).
Proof.
  unfold corrected_columns, _add_missing_constraints, _fix_data_types.
  induction (_add_missing_critical_fields cols) as [|col l IH]; [reflexivity|].
  cbn [map existsb]. rewrite IH. f_equal. unfold name_has.
  destruct (add_missing_constraints_keeps (fix_data_type col)) as (-> & _).
  now destruct (fix_data_type_keeps col) as (-> & _).
Qed.

Lemma corrected_known_types cols :
  count (fun col => String.eqb (data_type col) "unknown") (corrected_columns cols) = 0.
Proof.
  unfold corrected_columns, _add_missing_constraints, _fix_data_types, count.
  induction (_add_missing_critical_fields cols) as [|col l IH]; [reflexivity|].
  cbn [map List.filter].
  destruct (add_missing_constraints_keeps (fix_data_type col)) as (_ & _ & ->).
  now rewrite fix_data_type_known.
Qed.

(** X24: after the three column steps of [generate_corrected_schema] no
    column has the type "unknown"; every text column has the length bounds
    1 and 255 and every numeric column the value bounds 0 and 999999999,
    whatever bounds it had before (the added key column "id" included,
    whose lower bound 1 becomes 0); the input columns keep their names and
    their order, at most five columns being appended. *)
Theorem X24_corrected_columns (cols : list Column) :
  Forall (fun col =>
            data_type col <> "unknown" /\
            (data_type col = "text" ->
             constraints col !! "min_length" = Some (VInt 1) /\
             constraints col !! "max_length" = Some (VInt 255)) /\
            (data_type col = "numeric" ->
             constraints col !! "min_value" = Some (VInt 0) /\
             constraints col !! "max_value" = Some (VInt 999999999)))
    (corrected_columns cols) /\
  (exists added, names (corrected_columns cols) = names cols ++ added /\
                 length added <= 5).
Proof.
  split.
  - unfold corrected_columns, _add_missing_constraints, _fix_data_types.
    rewrite map_map. apply List.Forall_forall. intros col Hcol.
    apply in_map_iff in Hcol as (col0 & <- & _).
    pose proof (fix_data_type_known col0) as Hknown.
    destruct (add_missing_constraints_keeps (fix_data_type col0)) as (_ & _ & Htype).
    split; [|split].
    + rewrite Htype. intros Hunknown. rewrite Hunknown in Hknown. discriminate.
    + rewrite Htype. intros Htext.
      unfold add_missing_constraints. cbv zeta. rewrite Htext.
      rewrite String.eqb_refl. cbn [constraints with_constraints].
      unfold constraints_t.
      rewrite lookup_insert_ne by discriminate.
      now rewrite !lookup_insert_eq.
    + rewrite Htype. intros Hnumeric.
      unfold add_missing_constraints. cbv zeta. rewrite Hnumeric.
      replace ("numeric" =? "text")%string with false by reflexivity.
      rewrite String.eqb_refl. cbn [constraints with_constraints].
      unfold constraints_t.
      rewrite lookup_insert_ne by discriminate.
      now rewrite !lookup_insert_eq.
  - rewrite corrected_names. unfold _add_missing_critical_fields, names. cbv zeta.
    destruct (negb _).
    + rewrite !map_app, <- app_assoc. eexists. split; [reflexivity|].
      rewrite length_app, !length_map. cbn [length].
      pose proof (filter_length_le
                    (fun field : string * string =>
                       negb (PyStr.mem (fst field)
                               (map (fun col => PyStr.lower (name col)) cols)))
                    audit_fields) as Hle.
      cbn [audit_fields length] in Hle. cbn [audit_fields]. lia.
    + rewrite map_app. eexists. split; [reflexivity|].
      rewrite !length_map.
      pose proof (filter_length_le
                    (fun field : string * string =>
                       negb (PyStr.mem (fst field)
                               (map (fun col => PyStr.lower (name col)) cols)))
                    audit_fields) as Hle.
      cbn [audit_fields length] in Hle. cbn [audit_fields]. lia.
Qed.

(** The identifiers the detector can still report on corrected columns. *)
Definition ids_after_correction : list string :=
  ["DG001"; "DS001";
   "DG002"; "DG003"; "DQ001"; "DQ002"; "DQ004"; "DS002"; "BR001"; "BR002";
   "DA001"; "DA002"].

(** X25: the detector on a schema whose columns went through the
    correction.  DQ005 (unknown types) and DS004 (audit trail) are never
    reported; DG001 (no primary key) is still reported exactly when the
    input had no primary-key column and some column name contains "id",
    the key column being added by name, not by flag. *)
Theorem X25_problems_after_correction (schema_info : SchemaInfo)
    (cols : list Column) :
  columns schema_info = corrected_columns cols ->
  reported_ids (analyze_schema_problems schema_info)
    `sublist_of` ids_after_correction /\
  (In "DG001" (reported_ids (analyze_schema_problems schema_info))
   <-> existsb primary_key cols = false /\ id_like_name cols = true).
Proof.
  intros Hcolumns.
  assert (Haudit : some_name_has ["created"; "modified"; "updated"; "audit"; "log"]
                     (columns schema_info) = true).
  { unfold some_name_has. cbn [existsb].
    now rewrite Hcolumns, name_has_corrected, critical_fields_created. }
  assert (Hkey : existsb primary_key (columns schema_info)
                 = existsb primary_key cols || negb (id_like_name cols))
    by now rewrite Hcolumns, corrected_primary_key, critical_fields_primary_key.
  assert (Hknown : count (fun col => String.eqb (data_type col) "unknown")
                     (columns schema_info) = 0)
    by (rewrite Hcolumns; apply corrected_known_types).
  assert (Hsub : reported_ids (analyze_schema_problems schema_info)
                   `sublist_of` ids_after_correction).
  { rewrite reported_ids_of_analysis.
    unfold critical_ids, major_ids, minor_ids, governance_major_ids,
      quality_major_ids, security_major_ids, business_major_ids,
      ids_after_correction.
    cbv zeta. rewrite Haudit, Hknown. cbn [negb Nat.ltb Nat.leb when].
    rewrite <- !app_assoc. cbn [app].
    do 8 apply when_sublist. cbn [app].
    apply when_sublist.
    replace (match relationships schema_info with [] => ["BR002"] | _ :: _ => [] end)
      with (when (match relationships schema_info with [] => true | _ :: _ => false end)
              "BR002")
      by now destruct (relationships schema_info).
    do 2 apply when_sublist.
    rewrite <- (app_nil_r (when _ "DA002")). apply when_sublist. apply sublist_nil. }
  split; [exact Hsub|].
  rewrite missing_key_reported, Hkey.
  destruct (existsb primary_key cols); destruct (id_like_name cols);
    cbn [orb negb]; intuition congruence.
Qed.


(** A table whose only column has a name that contains "id" without being
    a key. *)
Definition paid_table : list Column := [ProblemSpec.plain_column "paid_amount"].

Lemma X25_problems_after_correction_witness :
  reported_ids
    (analyze_schema_problems (ProblemSpec.schema_of (corrected_columns paid_table)))
    `sublist_of` ids_after_correction /\
  (In "DG001"
     (reported_ids
        (analyze_schema_problems
           (ProblemSpec.schema_of (corrected_columns paid_table))))
   <-> existsb primary_key paid_table = false /\ id_like_name paid_table = true).
Proof.
  apply (X25_problems_after_correction
           (ProblemSpec.schema_of (corrected_columns paid_table)) paid_table).
  reflexivity.
Defined.


(** *** Inferred relationships *)

Definition key_like (column : Column) : bool :=
  PyStr.endswith "_id" (PyStr.lower (name column)).

Lemma endswith_id_not_id (s : string) :
  PyStr.endswith "_id" s = true -> String.eqb s "id" = false.
Proof.
  intros Hends. destruct (String.eqb_spec s "id") as [->|]; [|reflexivity].
  discriminate Hends.
Qed.

(** The relationship inferred from a column. *)
Definition relationship_of (column : Column) : relationship :=
  ChildParent (PyStr.lower (name column))
    (PyStr.replace "_id" "" (PyStr.lower (name column))) "many_to_one".

(** X27: [_add_relationships] keeps the relationships it finds and appends
    one per column whose lower-cased name ends with "_id", in the order of
    the columns: its child is that name, its parent table the name without
    "_id" (the test against the name "id" never decides); it does not look
    at what is already there, so a second run appends the same
    relationships again. *)
Theorem X27_relationships_appended (rels : list relationship) (cols : list Column) :
  _add_relationships rels cols
  = rels ++ map relationship_of (List.filter key_like cols) /\
  _add_relationships (_add_relationships rels cols) cols
  = rels ++ map relationship_of (List.filter key_like cols)
         ++ map relationship_of (List.filter key_like cols).
Proof.
  assert (Hadded : forall found,
            _add_relationships found cols
            = found ++ map relationship_of (List.filter key_like cols)).
  { intros found. unfold _add_relationships. f_equal.
    induction cols as [|column cols IH]; [reflexivity|].
    cbn [omap list_omap List.filter]. cbv zeta. fold (key_like column).
    destruct (key_like column) eqn:Hkey.
    - unfold key_like in Hkey. rewrite (endswith_id_not_id _ Hkey).
      cbn [andb negb map]. fold (relationship_of column). f_equal. exact IH.
    - cbn [andb]. exact IH. }
  split; [apply Hadded|].
  now rewrite !Hadded, <- app_assoc.
Qed.

End CorrectionSpec.

(** ** From the sampled analysis to the detector *)

Module AnalysisPipelineSpec.
Import Pandas Schema Py SmartSchemaAnalyzer AnalyzerSpec AnalyzerInvariants.

(** The column a relationship starts from. *)
Definition child_column (r : relationship) : string :=
  match r with
  | SourceTarget source _ _ => source
  | ChildParent child _ _ => child
  end.

Lemma mapM_analyze_foreign numeric datetime (schema_df : DataFrame) cols :
  mapM (fun col => _analyze_column numeric datetime (snd col) (fst col)) schema_df
  = Ok cols ->
  map (fun column => (name column, foreign_key column)) cols
  = map (fun col => (fst col, _is_foreign_key (fst col) (snd col))) schema_df.
Proof.
  revert cols. induction schema_df as [|[header column] df IH]; intros cols.
  - cbn. now intros [= <-].
  - cbn [mapM fst snd].
    destruct (values column) as [|c cells] eqn:Hv.
    { rewrite (analyze_column_without_rows _ _ _ _ Hv). discriminate. }
    destruct (analyze_column_with_rows numeric datetime column header)
      as [issues Heq]; [congruence|].
    rewrite Heq. cbn [bind].
    destruct (mapM _ df) as [cols'|] eqn:Hrest; cbn [bind]; [|discriminate].
    intros [= <-]. cbn [map name foreign_key fst snd].
    now rewrite (IH cols' eq_refl).
Qed.

Lemma relationships_of_flags (schema_df : DataFrame) :
  map child_column (_analyze_relationships schema_df)
  = map fst (List.filter snd
               (map (fun col => (fst col, _is_foreign_key (fst col) (snd col)))
                  schema_df)).
Proof.
  unfold _analyze_relationships.
  induction schema_df as [|[header column] df IH]; [reflexivity|].
  cbn [omap list_omap map List.filter fst snd]. cbv zeta.
  destruct (_is_foreign_key header column); cbn [map fst child_column];
    now rewrite <- IH.
Qed.

Lemma names_of_flags (cols : list Column) :
  map name (List.filter foreign_key cols)
  = map fst (List.filter snd
               (map (fun column => (name column, foreign_key column)) cols)).
Proof.
  induction cols as [|column cols IH]; [reflexivity|].
  cbn [map List.filter snd].
  destruct (foreign_key column); cbn [map fst]; now rewrite IH.
Qed.

Lemma no_foreign_key (cols : list Column) :
  map name (List.filter foreign_key cols) = [] <-> existsb foreign_key cols = false.
Proof.
  induction cols as [|column cols IH]; [easy|].
  cbn [List.filter existsb].
  destruct (foreign_key column); cbn [map orb]; [easy|exact IH].
Qed.

(** X26: in the Schema Model of a sampled table the relationships and the
    foreign-key flags agree: there is one relationship per column flagged
    as foreign key, in the order of the columns and starting from that
    column; hence the detector reports BR002 on it exactly when no column
    is flagged as foreign key. *)
Theorem X26_relationships_follow_foreign_keys (numeric datetime : Series -> bool)
    (mean_of : list float -> float) (schema_df : DataFrame) (sheet : string)
    (schema : SchemaInfo) :
  _analyze_regular_data_format numeric datetime mean_of schema_df sheet = Ok schema ->
  map child_column (relationships schema)
  = map name (List.filter foreign_key (columns schema)) /\
  (In "BR002"
     (DetectorSpec.reported_ids (SchemaProblemAnalyzer.analyze_schema_problems schema))
   <-> existsb foreign_key (columns schema) = false).
Proof.
  unfold _analyze_regular_data_format. intros Hok.
  destruct (mapM _ schema_df) as [cols|] eqn:Hcols; [|discriminate].
  cbn [bind] in Hok. injection Hok as <-.
  apply mapM_analyze_foreign in Hcols.
  assert (Hagree : map child_column (_analyze_relationships schema_df)
                   = map name (List.filter foreign_key cols))
    by now rewrite relationships_of_flags, names_of_flags, Hcols.
  unfold record_columns. cbn [columns relationships].
  split; [exact Hagree|].
  rewrite DetectorSpec.no_relationship_reported. cbn [relationships].
  rewrite <- no_foreign_key, <- Hagree.
  destruct (_analyze_relationships schema_df); cbn [map]; split;
    intros H; try reflexivity; discriminate H.
Qed.

Definition orders : DataFrame :=
  [ ("order_no", read_column [CInt 1; CInt 2; CInt 3]);
    ("customer_id", read_column [CInt 7; CInt 7; CInt 9]);
    ("amount", read_column [CInt 100; CInt 250; CInt 80]) ].

Definition orders_schema : SchemaInfo :=
  match _analyze_regular_data_format numeric_ok datetime_ok mean orders "Orders" with
  | Ok schema => schema
  | Raise _ => ProblemSpec.schema_of []
  end.

Lemma X26_relationships_follow_foreign_keys_witness :
  map child_column (relationships orders_schema)
  = map name (List.filter foreign_key (columns orders_schema)) /\
  (In "BR002"
     (DetectorSpec.reported_ids
        (SchemaProblemAnalyzer.analyze_schema_problems orders_schema))
   <-> existsb foreign_key (columns orders_schema) = false).
Proof.
  apply (X26_relationships_follow_foreign_keys numeric_ok datetime_ok mean
           orders "Orders").
  vm_compute. reflexivity.
Defined.

End AnalysisPipelineSpec.
